(** * hw05_final: the posts application (Django 2.2)

    A shallow embedding of [posts/models.py], [posts/forms.py] and
    [posts/views.py].  The tables of the relational store are lists of
    records in primary-key order; a view is a function from the store (and
    the clock reading, where the view reads the clock) to a result and a new
    store.  The framework calls the views make (QuerySet filters, the
    deletion collector, ModelForm cleaning, Paginator, cache_page,
    login_required, get_object_or_404) are written out with the behaviour
    they have in Django 2.2, the version named by the migration, and the
    builtins of Python they rest on ([str.strip], [int], [quote]) with the
    behaviour of CPython 3.11.  The settings are not part of the
    application: the database is taken to be SQLite and the cache the
    local-memory cache, Django's defaults, and the login page to be on
    the same host. *)

From Stdlib Require Import ZArith List String Ascii Bool Lia.
From Stdlib Require Import Sorting.Sorted Sorting.Permutation.
Import ListNotations.
Open Scope string_scope.
Open Scope list_scope.
Open Scope Z_scope.

(** ** Python builtins applied to request strings *)

Module Py.

(** Values a view hands to [Paginator.get_page]: [None], a [str] taken
    from the query string, or an [int]. *)
Inductive value : Type :=
| PyNone
| PyStr (s : string)
| PyInt (z : Z).

(** A [str] is a sequence of Unicode code points.  It is held as the
    string of its UTF-8 bytes, which is what a string literal of this file
    denotes; [decode] gives its code points and [encode] the bytes of a
    sequence of code points.  Equality of two [str] is equality of their
    bytes.  A byte that starts no UTF-8 sequence, which no [str] holds,
    is read as U+FFFD. *)
Definition code_point : Type := Z.

Definition ord (c : ascii) : Z := Z.of_N (N_of_ascii c).

Definition chr (b : Z) : ascii := ascii_of_N (Z.to_N b).

(** A continuation byte of a UTF-8 sequence. *)
Definition trail (b : Z) : bool := (128 <=? b) && (b <? 192).

Fixpoint decode (s : string) : list code_point :=
  match s with
  | EmptyString => []
  | String c0 r0 =>
      let a := ord c0 in
      if a <? 128 then a :: decode r0
      else
        match r0 with
        | EmptyString => [0xFFFD]
        | String c1 r1 =>
            let b := ord c1 in
            if (192 <=? a) && (a <? 224) && trail b then
              ((a - 192) * 64 + (b - 128)) :: decode r1
            else
              match r1 with
              | EmptyString => 0xFFFD :: decode r0
              | String c2 r2 =>
                  let c := ord c2 in
                  if (224 <=? a) && (a <? 240) && trail b && trail c then
                    ((a - 224) * 4096 + (b - 128) * 64 + (c - 128))
                      :: decode r2
                  else
                    match r2 with
                    | EmptyString => 0xFFFD :: decode r0
                    | String c3 r3 =>
                        let d := ord c3 in
                        if (240 <=? a) && (a <? 248)
                           && trail b && trail c && trail d then
                          ((a - 240) * 262144 + (b - 128) * 4096
                           + (c - 128) * 64 + (d - 128)) :: decode r3
                        else 0xFFFD :: decode r0
                    end
              end
        end
  end.

Definition encode_point (c : code_point) : string :=
  if c <? 128 then String (chr c) EmptyString
  else if c <? 2048 then
    String (chr (192 + c / 64)) (String (chr (128 + c mod 64)) EmptyString)
  else if c <? 65536 then
    String (chr (224 + c / 4096))
      (String (chr (128 + (c / 64) mod 64))
         (String (chr (128 + c mod 64)) EmptyString))
  else
    String (chr (240 + c / 262144))
      (String (chr (128 + (c / 4096) mod 64))
         (String (chr (128 + (c / 64) mod 64))
            (String (chr (128 + c mod 64)) EmptyString))).

Fixpoint encode (l : list code_point) : string :=
  match l with
  | [] => EmptyString
  | c :: r => String.append (encode_point c) (encode r)
  end.

(** [str.isspace] on one character ([Py_UNICODE_ISSPACE]): the
    characters [str.strip] removes. *)
Definition isspace (c : code_point) : bool :=
  ((9 <=? c) && (c <=? 13)) || ((28 <=? c) && (c <=? 32))
  || (c =? 0x85) || (c =? 0xA0) || (c =? 0x1680)
  || ((0x2000 <=? c) && (c <=? 0x200A))
  || (c =? 0x2028) || (c =? 0x2029) || (c =? 0x202F) || (c =? 0x205F)
  || (c =? 0x3000).

(** The white space [int()] skips around an ASCII literal
    ([Py_ISSPACE]). *)
Definition isspace_c (c : code_point) : bool :=
  ((9 <=? c) && (c <=? 13)) || (c =? 32).

Fixpoint lstrip_by (sp : code_point -> bool) (l : list code_point)
  : list code_point :=
  match l with
  | [] => []
  | c :: r => if sp c then lstrip_by sp r else l
  end.

Definition rstrip_by (sp : code_point -> bool) (l : list code_point)
  : list code_point :=
  rev (lstrip_by sp (rev l)).

(** [s.strip()] *)
Definition strip (s : string) : string :=
  encode (lstrip_by isspace (rstrip_by isspace (decode s))).

(** The code point of the digit zero of every decimal script of the
    interpreter's Unicode database (14.0); the nine code points after it
    are the digits one to nine. *)
Definition zeros : list code_point :=
  [0x30; 0x660; 0x6F0; 0x7C0; 0x966; 0x9E6; 0xA66; 0xAE6; 0xB66;
   0xBE6; 0xC66; 0xCE6; 0xD66; 0xDE6; 0xE50; 0xED0; 0xF20; 0x1040;
   0x1090; 0x17E0; 0x1810; 0x1946; 0x19D0; 0x1A80; 0x1A90; 0x1B50;
   0x1BB0; 0x1C40; 0x1C50; 0xA620; 0xA8D0; 0xA900; 0xA9D0; 0xA9F0;
   0xAA50; 0xABF0; 0xFF10; 0x104A0; 0x10D30; 0x11066; 0x110F0;
   0x11136; 0x111D0; 0x112F0; 0x11450; 0x114D0; 0x11650; 0x116C0;
   0x11730; 0x118E0; 0x11950; 0x11C50; 0x11D50; 0x11DA0; 0x16A60;
   0x16AC0; 0x16B50; 0x1D7CE; 0x1D7D8; 0x1D7E2; 0x1D7EC; 0x1D7F6;
   0x1E140; 0x1E2F0; 0x1E950; 0x1FBF0].

(** [Py_UNICODE_TODECIMAL] *)
Definition todecimal (c : code_point) : option Z :=
  option_map (fun z => c - z)
    (find (fun z => (z <=? c) && (c <=? z + 9)) zeros).

(** What [int()] does to a [str] that is not ASCII before it reads the
    literal: a white-space character becomes a space, a decimal digit of
    any script its ASCII digit, and at the first other character that is
    not ASCII the string is cut and ends with [?]. *)
Fixpoint transform (l : list code_point) : list code_point :=
  match l with
  | [] => []
  | c :: r =>
      if c <? 127 then c :: transform r
      else if isspace c then 32 :: transform r
      else
        match todecimal c with
        | Some d => (48 + d) :: transform r
        | None => [63]
        end
  end.

Definition to_ascii (l : list code_point) : list code_point :=
  if forallb (fun c => c <? 128) l then l else transform l.

Definition digit (c : code_point) : option Z :=
  if (48 <=? c) && (c <=? 57) then Some (c - 48) else None.

(** Decimal digits with single underscores between digits.  [prev] tells
    whether the character before was a digit. *)
Fixpoint digits (acc : Z) (prev : bool) (l : list code_point) : option Z :=
  match l with
  | [] => if prev then Some acc else None
  | c :: r =>
      match digit c with
      | Some d => digits (10 * acc + d) true r
      | None =>
          if (c =? 95) && prev then digits acc false r
          else None
      end
  end.

(** [sys.get_int_max_str_digits()]: a literal with more digits is
    refused. *)
Definition max_str_digits : Z := 4300.

Definition count_digits (l : list code_point) : Z :=
  Z.of_nat
    (List.length
       (filter (fun c => match digit c with Some _ => true | None => false end)
          l)).

(** [int(s)] for a [str]: [None] stands for [ValueError]. *)
Definition int_of_str (s : string) : option Z :=
  let body :=
    lstrip_by isspace_c (rstrip_by isspace_c (to_ascii (decode s))) in
  let (negative, literal) :=
    match body with
    | 45 :: r => (true, r)
    | 43 :: r => (false, r)
    | r => (false, r)
    end in
  if max_str_digits <? count_digits literal then None
  else
    option_map (fun n => if negative then - n else n)
      (digits 0 false literal).

(** [int(v)]: [None] stands for [TypeError] or [ValueError]. *)
Definition int (v : value) : option Z :=
  match v with
  | PyNone => None
  | PyStr s => int_of_str s
  | PyInt z => Some z
  end.

(** [s.lower()] on the ASCII letters.  [CheckboxInput] compares the
    lowered value with ['true'] and ['false'] only, and no character
    outside ASCII is lowered to one of their letters. *)
Definition lower_char (c : ascii) : ascii :=
  let n := nat_of_ascii c in
  if ((65 <=? n) && (n <=? 90))%nat then ascii_of_nat (n + 32) else c.

Fixpoint contains (c : ascii) (s : string) : bool :=
  match s with
  | EmptyString => false
  | String d r => Ascii.eqb c d || contains c r
  end.

Definition hex_digit (n : Z) : ascii :=
  chr (if n <? 10 then 48 + n else 55 + n).

(** The bytes [urllib.parse.quote] never escapes: letters, digits and
    [_.-~]. *)
Definition always_safe (b : Z) : bool :=
  ((48 <=? b) && (b <=? 57)) || ((65 <=? b) && (b <=? 90))
  || ((97 <=? b) && (b <=? 122))
  || (b =? 95) || (b =? 46) || (b =? 45) || (b =? 126).

(** [urllib.parse.quote(s, safe=safe)]: every byte of the UTF-8 form
    that is not safe becomes [%XX]. *)
Fixpoint quote (safe : string) (s : string) : string :=
  match s with
  | EmptyString => EmptyString
  | String c r =>
      if always_safe (ord c) || contains c safe then String c (quote safe r)
      else
        String "%"
          (String (hex_digit (ord c / 16))
             (String (hex_digit (ord c mod 16)) (quote safe r)))
  end.

End Py.

(** ** django.core.paginator *)

Module Paginator.

Inductive error : Type :=
| PageNotAnInteger
| EmptyPage.

Section Pages.
Context {A : Type}.

Record t : Type := Paginator
  { object_list : list A;
    per_page : Z;
    orphans : Z;
    allow_empty_first_page : bool }.

Record Page : Type := mkPage
  { page_object_list : list A;
    number : Z;
    paginator : t }.

Definition count (p : t) : Z := Z.of_nat (List.length (object_list p)).

(** [ceil(hits / per_page)] on integers. *)
Definition ceil_div (a b : Z) : Z := - ((- a) / b).

Definition num_pages (p : t) : Z :=
  if (count p =? 0) && negb (allow_empty_first_page p) then 0
  else ceil_div (Z.max 1 (count p - orphans p)) (per_page p).

Definition validate_number (p : t) (number : Py.value) : error + Z :=
  match Py.int number with
  | None => inl PageNotAnInteger
  | Some n =>
      if n <? 1 then inl EmptyPage
      else if num_pages p <? n then
        if (n =? 1) && allow_empty_first_page p then inr n
        else inl EmptyPage
      else inr n
  end.

(** [l[bottom:top]] for the non-negative bounds [page] computes. *)
Definition slice (l : list A) (bottom top : Z) : list A :=
  firstn (Z.to_nat (top - bottom)) (skipn (Z.to_nat bottom) l).

Definition page (p : t) (number : Py.value) : error + Page :=
  match validate_number p number with
  | inl e => inl e
  | inr n =>
      let bottom := (n - 1) * per_page p in
      let top := bottom + per_page p in
      let top := if count p <=? top + orphans p then count p else top in
      inr (mkPage (slice (object_list p) bottom top) n p)
  end.

Definition get_page (p : t) (number : Py.value) : error + Page :=
  let number :=
    match validate_number p number with
    | inr n => n
    | inl PageNotAnInteger => 1
    | inl EmptyPage => num_pages p
    end in
  page p (Py.PyInt number).

End Pages.

Arguments t : clear implicits.
Arguments Page : clear implicits.

(** [Paginator(object_list, per_page)] with the default keyword
    arguments. *)
Definition make {A : Type} (l : list A) (per_page : Z) : t A :=
  Paginator l per_page 0 true.

End Paginator.

(** ** django.http: requests and responses *)

Module QueryDict.

(** The parsed query string or form body, in the order received. *)
Definition t : Type := list (string * string).

(** [d.get(key)]: the last value given for [key], [None] without one. *)
Fixpoint get (d : t) (key : string) : option string :=
  match d with
  | [] => None
  | (k, v) :: r =>
      match get r key with
      | Some w => Some w
      | None => if String.eqb k key then Some v else None
      end
  end.

(** [d or None] *)
Definition or_None (d : t) : option t :=
  match d with
  | [] => None
  | _ => Some d
  end.

Definition to_value (o : option string) : Py.value :=
  match o with
  | None => Py.PyNone
  | Some s => Py.PyStr s
  end.

End QueryDict.

(** ** posts/models.py *)

(** Primary keys and foreign keys are integers; a [DateTimeField] is the
    number of microseconds since the epoch. *)
Definition pk : Type := Z.
Definition datetime : Type := Z.

(** The user model of [django.contrib.auth]: only the key and the unique
    [username] are used by this application. *)
Module User.
Record t : Type := mk { id : pk; username : string }.

(** [a == b] on model instances compares primary keys. *)
Definition eqb (a b : t) : bool := id a =? id b.
End User.

Module Group.
Record t : Type := mk
  { id : pk;
    title : string;
    slug : string;
    description : string }.
End Group.

Module Post.
Record t : Type := mk
  { id : pk;
    text : string;
    pub_date : datetime;
    author : pk;
    group : option pk;
    image : string }.

Definition set_group (g : option pk) (p : t) : t :=
  mk (id p) (text p) (pub_date p) (author p) g (image p).
End Post.

Module Comment.
Record t : Type := mk
  { id : pk;
    post : pk;
    author : pk;
    text : string;
    created : datetime }.
End Comment.

Module Follow.
Record t : Type := mk
  { id : pk;
    author : pk;
    user : pk }.
End Follow.

Module DB.

(** The five tables, each in primary-key (insertion) order, and the
    last key the database handed out for each table the views insert
    into. *)
Record t : Type := mk
  { users : list User.t;
    groups : list Group.t;
    posts : list Post.t;
    comments : list Comment.t;
    follows : list Follow.t;
    post_seq : pk;
    comment_seq : pk;
    follow_seq : pk }.

Definition with_tables (us : list User.t) (gs : list Group.t)
  (ps : list Post.t) (cs : list Comment.t) (fs : list Follow.t) (db : t)
  : t :=
  mk us gs ps cs fs (post_seq db) (comment_seq db) (follow_seq db).

Definition with_posts (l : list Post.t) (db : t) : t :=
  with_tables (users db) (groups db) l (comments db) (follows db) db.

End DB.

(** What a view or a query can raise. *)
Inductive exception : Type :=
| Http404
| MultipleObjectsReturned
| IntegrityError
| OverflowError
| PaginatorError (e : Paginator.error).

Module ORM.

(** [AutoField]: the key handed to the next inserted row, above every
    key handed out before and every key in the table. *)
Definition next_id (seq : pk) (ids : list pk) : pk :=
  1 + fold_right Z.max seq ids.

Definition mem (x : pk) (l : list pk) : bool :=
  existsb (Z.eqb x) l.

(** An integer handed to a query as a parameter.  SQLite binds it as a
    64-bit signed integer; for one outside that range the database
    driver raises [OverflowError] and the query is not run. *)
Definition bind (k : Z) : exception + Z :=
  if (- 2 ^ 63 <=? k) && (k <? 2 ^ 63) then inr k else inl OverflowError.

(** [ORDER BY key DESC]; rows with equal keys stay in table order (the
    database leaves their order open). *)
Fixpoint insert_desc {A : Type} (key : A -> Z) (x : A) (l : list A)
  : list A :=
  match l with
  | [] => [x]
  | y :: r => if key x <? key y then y :: insert_desc key x r else x :: l
  end.

Definition order_by_desc {A : Type} (key : A -> Z) (l : list A) : list A :=
  fold_right (insert_desc key) [] l.

(** [Model.objects.get(...)] over the rows matching the lookup. *)
Definition get {A : Type} (matching : list A) : exception + option A :=
  match matching with
  | [] => inr None
  | [x] => inr (Some x)
  | _ => inl MultipleObjectsReturned
  end.

(** [django.shortcuts.get_object_or_404] *)
Definition get_object_or_404 {A : Type} (matching : list A)
  : exception + A :=
  match get matching with
  | inl e => inl e
  | inr None => inl Http404
  | inr (Some x) => inr x
  end.

(** [on_delete=models.CASCADE]: rows referring to a deleted row go. *)
Definition CASCADE {A : Type} (refers : A -> bool) (rows : list A)
  : list A :=
  filter (fun r => negb (refers r)) rows.

(** [on_delete=models.SET_NULL]: rows referring to a deleted row stay,
    with the reference cleared. *)
Definition SET_NULL {A : Type} (refers : A -> bool) (clear : A -> A)
  (rows : list A) : list A :=
  map (fun r => if refers r then clear r else r) rows.

(** The join [author__username=username]. *)
Definition author_username (db : DB.t) (author : pk) (username : string)
  : bool :=
  existsb (fun u => (User.id u =? author)
                    && String.eqb (User.username u) username)
          (DB.users db).

(** [Post.objects.all()], in the order of [Meta.ordering]. *)
Definition Post_all (db : DB.t) : list Post.t :=
  order_by_desc Post.pub_date (DB.posts db).

Definition Post_filter (f : Post.t -> bool) (db : DB.t) : list Post.t :=
  order_by_desc Post.pub_date (filter f (DB.posts db)).

(** [group.posts.all()] *)
Definition Group_posts (g : Group.t) (db : DB.t) : list Post.t :=
  Post_filter (fun p => match Post.group p with
                        | Some k => k =? Group.id g
                        | None => false
                        end) db.

(** [post.comments.all()], in the order of [Meta.ordering]. *)
Definition Post_comments (p : Post.t) (db : DB.t) : list Comment.t :=
  order_by_desc Comment.created
    (filter (fun c => Comment.post c =? Post.id p) (DB.comments db)).

(** [Follow.objects.filter(user=user)] *)
Definition Follow_by_user (u : User.t) (db : DB.t) : list Follow.t :=
  filter (fun f => Follow.user f =? User.id u) (DB.follows db).

(** [Follow.objects.filter(user=user, author=author)] *)
Definition Follow_filter (u a : User.t) (db : DB.t) : list Follow.t :=
  filter (fun f => (Follow.user f =? User.id u)
                   && (Follow.author f =? User.id a)) (DB.follows db).

(** [Post.objects.filter(author__following__in=followings)]: the join of
    the posts with the [Follow] rows naming their author, kept where the
    row is one of [followings]; a post comes once per matching row. *)
Definition Post_author_following_in (followings : list Follow.t)
  (db : DB.t) : list Post.t :=
  order_by_desc Post.pub_date
    (flat_map
       (fun p =>
          map (fun _ => p)
            (filter (fun f => (Follow.author f =? Post.author p)
                              && mem (Follow.id f)
                                   (map Follow.id followings))
               (DB.follows db)))
       (DB.posts db)).

(** [Post(...).save()] of a new instance: [pub_date] has
    [auto_now_add=True], [author] is [NOT NULL]. *)
Definition Post_insert (now : datetime) (text : string)
  (author : option pk) (group : option pk) (image : string) (db : DB.t)
  : exception + (Post.t * DB.t) :=
  match author with
  | None => inl IntegrityError
  | Some a =>
      let id := next_id (DB.post_seq db) (map Post.id (DB.posts db)) in
      let p := Post.mk id text now a group image in
      inr (p, DB.mk (DB.users db) (DB.groups db) (DB.posts db ++ [p])
                (DB.comments db) (DB.follows db)
                (Post.id p) (DB.comment_seq db) (DB.follow_seq db))
  end.

(** [post.save()] of a stored instance: every column but the key is
    written from the instance. *)
Definition Post_update (p : Post.t) (db : DB.t) : DB.t :=
  DB.with_posts
    (map (fun q => if Post.id q =? Post.id p then p else q) (DB.posts db))
    db.

(** [Comment(...).save()] of a new instance: [created] has
    [auto_now_add=True]. *)
Definition Comment_insert (now : datetime) (text : string) (author : pk)
  (post : pk) (db : DB.t) : Comment.t * DB.t :=
  let c := Comment.mk
             (next_id (DB.comment_seq db) (map Comment.id (DB.comments db)))
             post author text now in
  (c, DB.mk (DB.users db) (DB.groups db) (DB.posts db)
        (DB.comments db ++ [c]) (DB.follows db)
        (DB.post_seq db) (Comment.id c) (DB.follow_seq db)).

(** [Follow.objects.create(user=user, author=author)], under
    [unique_together = ('author', 'user')]. *)
Definition Follow_create (u a : User.t) (db : DB.t)
  : exception + DB.t :=
  match Follow_filter u a db with
  | [] =>
      let f := Follow.mk
                 (next_id (DB.follow_seq db) (map Follow.id (DB.follows db)))
                 (User.id a) (User.id u) in
      inr (DB.mk (DB.users db) (DB.groups db) (DB.posts db)
             (DB.comments db) (DB.follows db ++ [f])
             (DB.post_seq db) (DB.comment_seq db) (Follow.id f))
  | _ => inl IntegrityError
  end.

(** [Follow.objects.filter(user=user, author=author).delete()] *)
Definition Follow_delete (u a : User.t) (db : DB.t) : DB.t :=
  DB.with_tables (DB.users db) (DB.groups db) (DB.posts db)
    (DB.comments db)
    (filter (fun f => negb ((Follow.user f =? User.id u)
                            && (Follow.author f =? User.id a)))
       (DB.follows db))
    db.

(** [post.delete()]: [Comment.post] is declared [on_delete=CASCADE]. *)
Definition Post_delete (dead : list pk) (db : DB.t) : DB.t :=
  DB.with_tables (DB.users db) (DB.groups db)
    (filter (fun p => negb (mem (Post.id p) dead)) (DB.posts db))
    (CASCADE (fun c => mem (Comment.post c) dead) (DB.comments db))
    (DB.follows db)
    db.

(** [user.delete()]: [Post.author], [Comment.author], [Follow.author]
    and [Follow.user] are declared [on_delete=CASCADE]; the posts
    collected through [Post.author] take their comments with them. *)
Definition User_delete (uid : pk) (db : DB.t) : DB.t :=
  let dead_posts :=
    map Post.id (filter (fun p => Post.author p =? uid) (DB.posts db)) in
  let db := Post_delete dead_posts db in
  DB.with_tables
    (filter (fun u => negb (User.id u =? uid)) (DB.users db))
    (DB.groups db)
    (DB.posts db)
    (CASCADE (fun c => Comment.author c =? uid) (DB.comments db))
    (CASCADE (fun f => Follow.user f =? uid)
       (CASCADE (fun f => Follow.author f =? uid) (DB.follows db)))
    db.

(** [group.delete()]: [Post.group] is declared [on_delete=SET_NULL]. *)
Definition Group_delete (gid : pk) (db : DB.t) : DB.t :=
  DB.with_tables (DB.users db)
    (filter (fun g => negb (Group.id g =? gid)) (DB.groups db))
    (SET_NULL (fun p => match Post.group p with
                        | Some k => k =? gid
                        | None => false
                        end)
       (Post.set_group None) (DB.posts db))
    (DB.comments db) (DB.follows db)
    db.

End ORM.

(** ** posts/forms.py *)

Module Forms.

(** The codes of the validation errors the two forms can collect. *)
Inductive ValidationError : Type :=
| required
| null_characters_not_allowed
| invalid_choice
| invalid_image
| contradiction.

Definition ErrorDict : Type := list (string * ValidationError).

(** An uploaded file of [request.FILES]: its name, whether the image
    field accepts it (size, name length, and the image library's check),
    and the name the file storage saves it under. *)
Record UploadedFile : Type := mkFile
  { file_name : string;
    file_accepted : bool;
    file_stored : string }.

Definition Files : Type := list (string * UploadedFile).

Fixpoint files_get (fs : Files) (key : string) : option UploadedFile :=
  match fs with
  | [] => None
  | (k, v) :: r =>
      match files_get r key with
      | Some w => Some w
      | None => if String.eqb k key then Some v else None
      end
  end.

Definition files_or_None (fs : Files) : option Files :=
  match fs with
  | [] => None
  | _ => Some fs
  end.

Definition NUL : ascii := ascii_of_nat 0.

Fixpoint lower (s : string) : string :=
  match s with
  | EmptyString => EmptyString
  | String c r => String (Py.lower_char c) (lower r)
  end.

(** The form field of a [TextField] without [blank=True]: a required
    [CharField] that strips its input. *)
Definition clean_text (raw : option string) : ValidationError + string :=
  let value :=
    match raw with
    | None => EmptyString
    | Some s => Py.strip s
    end in
  if String.eqb value "" then inl required
  else if Py.contains NUL value then inl null_characters_not_allowed
  else inr value.

(** The form field of the nullable [group] key: an optional
    [ModelChoiceField] over [Group.objects.all()].  The field looks the
    value up with [queryset.get(pk=value)] and turns [ValueError] (of
    [int(value)]) and [DoesNotExist] into the error [invalid_choice];
    what the lookup raises beyond these leaves the form. *)
Definition clean_group (db : DB.t) (raw : option string)
  : exception + (ValidationError + option pk) :=
  match raw with
  | None => inr (inr None)
  | Some s =>
      if String.eqb s "" then inr (inr None)
      else
        match Py.int_of_str s with
        | None => inr (inl invalid_choice)
        | Some k =>
            match ORM.bind k with
            | inl e => inl e
            | inr k =>
                if ORM.mem k (map Group.id (DB.groups db))
                then inr (inr (Some k))
                else inr (inl invalid_choice)
            end
        end
  end.

(** [CheckboxInput.value_from_datadict] *)
Definition checkbox (data : QueryDict.t) (name : string) : bool :=
  match QueryDict.get data name with
  | None => false
  | Some v =>
      if String.eqb (lower v) "true" then true
      else if String.eqb (lower v) "false" then false
      else negb (String.eqb v "")
  end.

(** What cleaning leaves for the optional [image] field: [None] keeps the
    instance's file, [Some name] stores that reference (the empty name
    when the file is cleared).  The request parser drops uploads without
    a file name, so an upload that is present is truthy. *)
Definition clean_image (data : QueryDict.t) (files : Files)
  : ValidationError + option string :=
  let upload := files_get files "image" in
  if checkbox data "image-clear" then
    match upload with
    | Some _ => inl contradiction
    | None => inr (Some EmptyString)
    end
  else
    match upload with
    | None => inr None
    | Some f =>
        if file_accepted f then inr (Some (file_stored f))
        else inl invalid_image
    end.

Definition field_errors {A : Type} (name : string)
  (r : ValidationError + A) : ErrorDict :=
  match r with
  | inl e => [(name, e)]
  | inr _ => []
  end.

(** The entry of [cleaned_data] for a field: absent when the field
    failed. *)
Definition cleaned {A : Type} (r : ValidationError + A) : option A :=
  match r with
  | inl _ => None
  | inr v => Some v
  end.

(** [PostForm(data, files=files, instance=instance)] with
    [fields = ('text', 'group', 'image')], as the [is_valid()] call that
    follows it in both views leaves it: [text], [group] and [image] are
    the entries of [cleaned_data].  The fields are cleaned in the order
    of [fields]; an exception that is no [ValidationError] ends the
    cleaning and leaves [is_valid()]. *)
Module PostForm.
Record t : Type := mk
  { is_bound : bool;
    errors : ErrorDict;
    text : option string;
    group : option (option pk);
    image : option (option string) }.

Definition make (data : option QueryDict.t) (files : option Files)
  (db : DB.t) : exception + t :=
  match data, files with
  | None, None => inr (mk false [] None None None)
  | _, _ =>
      let d := match data with Some d => d | None => [] end in
      let fs := match files with Some fs => fs | None => [] end in
      let t := clean_text (QueryDict.get d "text") in
      match clean_group db (QueryDict.get d "group") with
      | inl e => inl e
      | inr g =>
          let i := clean_image d fs in
          inr (mk true
                 (field_errors "text" t ++ field_errors "group" g
                    ++ field_errors "image" i)
                 (cleaned t) (cleaned g) (cleaned i))
      end
  end.

Definition is_valid (f : t) : bool :=
  is_bound f && match errors f with [] => true | _ => false end.

(** What cleaning writes into the form's instance, field by field: a
    field that is in [cleaned_data] replaces the instance's value [old]
    (an image only when a file was uploaded or cleared). *)
Definition text_of (f : t) (old : string) : string :=
  match text f with
  | Some v => v
  | None => old
  end.

Definition group_of (f : t) (old : option pk) : option pk :=
  match group f with
  | Some v => v
  | None => old
  end.

Definition image_of (f : t) (old : string) : string :=
  match image f with
  | Some (Some name) => name
  | _ => old
  end.

(** The instance of a form made with [instance=post], after cleaning. *)
Definition construct_instance (f : t) (post : Post.t) : Post.t :=
  Post.mk (Post.id post) (text_of f (Post.text post)) (Post.pub_date post)
    (Post.author post) (group_of f (Post.group post))
    (image_of f (Post.image post)).
End PostForm.

(** [CommentForm(data)] with [fields = ('text',)]. *)
Module CommentForm.
Record t : Type := mk
  { is_bound : bool;
    errors : ErrorDict;
    text : option string }.

Definition make (data : option QueryDict.t) : t :=
  match data with
  | None => mk false [] None
  | Some d =>
      let t := clean_text (QueryDict.get d "text") in
      mk true (field_errors "text" t) (cleaned t)
  end.

Definition is_valid (f : t) : bool :=
  is_bound f && match errors f with [] => true | _ => false end.

Definition text_of (f : t) (old : string) : string :=
  match text f with
  | Some v => v
  | None => old
  end.
End CommentForm.

End Forms.

(** ** posts/views.py *)

Module Views.

(** [request.method] *)
Inductive Method : Type := mGET | mHEAD | mPOST | mOTHER.

(** A request: [scheme_host] is [scheme://host] as the request names
    them, [query_string] is [META['QUERY_STRING']], the query string as
    sent, and [GET] the [QueryDict] the framework parses from it (the
    parsing is the framework's and is not written out: the two are held
    side by side). *)
Record HttpRequest : Type := mkRequest
  { method : Method;
    scheme_host : string;
    path : string;
    query_string : string;
    user : option User.t;
    GET : QueryDict.t;
    POST : QueryDict.t;
    FILES : Forms.Files }.

(** [django.utils.encoding] *)
Definition escape_uri_path (path : string) : string :=
  Py.quote "/:@&+$,-_.!~*'()" path.

Definition iri_to_uri (iri : string) : string :=
  Py.quote "/#%[]=:;$&()+,!?*@'~" iri.

(** [request.get_full_path()]: the path and, when there is one, the
    query string. *)
Definition get_full_path (request : HttpRequest) : string :=
  String.append (escape_uri_path (path request))
    (if String.eqb (query_string request) "" then ""
     else String.append "?" (iri_to_uri (query_string request))).

(** The targets of [reverse] and of the login redirect: [url_login next]
    is the login page with the parameter [next]. *)
Inductive url : Type :=
| url_index
| url_post (username : string) (post_id : pk)
| url_profile (username : string)
| url_login (next : string).

(** The context dictionaries handed to [render], one shape per
    template. *)
Inductive context : Type :=
| ctx_index (page : Paginator.Page Post.t) (paginator : Paginator.t Post.t)
| ctx_group (group : Group.t) (page : Paginator.Page Post.t)
    (paginator : Paginator.t Post.t)
| ctx_new_post (form : Forms.PostForm.t) (post : option Post.t)
| ctx_profile (author : User.t) (page : Paginator.Page Post.t)
    (paginator : Paginator.t Post.t) (following : bool)
| ctx_post (post : Post.t) (author : User.t) (comments : list Comment.t)
    (form : Forms.CommentForm.t)
| ctx_follow (page : Paginator.Page Post.t)
    (paginator : Paginator.t Post.t).

Inductive HttpResponse : Type :=
| render (template : string) (c : context)
| redirect (to : url).

Definition status_code (r : HttpResponse) : Z :=
  match r with
  | render _ _ => 200
  | redirect _ => 302
  end.

(** How a call of a view ends: it returns a response, returns [None]
    (the end of the function body is reached), or raises. *)
Inductive outcome : Type :=
| Return (r : option HttpResponse)
| Raise (e : exception).

Definition respond (r : HttpResponse) : outcome := Return (Some r).

Definition view : Type := HttpRequest -> DB.t -> outcome * DB.t.

(** [@login_required]: the body runs with the authenticated user;
    everyone else is sent to the login page, which is to lead back to the
    full path of the request. *)
Definition login_required (body : User.t -> view) : view :=
  fun request db =>
    match user request with
    | Some u => body u request db
    | None => (respond (redirect (url_login (get_full_path request))), db)
    end.

(** [paginator.get_page(request.GET.get('page'))] *)
Definition get_page (paginator : Paginator.t Post.t)
  (request : HttpRequest) : exception + Paginator.Page Post.t :=
  match Paginator.get_page paginator
          (QueryDict.to_value (QueryDict.get (GET request) "page")) with
  | inl e => inl (PaginatorError e)
  | inr page => inr page
  end.

(** The body of [index], under the cache decorator below. *)
Definition index_body : view :=
  fun request db =>
    let post_list := ORM.Post_all db in
    let paginator := Paginator.make post_list 10 in
    match get_page paginator request with
    | inl e => (Raise e, db)
    | inr page =>
        (respond (render "index.html" (ctx_index page paginator)), db)
    end.

(** The route hands in [slug]; the default ['leo'] of the signature is for
    a caller that leaves it out. *)
Definition group_posts (slug : string) : view :=
  fun request db =>
    match ORM.get_object_or_404
            (filter (fun g => String.eqb (Group.slug g) slug)
               (DB.groups db)) with
    | inl e => (Raise e, db)
    | inr group =>
        let post_list := ORM.Group_posts group db in
        let paginator := Paginator.make post_list 10 in
        match get_page paginator request with
        | inl e => (Raise e, db)
        | inr page =>
            (respond (render "group.html"
                        (ctx_group group page paginator)), db)
        end
    end.

Definition new_post (now : datetime) : view :=
  login_required (fun u request db =>
    match Forms.PostForm.make (QueryDict.or_None (POST request)) None db
    with
    | inl e => (Raise e, db)
    | inr new_post_form =>
        if negb (Forms.PostForm.is_valid new_post_form) then
          (respond (render "new_post.html"
                      (ctx_new_post new_post_form None)), db)
        else
          match ORM.Post_insert now
                  (Forms.PostForm.text_of new_post_form "")
                  (Some (User.id u))
                  (Forms.PostForm.group_of new_post_form None)
                  (Forms.PostForm.image_of new_post_form "") db with
          | inl e => (Raise e, db)
          | inr (_, db') => (respond (redirect url_index), db')
          end
    end).

Definition get_user (username : string) (db : DB.t) : exception + User.t :=
  ORM.get_object_or_404
    (filter (fun u => String.eqb (User.username u) username)
       (DB.users db)).

(** [get_object_or_404(Post, id=post_id, author__username=username)] *)
Definition get_post (username : string) (post_id : pk) (db : DB.t)
  : exception + Post.t :=
  match ORM.bind post_id with
  | inl e => inl e
  | inr post_id =>
      ORM.get_object_or_404
        (filter (fun p => (Post.id p =? post_id)
                          && ORM.author_username db (Post.author p)
                               username)
           (DB.posts db))
  end.

Definition profile (username : string) : view :=
  fun request db =>
    match get_user username db with
    | inl e => (Raise e, db)
    | inr author =>
        let post_list :=
          ORM.Post_filter
            (fun p => ORM.author_username db (Post.author p) username)
            db in
        let paginator := Paginator.make post_list 10 in
        match get_page paginator request with
        | inl e => (Raise e, db)
        | inr page =>
            let following :=
              match user request with
              | Some u =>
                  match ORM.Follow_filter u author db with
                  | [] => false
                  | _ => true
                  end
              | None => false
              end in
            (respond (render "profile.html"
                        (ctx_profile author page paginator following)),
             db)
        end
    end.

Definition post_view (username : string) (post_id : pk) : view :=
  fun request db =>
    match get_user username db with
    | inl e => (Raise e, db)
    | inr author =>
        match get_post username post_id db with
        | inl e => (Raise e, db)
        | inr post =>
            let comments := ORM.Post_comments post db in
            let comment_form :=
              Forms.CommentForm.make (QueryDict.or_None (POST request)) in
            if negb (Forms.CommentForm.is_valid comment_form) then
              (respond (render "post.html"
                          (ctx_post post author comments comment_form)),
               db)
            else (Return None, db)
        end
    end.

Definition add_comment (now : datetime) (username : string)
  (post_id : pk) : view :=
  login_required (fun u request db =>
    match get_post username post_id db with
    | inl e => (Raise e, db)
    | inr post =>
        let form :=
          Forms.CommentForm.make (QueryDict.or_None (POST request)) in
        let db' :=
          if Forms.CommentForm.is_valid form then
            snd (ORM.Comment_insert now
                   (Forms.CommentForm.text_of form "")
                   (User.id u) (Post.id post) db)
          else db in
        (respond (redirect (url_post username post_id)), db')
    end).

Definition post_edit (username : string) (post_id : pk) : view :=
  login_required (fun u request db =>
    if negb (String.eqb (User.username u) username) then
      (respond (redirect (url_post username post_id)), db)
    else
      match get_post username post_id db with
      | inl e => (Raise e, db)
      | inr post =>
          match Forms.PostForm.make (QueryDict.or_None (POST request))
                  (Forms.files_or_None (FILES request)) db with
          | inl e => (Raise e, db)
          | inr form =>
              let post := Forms.PostForm.construct_instance form post in
              if negb (Forms.PostForm.is_valid form) then
                (respond (render "new_post.html"
                            (ctx_new_post form (Some post))), db)
              else
                (respond (redirect (url_post username post_id)),
                 ORM.Post_update post db)
          end
      end).

Definition follow_index : view :=
  login_required (fun u request db =>
    let followings := ORM.Follow_by_user u db in
    let post_list := ORM.Post_author_following_in followings db in
    let paginator := Paginator.make post_list 10 in
    match get_page paginator request with
    | inl e => (Raise e, db)
    | inr page =>
        (respond (render "follow.html" (ctx_follow page paginator)), db)
    end).

Definition profile_follow (username : string) : view :=
  login_required (fun u request db =>
    match get_user username db with
    | inl e => (Raise e, db)
    | inr author =>
        let follower := ORM.Follow_filter u author db in
        if negb (match follower with [] => false | _ => true end)
           && negb (User.eqb author u) then
          match ORM.Follow_create u author db with
          | inl e => (Raise e, db)
          | inr db' =>
              (respond (redirect (url_profile username)), db')
          end
        else (respond (redirect (url_profile username)), db)
    end).

Definition profile_unfollow (username : string) : view :=
  login_required (fun u request db =>
    match get_user username db with
    | inl e => (Raise e, db)
    | inr author =>
        (respond (redirect (url_profile username)),
         ORM.Follow_delete u author db)
    end).

End Views.

(** ** The cached main page and the whole site *)

Module Site.
Import Views.

Definition method_eqb (a b : Method) : bool :=
  match a, b with
  | mGET, mGET | mHEAD, mHEAD | mPOST, mPOST | mOTHER, mOTHER => true
  | _, _ => false
  end.

(** The cache framework ([django.core.cache]) as the decorator uses it:
    a key made of the prefix, the method and the absolute URI of the
    request (the framework keeps a hash of the URI, taken here to tell
    any two URIs apart), and entries that expire.  The cache is held
    while it has room: the local-memory cache drops entries when it
    holds 300, which is not written out. *)
Module Cache.
Record key : Type := mkKey
  { key_prefix : string;
    key_method : Method;
    key_uri : string }.

Definition key_eqb (a b : key) : bool :=
  String.eqb (key_prefix a) (key_prefix b)
  && method_eqb (key_method a) (key_method b)
  && String.eqb (key_uri a) (key_uri b).

Record entry : Type := mkEntry
  { entry_key : key;
    expires : datetime;
    value : HttpResponse }.

Definition t : Type := list entry.

(** [cache.get(key)] at time [now]. *)
Definition get (now : datetime) (k : key) (c : t)
  : option HttpResponse :=
  match find (fun e => key_eqb (entry_key e) k) c with
  | Some e => if now <? expires e then Some (value e) else None
  | None => None
  end.

(** [cache.set(key, value, timeout)] at time [now], [timeout] in
    seconds. *)
Definition set (now : datetime) (k : key) (v : HttpResponse)
  (timeout : Z) (c : t) : t :=
  mkEntry k (now + timeout * 1000000) v
    :: filter (fun e => negb (key_eqb (entry_key e) k)) c.
End Cache.

Record State : Type := mkState
  { db : DB.t;
    cache : Cache.t }.

(** [request.build_absolute_uri()], for a path without a [.] or [..]
    part (the main page has one path). *)
Definition build_absolute_uri (request : HttpRequest) : string :=
  iri_to_uri (String.append (scheme_host request) (get_full_path request)).

Definition cache_key (prefix : string) (m : Method) (request : HttpRequest)
  : Cache.key :=
  Cache.mkKey prefix m (build_absolute_uri request).

(** The request half of the decorator: only [GET] and [HEAD] requests
    are answered from the cache, a [HEAD] request from either entry. *)
Definition fetch_from_cache (now : datetime) (prefix : string)
  (request : HttpRequest) (c : Cache.t) : option HttpResponse :=
  match method request with
  | mGET => Cache.get now (cache_key prefix mGET request) c
  | mHEAD =>
      match Cache.get now (cache_key prefix mGET request) c with
      | Some r => Some r
      | None => Cache.get now (cache_key prefix mHEAD request) c
      end
  | _ => None
  end.

Definition should_update_cache (request : HttpRequest) : bool :=
  match method request with
  | mGET | mHEAD => true
  | _ => false
  end.

(** [@cache_page(timeout, key_prefix=prefix)] *)
Definition cache_page (timeout : Z) (prefix : string) (v : view)
  (now : datetime) (request : HttpRequest) (s : State)
  : outcome * State :=
  match fetch_from_cache now prefix request (cache s) with
  | Some r => (respond r, s)
  | None =>
      let (o, db') := v request (db s) in
      match o with
      | Return (Some r) =>
          if should_update_cache request && (status_code r =? 200)
             && negb (timeout =? 0) then
            (o, mkState db'
                  (Cache.set now (cache_key prefix (method request) request)
                     r timeout (cache s)))
          else (o, mkState db' (cache s))
      | _ => (o, mkState db' (cache s))
      end
  end.

Definition index : datetime -> HttpRequest -> State -> outcome * State :=
  cache_page 20 "index_page" index_body.

(** A view that does not touch the cache. *)
Definition lift (v : view) (request : HttpRequest) (s : State)
  : outcome * State :=
  let (o, db') := v request (db s) in (o, mkState db' (cache s)).

(** What can happen to the site: a request routed to one of the views,
    or the deletion of a row through the models. *)
Inductive action : Type :=
| Index (request : HttpRequest)
| GroupPosts (slug : string) (request : HttpRequest)
| NewPost (request : HttpRequest)
| Profile (username : string) (request : HttpRequest)
| PostView (username : string) (post_id : pk) (request : HttpRequest)
| AddComment (username : string) (post_id : pk) (request : HttpRequest)
| PostEdit (username : string) (post_id : pk) (request : HttpRequest)
| FollowIndex (request : HttpRequest)
| ProfileFollow (username : string) (request : HttpRequest)
| ProfileUnfollow (username : string) (request : HttpRequest)
| DeleteUser (uid : pk)
| DeleteGroup (gid : pk)
| DeletePost (pid : pk).

(** One action at clock reading [now]: what the caller gets ([None] for
    a deletion, which has no caller in the views) and the next state. *)
Definition exec (now : datetime) (a : action) (s : State)
  : option outcome * State :=
  let served (r : outcome * State) := (Some (fst r), snd r) in
  match a with
  | Index request => served (index now request s)
  | GroupPosts slug request => served (lift (group_posts slug) request s)
  | NewPost request => served (lift (new_post now) request s)
  | Profile username request => served (lift (profile username) request s)
  | PostView username post_id request =>
      served (lift (post_view username post_id) request s)
  | AddComment username post_id request =>
      served (lift (add_comment now username post_id) request s)
  | PostEdit username post_id request =>
      served (lift (post_edit username post_id) request s)
  | FollowIndex request => served (lift follow_index request s)
  | ProfileFollow username request =>
      served (lift (profile_follow username) request s)
  | ProfileUnfollow username request =>
      served (lift (profile_unfollow username) request s)
  | DeleteUser uid => (None, mkState (ORM.User_delete uid (db s)) (cache s))
  | DeleteGroup gid =>
      (None, mkState (ORM.Group_delete gid (db s)) (cache s))
  | DeletePost pid =>
      (None, mkState (ORM.Post_delete [pid] (db s)) (cache s))
  end.

(** A history: actions with the clock reading of each. *)
Fixpoint run (h : list (datetime * action)) (s : State) : State :=
  match h with
  | [] => s
  | (now, a) :: h' => run h' (snd (exec now a s))
  end.

(** The constraints the database keeps on the tables. *)
Definition unique_together (d : DB.t) : Prop :=
  NoDup (map (fun f => (Follow.author f, Follow.user f)) (DB.follows d)).

Definition primary_keys (d : DB.t) : Prop :=
  NoDup (map User.id (DB.users d))
  /\ NoDup (map Post.id (DB.posts d))
  /\ NoDup (map Follow.id (DB.follows d)).

Definition unique_usernames (d : DB.t) : Prop :=
  NoDup (map User.username (DB.users d)).

(** [slug = models.SlugField(unique=True)] *)
Definition unique_slugs (d : DB.t) : Prop :=
  NoDup (map Group.slug (DB.groups d)).

Definition no_self_follow (d : DB.t) : Prop :=
  forall f, In f (DB.follows d) -> Follow.author f <> Follow.user f.

(** The number of [Follow] edges from user [u] to author [a]. *)
Definition edges (u a : User.t) (d : DB.t) : nat :=
  List.length (ORM.Follow_filter u a d).

(** [user] follows [author]. *)
Definition follows (d : DB.t) (user author : pk) : Prop :=
  exists f, In f (DB.follows d)
            /\ Follow.user f = user /\ Follow.author f = author.

Definition newest_first (l : list Post.t) : Prop :=
  StronglySorted (fun p q => Post.pub_date q <= Post.pub_date p) l.

(** The posted [group] reads as an integer that the database cannot
    bind. *)
Definition group_out_of_range (request : HttpRequest) : Prop :=
  exists s k,
    QueryDict.get (POST request) "group" = Some s
    /\ Py.int_of_str s = Some k
    /\ (k < - 2 ^ 63 \/ 2 ^ 63 <= k).

(** The request an action carries; a deletion carries none. *)
Definition request_of (a : action) : option HttpRequest :=
  match a with
  | Index request | GroupPosts _ request | NewPost request
  | Profile _ request | PostView _ _ request | AddComment _ _ request
  | PostEdit _ _ request | FollowIndex request | ProfileFollow _ request
  | ProfileUnfollow _ request => Some request
  | DeleteUser _ | DeleteGroup _ | DeletePost _ => None
  end.

(** The views that only show: the main page, a group, a profile, a post
    and the following feed. *)
Definition shows (a : action) : bool :=
  match a with
  | Index _ | GroupPosts _ _ | Profile _ _ | PostView _ _ _
  | FollowIndex _ => true
  | _ => false
  end.

End Site.

(** ** What one action can do to the tables *)

Module Effects.

(** The writes the views and the deletions perform, one constructor per
    kind of write; [exec_step] below shows that every action is one of
    them. *)
Inductive db_step (now : datetime) (d : DB.t) : DB.t -> Prop :=
| step_same : db_step now d d
| step_post_insert (text : string) (author : pk) (group : option pk)
    (image : string) (p : Post.t) (d' : DB.t) :
    ORM.Post_insert now text (Some author) group image d = inr (p, d') ->
    db_step now d d'
| step_post_update (post post' : Post.t) :
    In post (DB.posts d) ->
    Post.id post' = Post.id post ->
    Post.pub_date post' = Post.pub_date post ->
    Post.author post' = Post.author post ->
    db_step now d (ORM.Post_update post' d)
| step_comment_insert (text : string) (author post : pk) :
    db_step now d (snd (ORM.Comment_insert now text author post d))
| step_follow_create (u a : User.t) (d' : DB.t) :
    User.id a <> User.id u ->
    ORM.Follow_create u a d = inr d' ->
    db_step now d d'
| step_follow_delete (u a : User.t) :
    db_step now d (ORM.Follow_delete u a d)
| step_user_delete (uid : pk) : db_step now d (ORM.User_delete uid d)
| step_group_delete (gid : pk) : db_step now d (ORM.Group_delete gid d)
| step_post_delete (dead : list pk) :
    db_step now d (ORM.Post_delete dead d).

End Effects.

(** ** Sample data *)

Module Sample.
Import Views.

Definition alice : User.t := User.mk 1 "alice".
Definition bob : User.t := User.mk 2 "bob".
Definition carol : User.t := User.mk 3 "carol".

Definition cats : Group.t := Group.mk 1 "Cats" "cats" "All about cats".

(** Three users, one group, nothing published yet. *)
Definition people : DB.t :=
  DB.mk [alice; bob; carol] [cats] [] [] [] 0 0 0.

(** The query string of parameters made of letters and digits. *)
Fixpoint urlencode (query : QueryDict.t) : string :=
  match query with
  | [] => ""
  | [(k, v)] => String.append k (String.append "=" v)
  | (k, v) :: r =>
      String.append k
        (String.append "=" (String.append v (String.append "&" (urlencode r))))
  end.

Definition get_request (u : option User.t) (query : QueryDict.t)
  : HttpRequest :=
  mkRequest mGET "http://testserver" "/" (urlencode query) u query [] [].

Definition post_request (u : option User.t) (data : QueryDict.t)
  : HttpRequest :=
  mkRequest mPOST "http://testserver" "/" "" u [] data [].

(** The [n]-th post of alice, published at [n] milliseconds. *)
Definition entry (n : Z) : Post.t :=
  Post.mk n "entry" (n * 1000) 1 None "".

(** Eleven posts: two pages. *)
Definition eleven : DB.t :=
  DB.mk [alice; bob; carol] [cats]
    (map entry [1; 2; 3; 4; 5; 6; 7; 8; 9; 10; 11]) [] [] 11 0 0.

(** Bob follows alice; alice and carol have one post each. *)
Definition followed : DB.t :=
  DB.mk [alice; bob; carol] [cats]
    [Post.mk 1 "from alice" 1000 1 (Some 1) "";
     Post.mk 2 "from carol" 2000 3 None ""]
    [Comment.mk 1 1 2 "nice" 1500]
    [Follow.mk 1 1 2] 2 1 1.

End Sample.

(** * Properties *)

(** ** Strings *)

(** [str.strip] removes the white space of Unicode, not only that of
    ASCII, and keeps what is between. *)
Lemma strip_unicode_white_space :
  Py.strip (Py.encode [0xA0]) = ""
  /\ Py.strip (Py.encode [0x3000; 104; 0x2003; 105; 0x85; 0x1F]) 
     = Py.encode [104; 0x2003; 105]
  /\ Py.strip " hi " = "hi"
  /\ Py.strip (Py.encode [0x200B]) = Py.encode [0x200B].
Proof. repeat split. Qed.

(** [int()] reads the decimal digits of any script, white space of any
    script around them, a sign and single underscores between digits; it
    refuses every other string, and a literal of more than 4300
    digits. *)
Lemma int_reads_decimal_digits :
  Py.int_of_str (Py.encode [0x662]) = Some 2
  /\ Py.int_of_str (Py.encode [0xFF11; 0x660]) = Some 10
  /\ Py.int_of_str (Py.encode [0xA0; 45; 0x967; 0x3000]) = Some (- 1)
  /\ Py.int_of_str " +1_000 " = Some 1000
  /\ Py.int_of_str (Py.encode [0xB2]) = None
  /\ Py.int_of_str (Py.encode [0x1C; 49]) = None
  /\ Py.int_of_str "1__0" = None
  /\ Py.int_of_str "1.0" = None
  /\ Py.int_of_str "" = None.
Proof. repeat split. Qed.

Lemma int_refuses_long_literals :
  Py.int_of_str (Py.encode (repeat 57 4301)) = None
  /\ Py.int_of_str (Py.encode (repeat 57 4300)) = Some (10 ^ 4300 - 1).
Proof. split; vm_compute; reflexivity. Qed.

(** Reading a string as UTF-8 and writing the code points back gives the
    string, for the encoding of every code point there is. *)
Lemma decode_encode_point (c : Py.code_point) :
  (0 <= c < 0xD800 \/ 0xE000 <= c < 0x110000) ->
  Py.decode (Py.encode_point c) = [c].
Proof.
  unfold Py.code_point in *. intros Hc. unfold Py.encode_point.
  assert (O : forall b, 0 <= b < 256 -> Py.ord (Py.chr b) = b).
  { intros b Hb. unfold Py.ord, Py.chr.
    rewrite N_ascii_embedding by lia. lia. }
  destruct (c <? 128) eqn:C1; [apply Z.ltb_lt in C1 | apply Z.ltb_ge in C1].
  { cbn [Py.decode]. rewrite O by lia.
    apply Z.ltb_lt in C1. now rewrite C1. }
  destruct (c <? 2048) eqn:C2; [apply Z.ltb_lt in C2 | apply Z.ltb_ge in C2].
  { cbn [Py.decode].
    pose proof (Z.div_mod c 64 ltac:(lia)) as D.
    pose proof (Z.mod_pos_bound c 64 ltac:(lia)) as M.
    assert (Q : 2 <= c / 64 < 32)
      by (split; [apply Z.div_le_lower_bound | apply Z.div_lt_upper_bound];
          lia).
    rewrite !O by lia. unfold Py.trail.
    repeat match goal with
           | |- context [?a <? ?b] =>
               let E := fresh in
               destruct (a <? b) eqn:E;
                 [apply Z.ltb_lt in E | apply Z.ltb_ge in E]; try lia
           | |- context [?a <=? ?b] =>
               let E := fresh in
               destruct (a <=? b) eqn:E;
                 [apply Z.leb_le in E | apply Z.leb_gt in E]; try lia
           end.
    cbn [andb]. f_equal. lia. }
  destruct (c <? 65536) eqn:C3;
    [apply Z.ltb_lt in C3 | apply Z.ltb_ge in C3].
  { cbn [Py.decode].
    pose proof (Z.div_mod c 64 ltac:(lia)) as D.
    pose proof (Z.mod_pos_bound c 64 ltac:(lia)) as M.
    pose proof (Z.div_mod (c / 64) 64 ltac:(lia)) as D'.
    pose proof (Z.mod_pos_bound (c / 64) 64 ltac:(lia)) as M'.
    assert (E4096 : c / 4096 = c / 64 / 64)
      by (rewrite Z.div_div by lia; reflexivity).
    assert (Q : 0 <= c / 4096 < 16)
      by (split; [apply Z.div_le_lower_bound | apply Z.div_lt_upper_bound];
          lia).
    rewrite !O by lia. unfold Py.trail.
    repeat match goal with
           | |- context [?a <? ?b] =>
               let E := fresh in
               destruct (a <? b) eqn:E;
                 [apply Z.ltb_lt in E | apply Z.ltb_ge in E]; try lia
           | |- context [?a <=? ?b] =>
               let E := fresh in
               destruct (a <=? b) eqn:E;
                 [apply Z.leb_le in E | apply Z.leb_gt in E]; try lia
           end.
    cbn [andb]. f_equal. lia. }
  cbn [Py.decode].
  pose proof (Z.div_mod c 64 ltac:(lia)) as D.
  pose proof (Z.mod_pos_bound c 64 ltac:(lia)) as M.
  pose proof (Z.div_mod (c / 64) 64 ltac:(lia)) as D'.
  pose proof (Z.mod_pos_bound (c / 64) 64 ltac:(lia)) as M'.
  assert (E4096 : c / 64 / 64 = c / 4096)
    by (rewrite Z.div_div by lia; reflexivity).
  assert (E262144 : c / 4096 / 64 = c / 262144)
    by (rewrite Z.div_div by lia; reflexivity).
  rewrite E4096 in D'.
  pose proof (Z.div_mod (c / 4096) 64 ltac:(lia)) as D''.
  pose proof (Z.mod_pos_bound (c / 4096) 64 ltac:(lia)) as M''.
  rewrite E262144 in D''.
  assert (Q : 0 <= c / 262144 < 5)
    by (split; [apply Z.div_le_lower_bound | apply Z.div_lt_upper_bound];
        lia).
  rewrite !O by lia. unfold Py.trail.
  repeat match goal with
         | |- context [?a <? ?b] =>
             let E := fresh in
             destruct (a <? b) eqn:E;
               [apply Z.ltb_lt in E | apply Z.ltb_ge in E]; try lia
         | |- context [?a <=? ?b] =>
             let E := fresh in
             destruct (a <=? b) eqn:E;
               [apply Z.leb_le in E | apply Z.leb_gt in E]; try lia
         end.
  cbn [andb]. f_equal. lia.
Qed.

(** ** Ordering *)

Section Ordering.
Context {A : Type} (key : A -> Z).

Let desc (p q : A) : Prop := key q <= key p.

Lemma insert_desc_perm (x : A) (l : list A) :
  Permutation (ORM.insert_desc key x l) (x :: l).
Proof.
  induction l as [|y r IH]; simpl.
  - apply Permutation_refl.
  - destruct (key x <? key y).
    + eapply perm_trans; [apply perm_skip, IH | apply perm_swap].
    + apply Permutation_refl.
Qed.

Lemma order_by_desc_perm (l : list A) :
  Permutation (ORM.order_by_desc key l) l.
Proof.
  induction l as [|x r IH]; simpl.
  - constructor.
  - eapply perm_trans; [apply insert_desc_perm | now apply perm_skip].
Qed.

Lemma order_by_desc_In (l : list A) (x : A) :
  In x (ORM.order_by_desc key l) <-> In x l.
Proof.
  split; apply Permutation_in;
    [| apply Permutation_sym]; apply order_by_desc_perm.
Qed.

Lemma order_by_desc_length (l : list A) :
  List.length (ORM.order_by_desc key l) = List.length l.
Proof. apply Permutation_length, order_by_desc_perm. Qed.

Lemma insert_desc_sorted (x : A) (l : list A) :
  StronglySorted desc l -> StronglySorted desc (ORM.insert_desc key x l).
Proof.
  induction 1 as [|y r Hr IH Hy]; simpl.
  - repeat constructor.
  - destruct (key x <? key y) eqn:E.
    + constructor; [exact IH|].
      apply Z.ltb_lt in E.
      rewrite Forall_forall in *. intros z Hz.
      apply (Permutation_in _ (insert_desc_perm x r)) in Hz.
      destruct Hz as [<-|Hz]; [unfold desc; lia | now apply Hy].
    + apply Z.ltb_ge in E.
      constructor; [now constructor|].
      constructor; [exact E|].
      rewrite Forall_forall in *. intros z Hz.
      specialize (Hy z Hz). unfold desc in *. lia.
Qed.

Lemma order_by_desc_sorted (l : list A) :
  StronglySorted desc (ORM.order_by_desc key l).
Proof.
  induction l as [|x r IH]; simpl.
  - constructor.
  - now apply insert_desc_sorted.
Qed.

(** A row newer than all the others, appended to the table, comes out
    first. *)
Lemma order_by_desc_newest (l : list A) (x : A) :
  (forall y, In y l -> key y < key x) ->
  ORM.order_by_desc key (l ++ [x]) = x :: ORM.order_by_desc key l.
Proof.
  induction l as [|y r IH]; intros H; simpl.
  - reflexivity.
  - rewrite IH by (intros z Hz; apply H; now right).
    simpl. assert (E : key y < key x) by (apply H; now left).
    apply Z.ltb_lt in E. now rewrite E.
Qed.

End Ordering.

(** ** The paginator *)

Section PaginatorFacts.
Context {A : Type}.
Variable l : list A.

Let p : Paginator.t A := Paginator.make l 10.

Lemma num_pages_make :
  Paginator.num_pages p = (Z.max 1 (Z.of_nat (List.length l)) + 9) / 10.
Proof.
  unfold Paginator.num_pages, p, Paginator.make, Paginator.count,
    Paginator.ceil_div; simpl.
  rewrite andb_false_r, Z.sub_0_r.
  set (h := Z.max 1 (Z.of_nat (List.length l))).
  pose proof (Z.div_mod (- h) 10 ltac:(lia)) as E1.
  pose proof (Z.mod_pos_bound (- h) 10 ltac:(lia)) as B1.
  pose proof (Z.div_mod (h + 9) 10 ltac:(lia)) as E2.
  pose proof (Z.mod_pos_bound (h + 9) 10 ltac:(lia)) as B2.
  lia.
Qed.

Lemma num_pages_pos : 1 <= Paginator.num_pages p.
Proof.
  rewrite num_pages_make.
  apply Z.div_le_lower_bound; lia.
Qed.

(** The last page starts inside the list (or at its start when the list
    is empty). *)
Lemma num_pages_covers :
  Z.of_nat (List.length l) <= Paginator.num_pages p * 10.
Proof.
  rewrite num_pages_make.
  set (h := Z.max 1 (Z.of_nat (List.length l))).
  pose proof (Z.div_mod (h + 9) 10 ltac:(lia)) as E2.
  pose proof (Z.mod_pos_bound (h + 9) 10 ltac:(lia)) as B2.
  lia.
Qed.

Lemma validate_in_range (n : Z) :
  1 <= n <= Paginator.num_pages p ->
  Paginator.validate_number p (Py.PyInt n) = inr n.
Proof.
  intros [H1 H2]. unfold Paginator.validate_number; simpl.
  destruct (n <? 1) eqn:E1; [apply Z.ltb_lt in E1; lia|].
  destruct (Paginator.num_pages p <? n) eqn:E2;
    [apply Z.ltb_lt in E2; lia|].
  reflexivity.
Qed.

Lemma page_in_range (n : Z) :
  1 <= n <= Paginator.num_pages p ->
  Paginator.page p (Py.PyInt n)
  = inr (Paginator.mkPage
           (Paginator.slice l ((n - 1) * 10)
              (Z.min (n * 10) (Z.of_nat (List.length l))))
           n p).
Proof.
  intros H. unfold Paginator.page. rewrite (validate_in_range n H).
  unfold p, Paginator.make, Paginator.count; simpl.
  repeat f_equal.
  destruct (Z.of_nat (List.length l) <=? (n - 1) * 10 + 10 + 0) eqn:E.
  - apply Z.leb_le in E. lia.
  - apply Z.leb_gt in E. lia.
Qed.

(** [get_page] always returns a page: page 1 when the value is not an
    integer, the page asked for when it exists, the last page for every
    other integer. *)
Lemma get_page_cases (v : Py.value) :
  exists n,
    Paginator.get_page p v
    = inr (Paginator.mkPage
             (Paginator.slice l ((n - 1) * 10)
                (Z.min (n * 10) (Z.of_nat (List.length l))))
             n p)
    /\ 1 <= n <= Paginator.num_pages p
    /\ (Py.int v = None -> n = 1)
    /\ (forall k, Py.int v = Some k ->
                  1 <= k <= Paginator.num_pages p -> n = k)
    /\ (forall k, Py.int v = Some k ->
                  k < 1 \/ Paginator.num_pages p < k ->
                  n = Paginator.num_pages p).
Proof.
  pose proof num_pages_pos as Hn.
  unfold Paginator.get_page, Paginator.validate_number.
  destruct (Py.int v) as [k|] eqn:Ev.
  - destruct (k <? 1) eqn:E1.
    + apply Z.ltb_lt in E1.
      exists (Paginator.num_pages p).
      split; [apply page_in_range; lia|].
      split; [lia|]. split; [discriminate|].
      split; intros k' [= <-] Hk; lia.
    + apply Z.ltb_ge in E1.
      destruct (Paginator.num_pages p <? k) eqn:E2.
      * apply Z.ltb_lt in E2.
        destruct (k =? 1) eqn:E3; [apply Z.eqb_eq in E3; lia|]. simpl.
        exists (Paginator.num_pages p).
        split; [apply page_in_range; lia|].
        split; [lia|]. split; [discriminate|].
        split; intros k' [= <-] Hk; lia.
      * apply Z.ltb_ge in E2.
        exists k.
        split; [apply page_in_range; lia|].
        split; [lia|]. split; [discriminate|].
        split; intros k' [= <-] Hk; lia.
  - exists 1.
    split; [apply page_in_range; lia|].
    split; [lia|]. split; [reflexivity|].
    split; intros k' [=].
Qed.

Lemma slice_length (bottom top : Z) :
  (List.length (Paginator.slice l bottom top) <= Z.to_nat (top - bottom))%nat.
Proof. unfold Paginator.slice. apply firstn_le_length. Qed.

End PaginatorFacts.

(** ** Rows and constraints *)

Section Rows.
Context {A K : Type} (g : A -> K).

Lemma NoDup_map_eq (l : list A) (x y : A) :
  NoDup (map g l) -> In x l -> In y l -> g x = g y -> x = y.
Proof.
  induction l as [|a r IH]; simpl; intros Hnd Hx Hy E; [contradiction|].
  inversion Hnd as [|? ? Hnin Hnd']; subst.
  destruct Hx as [<-|Hx], Hy as [<-|Hy]; trivial.
  - exfalso. apply Hnin. rewrite E. now apply in_map.
  - exfalso. apply Hnin. rewrite <- E. now apply in_map.
  - now apply IH.
Qed.

(** At most one row carries a given value of a unique column. *)
Lemma unique_filter_length (f : A -> bool) (k : K) (l : list A) :
  NoDup (map g l) ->
  (forall x, In x l -> f x = true -> g x = k) ->
  (List.length (filter f l) <= 1)%nat.
Proof.
  induction l as [|a r IH]; simpl; intros Hnd Hk; [lia|].
  inversion Hnd as [|? ? Hnin Hnd']; subst.
  assert (Hr : forall x, In x r -> f x = true -> g x = k)
    by (intros x Hx; apply Hk; now right).
  destruct (f a) eqn:Ea; [|now apply IH].
  simpl. destruct (filter f r) as [|b t] eqn:Er; [simpl; lia|].
  exfalso. apply Hnin.
  assert (Hb : In b (filter f r)) by (rewrite Er; now left).
  apply filter_In in Hb. destruct Hb as [Hb Hfb].
  rewrite (Hk a (or_introl eq_refl) Ea), <- (Hr b Hb Hfb).
  now apply in_map.
Qed.

Lemma NoDup_map_NoDup (l : list A) : NoDup (map g l) -> NoDup l.
Proof.
  induction l as [|a r IH]; simpl; intros H; [constructor|].
  inversion H as [|? ? Hnin Hnd]; subst.
  constructor; [|now apply IH].
  intros Hin. apply Hnin. now apply in_map.
Qed.

End Rows.

Lemma mem_In (x : pk) (l : list pk) : ORM.mem x l = true <-> In x l.
Proof.
  unfold ORM.mem. rewrite existsb_exists. split.
  - intros [y [Hy E]]. apply Z.eqb_eq in E. now subst.
  - intros H. exists x. split; [exact H | apply Z.eqb_refl].
Qed.

Lemma next_id_above (seq : pk) (ids : list pk) (x : pk) :
  In x ids -> x < ORM.next_id seq ids.
Proof.
  unfold ORM.next_id, pk in *.
  induction ids as [|a r IH]; cbn [fold_right In]; [contradiction|].
  intros [<-|H]; [lia|]. specialize (IH H). lia.
Qed.

Lemma next_id_fresh (seq : pk) (ids : list pk) :
  ~ In (ORM.next_id seq ids) ids.
Proof. intros H. apply (next_id_above seq) in H. unfold pk in *. lia. Qed.

Lemma next_id_above_seq (seq : pk) (ids : list pk) :
  seq < ORM.next_id seq ids.
Proof.
  unfold ORM.next_id, pk in *.
  induction ids as [|a r IH]; cbn [fold_right]; lia.
Qed.

(** A post that comes at most once per row of the table comes at most once
    in the join. *)
Lemma flat_map_NoDup {A : Type} (f : A -> list A) (l : list A) :
  NoDup l ->
  (forall x, f x = [] \/ f x = [x]) ->
  NoDup (flat_map f l).
Proof.
  intros Hnd Hf. induction Hnd as [|a r Hnin Hnd IH]; simpl; [constructor|].
  destruct (Hf a) as [E|E]; rewrite E; simpl; [exact IH|].
  constructor; [|exact IH].
  intros Hin. apply in_flat_map in Hin. destruct Hin as [y [Hy Hay]].
  destruct (Hf y) as [E'|E']; rewrite E' in Hay; simpl in Hay;
    [contradiction|].
  destruct Hay as [->|[]]. contradiction.
Qed.

(** ** The following feed *)

Section FollowingFeed.
Import Site Views.
Variable d : DB.t.
Variable u : User.t.

Let feed : list Post.t :=
  ORM.Post_author_following_in (ORM.Follow_by_user u d) d.

(** The rows of the join for one post. *)
Let rows (p : Post.t) : list Follow.t :=
  filter (fun f => (Follow.author f =? Post.author p)
                   && ORM.mem (Follow.id f)
                        (map Follow.id (ORM.Follow_by_user u d)))
    (DB.follows d).

Lemma rows_spec (p : Post.t) (f : Follow.t) :
  NoDup (map Follow.id (DB.follows d)) ->
  In f (rows p) <->
  In f (DB.follows d)
  /\ Follow.author f = Post.author p /\ Follow.user f = User.id u.
Proof.
  intros Hpk. unfold rows. rewrite filter_In, andb_true_iff, mem_In.
  rewrite in_map_iff, Z.eqb_eq. unfold ORM.Follow_by_user. split.
  - intros [Hf [Ha [f' [Eid Hf']]]]. apply filter_In in Hf'.
    destruct Hf' as [Hf' Hu]. apply Z.eqb_eq in Hu.
    assert (f' = f) by (apply (NoDup_map_eq Follow.id (DB.follows d));
                        assumption).
    subst f'. auto.
  - intros [Hf [Ha Hu]]. repeat split; trivial.
    exists f. split; [reflexivity|]. apply filter_In. split; [exact Hf|].
    now apply Z.eqb_eq.
Qed.

Lemma feed_In (p : Post.t) :
  NoDup (map Follow.id (DB.follows d)) ->
  In p feed <->
  In p (DB.posts d) /\ follows d (User.id u) (Post.author p).
Proof.
  intros Hpk. unfold feed, ORM.Post_author_following_in.
  rewrite order_by_desc_In, in_flat_map. fold (rows p). split.
  - intros [q [Hq Hin]]. apply in_map_iff in Hin.
    destruct Hin as [f [-> Hf]]. fold (rows p) in Hf.
    apply (rows_spec p f Hpk) in Hf. destruct Hf as [Hf [Ha Hu]].
    split; [exact Hq|]. exists f. auto.
  - intros [Hp [f [Hf [Hu Ha]]]]. exists p. split; [exact Hp|].
    apply in_map_iff. exists f. split; [reflexivity|].
    fold (rows p). apply (rows_spec p f Hpk). auto.
Qed.

Lemma feed_sorted : newest_first feed.
Proof. apply (order_by_desc_sorted Post.pub_date). Qed.

Lemma feed_NoDup :
  primary_keys d -> unique_together d -> NoDup feed.
Proof.
  intros [_ [Hposts Hpk]] Hut. unfold feed, ORM.Post_author_following_in.
  eapply Permutation_NoDup;
    [apply Permutation_sym, order_by_desc_perm|].
  apply flat_map_NoDup; [now apply (NoDup_map_NoDup Post.id)|].
  intros p. fold (rows p).
  assert (H : (List.length (rows p) <= 1)%nat).
  { unfold rows.
    apply (unique_filter_length
             (fun f => (Follow.author f, Follow.user f)) _
             (Post.author p, User.id u)); [exact Hut|].
    intros f Hf Hc.
    assert (Hin : In f (rows p)) by (apply filter_In; auto).
    apply (rows_spec p f Hpk) in Hin. destruct Hin as [_ [-> ->]].
    reflexivity. }
  destruct (rows p) as [|f [|f' t]]; simpl in *; auto; lia.
Qed.

End FollowingFeed.

(** C1.  For a logged-in user, [follow_index] renders the paginated list of
    the posts whose author the user follows: a post is in the list exactly
    when it is stored and some [Follow] row leads from the user to its
    author, and the list is in descending order of [pub_date]. *)
Theorem following_feed_exact (d : DB.t) (u : User.t)
  (request : Views.HttpRequest) :
  NoDup (map Follow.id (DB.follows d)) ->
  Views.user request = Some u ->
  let feed := ORM.Post_author_following_in (ORM.Follow_by_user u d) d in
  (exists page,
      Views.follow_index request d
      = (Views.respond
           (Views.render "follow.html"
              (Views.ctx_follow page (Paginator.make feed 10))), d)
      /\ Views.get_page (Paginator.make feed 10) request = inr page)
  /\ (forall p, In p feed <->
                In p (DB.posts d)
                /\ Site.follows d (User.id u) (Post.author p))
  /\ Site.newest_first feed.
Proof.
  intros Hpk Hu feed. split; [|split].
  - unfold Views.follow_index, Views.login_required. rewrite Hu.
    fold feed. unfold Views.get_page.
    destruct (get_page_cases feed
                (QueryDict.to_value
                   (QueryDict.get (Views.GET request) "page")))
      as [n [E _]].
    rewrite E. eexists. split; reflexivity.
  - intros p. now apply feed_In.
  - apply feed_sorted.
Qed.

Lemma following_feed_exact_witness :
  let feed :=
    ORM.Post_author_following_in
      (ORM.Follow_by_user Sample.bob Sample.followed) Sample.followed in
  feed = [Post.mk 1 "from alice" 1000 1 (Some 1) ""]
  /\ (forall p, In p feed <->
                In p (DB.posts Sample.followed)
                /\ Site.follows Sample.followed 2 (Post.author p)).
Proof.
  split; [reflexivity|].
  refine (proj1 (proj2 (following_feed_exact Sample.followed Sample.bob
                          (Sample.get_request (Some Sample.bob) []) _ _))).
  - simpl. repeat constructor. simpl. tauto.
  - reflexivity.
Defined.

(** ** Pages of a feed *)

(** The page a view gets for a list of posts: a slice of the list, page 1
    when the request names no page. *)
Lemma views_get_page_slice (post_list : list Post.t)
  (request : Views.HttpRequest) :
  exists n,
    Views.get_page (Paginator.make post_list 10) request
    = inr (Paginator.mkPage
             (Paginator.slice post_list ((n - 1) * 10)
                (Z.min (n * 10) (Z.of_nat (List.length post_list))))
             n (Paginator.make post_list 10))
    /\ (QueryDict.get (Views.GET request) "page" = None -> n = 1).
Proof.
  unfold Views.get_page.
  destruct (get_page_cases post_list
              (QueryDict.to_value
                 (QueryDict.get (Views.GET request) "page")))
    as [n [E [_ [H1 _]]]].
  rewrite E. exists n. split; [reflexivity|].
  intros Hnone. apply H1. now rewrite Hnone.
Qed.

(** C8, as the code has it.  For every list of posts and every request,
    [get_page] returns a page and never raises; the page holds at most 10
    posts, the slice of the list the page number selects.  The page is the
    first one when the [page] parameter is absent or not an integer, the
    page asked for when it exists, and the last page for every other
    integer: one beyond the last page, and also zero or a negative one. *)
Theorem feed_page_clamped (post_list : list Post.t)
  (request : Views.HttpRequest) :
  let paginator := Paginator.make post_list 10 in
  let asked :=
    QueryDict.to_value (QueryDict.get (Views.GET request) "page") in
  exists page,
    Views.get_page paginator request = inr page
    /\ (List.length (Paginator.page_object_list page) <= 10)%nat
    /\ 1 <= Paginator.number page <= Paginator.num_pages paginator
    /\ Paginator.page_object_list page
       = Paginator.slice post_list ((Paginator.number page - 1) * 10)
           (Z.min (Paginator.number page * 10)
              (Z.of_nat (List.length post_list)))
    /\ (Py.int asked = None -> Paginator.number page = 1)
    /\ (forall k, Py.int asked = Some k ->
                  1 <= k <= Paginator.num_pages paginator ->
                  Paginator.number page = k)
    /\ (forall k, Py.int asked = Some k ->
                  k < 1 \/ Paginator.num_pages paginator < k ->
                  Paginator.number page = Paginator.num_pages paginator).
Proof.
  intros paginator asked. unfold Views.get_page. fold asked.
  destruct (get_page_cases post_list asked) as [n [E [Hn [H1 [H2 H3]]]]].
  fold paginator in E, Hn, H2, H3. rewrite E.
  eexists. split; [reflexivity|]. simpl.
  split; [|auto].
  eapply Nat.le_trans; [apply slice_length|]. lia.
Qed.

(** The four feeds (main page, group, profile, following) hand their list
    of posts to [Views.get_page] and render the page it returns. *)
Lemma feeds_render_get_page (request : Views.HttpRequest) (d : DB.t) :
  (exists page,
      Views.index_body request d
      = (Views.respond
           (Views.render "index.html"
              (Views.ctx_index page (Paginator.make (ORM.Post_all d) 10))),
         d)
      /\ Views.get_page (Paginator.make (ORM.Post_all d) 10) request
         = inr page)
  /\ (forall slug group,
         ORM.get_object_or_404
           (filter (fun g => String.eqb (Group.slug g) slug) (DB.groups d))
         = inr group ->
         exists page,
           Views.group_posts slug request d
           = (Views.respond
                (Views.render "group.html"
                   (Views.ctx_group group page
                      (Paginator.make (ORM.Group_posts group d) 10))), d)
           /\ Views.get_page (Paginator.make (ORM.Group_posts group d) 10)
                request = inr page)
  /\ (forall username author,
         Views.get_user username d = inr author ->
         exists page following,
           Views.profile username request d
           = (Views.respond
                (Views.render "profile.html"
                   (Views.ctx_profile author page
                      (Paginator.make
                         (ORM.Post_filter
                            (fun p => ORM.author_username d (Post.author p)
                                        username) d) 10)
                      following)), d)
           /\ Views.get_page
                (Paginator.make
                   (ORM.Post_filter
                      (fun p => ORM.author_username d (Post.author p)
                                  username) d) 10)
                request = inr page)
  /\ (forall u,
         Views.user request = Some u ->
         let feed :=
           ORM.Post_author_following_in (ORM.Follow_by_user u d) d in
         exists page,
           Views.follow_index request d
           = (Views.respond
                (Views.render "follow.html"
                   (Views.ctx_follow page (Paginator.make feed 10))), d)
           /\ Views.get_page (Paginator.make feed 10) request = inr page).
Proof.
  split; [|split; [|split]].
  4: { intros u Hu feed. unfold Views.follow_index, Views.login_required.
       rewrite Hu. fold feed.
       destruct (views_get_page_slice feed request) as [n [E _]].
       rewrite E. eauto. }
  - unfold Views.index_body.
    destruct (views_get_page_slice (ORM.Post_all d) request) as [n [E _]].
    rewrite E. eauto.
  - intros slug group Hg. unfold Views.group_posts. rewrite Hg.
    destruct (views_get_page_slice (ORM.Group_posts group d) request)
      as [n [E _]].
    rewrite E. eauto.
  - intros username author Ha. unfold Views.profile. rewrite Ha.
    match goal with
    | |- context [Views.get_page (Paginator.make ?l 10) request] =>
        destruct (views_get_page_slice l request) as [n [E _]]
    end.
    rewrite E. eauto.
Qed.

(** C8, as the spec words it, fails: page number 0 is not a valid 1-based
    page number, yet with eleven posts the main page returns the last page
    (page 2, holding the oldest post), not the first. *)
Lemma page_zero_is_last_page :
  Py.int (QueryDict.to_value
            (QueryDict.get
               (Views.GET (Sample.get_request None [("page", "0")]))
               "page")) = Some 0
  /\ (let paginator := Paginator.make (ORM.Post_all Sample.eleven) 10 in
      Views.index_body (Sample.get_request None [("page", "0")])
        Sample.eleven
      = (Views.respond
           (Views.render "index.html"
              (Views.ctx_index
                 (Paginator.mkPage [Sample.entry 1] 2 paginator)
                 paginator)),
         Sample.eleven))
  /\ 2 <> 1.
Proof. split; [reflexivity|]. split; [reflexivity | discriminate]. Qed.

(** The page number may be written in the digits of any script: with
    eleven posts, [page] given as the Arabic-Indic digit two selects the
    second page. *)
Lemma page_in_another_script :
  let request :=
    Views.mkRequest Views.mGET "http://testserver" "/" "page=%D9%A2" None
      [("page", Py.encode [0x662])] [] [] in
  let paginator := Paginator.make (ORM.Post_all Sample.eleven) 10 in
  Views.index_body request Sample.eleven
  = (Views.respond
       (Views.render "index.html"
          (Views.ctx_index (Paginator.mkPage [Sample.entry 1] 2 paginator)
             paginator)),
     Sample.eleven).
Proof. reflexivity. Qed.

(** ** Deleting users and groups *)

Lemma CASCADE_In {A : Type} (refers : A -> bool) (rows : list A) (x : A) :
  In x (ORM.CASCADE refers rows) <-> In x rows /\ refers x = false.
Proof.
  unfold ORM.CASCADE. rewrite filter_In, negb_true_iff. reflexivity.
Qed.

(** C6.  After [user.delete()] no post and no comment written by the user
    is stored, no comment on one of the user's posts, and no [Follow] row
    with the user at either end; the user's own row is gone, and no row is
    made up. *)
Theorem user_delete_cascades (d : DB.t) (uid : pk) :
  let d' := ORM.User_delete uid d in
  (forall u, In u (DB.users d') -> In u (DB.users d) /\ User.id u <> uid)
  /\ (forall p, In p (DB.posts d') ->
                In p (DB.posts d) /\ Post.author p <> uid)
  /\ (forall c, In c (DB.comments d') ->
                In c (DB.comments d)
                /\ Comment.author c <> uid
                /\ forall p, In p (DB.posts d) -> Post.author p = uid ->
                             Comment.post c <> Post.id p)
  /\ (forall f, In f (DB.follows d') ->
                In f (DB.follows d)
                /\ Follow.author f <> uid /\ Follow.user f <> uid).
Proof.
  cbv zeta. unfold ORM.User_delete, ORM.Post_delete; simpl.
  repeat split.
  - now apply filter_In in H.
  - apply filter_In in H. destruct H as [_ H].
    apply negb_true_iff, Z.eqb_neq in H. exact H.
  - now apply filter_In in H.
  - apply filter_In in H. destruct H as [Hp H]. intros E.
    apply negb_true_iff in H.
    assert (Hm : ORM.mem (Post.id p)
                   (map Post.id
                      (filter (fun q => Post.author q =? uid) (DB.posts d)))
                 = true).
    { apply mem_In, in_map, filter_In. split; [exact Hp|].
      now apply Z.eqb_eq. }
    congruence.
  - apply CASCADE_In in H. destruct H as [H _].
    apply CASCADE_In in H. tauto.
  - apply CASCADE_In in H. destruct H as [_ H]. now apply Z.eqb_neq in H.
  - intros p Hp Ha E. apply CASCADE_In in H. destruct H as [H _].
    apply CASCADE_In in H. destruct H as [_ H].
    assert (Hm : ORM.mem (Comment.post c)
                   (map Post.id
                      (filter (fun q => Post.author q =? uid) (DB.posts d)))
                 = true).
    { apply mem_In. rewrite E. apply in_map, filter_In.
      split; [exact Hp|]. now apply Z.eqb_eq. }
    congruence.
  - apply CASCADE_In in H. destruct H as [H _].
    apply CASCADE_In in H. tauto.
  - apply CASCADE_In in H. destruct H as [H _].
    apply CASCADE_In in H. destruct H as [_ H]. now apply Z.eqb_neq in H.
  - apply CASCADE_In in H. destruct H as [_ H]. now apply Z.eqb_neq in H.
Qed.

(** What [SET_NULL] does to one post when group [gid] is deleted. *)
Lemma SET_NULL_group (gid : pk) (p : Post.t) :
  let p' :=
    if match Post.group p with
       | Some k => k =? gid
       | None => false
       end
    then Post.set_group None p else p in
  Post.id p' = Post.id p /\ Post.text p' = Post.text p
  /\ Post.pub_date p' = Post.pub_date p /\ Post.author p' = Post.author p
  /\ Post.image p' = Post.image p
  /\ Post.group p' = (if match Post.group p with
                         | Some k => k =? gid
                         | None => false
                         end
                      then None else Post.group p)
  /\ Post.group p' <> Some gid.
Proof.
  cbv zeta. destruct (Post.group p) as [k|] eqn:G.
  - destruct (k =? gid) eqn:E; simpl; repeat split; try discriminate;
      try exact G.
    rewrite G. intros [= ->]. now rewrite Z.eqb_refl in E.
  - repeat split; try exact G. rewrite G. discriminate.
Qed.

(** C7.  [group.delete()] deletes no post: the table of posts keeps its
    length and its order, every post keeps its key, text, [pub_date],
    author and image, a post of the deleted group has its group reference
    emptied and every other post keeps its own; comments, follows and
    users are untouched. *)
Theorem group_delete_keeps_posts (d : DB.t) (gid : pk) :
  let d' := ORM.Group_delete gid d in
  List.length (DB.posts d') = List.length (DB.posts d)
  /\ Forall2
       (fun p p' =>
          Post.id p' = Post.id p /\ Post.text p' = Post.text p
          /\ Post.pub_date p' = Post.pub_date p
          /\ Post.author p' = Post.author p
          /\ Post.image p' = Post.image p
          /\ Post.group p' = (if match Post.group p with
                                 | Some k => k =? gid
                                 | None => false
                                 end
                              then None else Post.group p))
       (DB.posts d) (DB.posts d')
  /\ (forall p', In p' (DB.posts d') -> Post.group p' <> Some gid)
  /\ (forall g, In g (DB.groups d') -> Group.id g <> gid)
  /\ DB.comments d' = DB.comments d
  /\ DB.follows d' = DB.follows d
  /\ DB.users d' = DB.users d.
Proof.
  cbv zeta. unfold ORM.Group_delete, ORM.SET_NULL; simpl.
  split; [apply length_map|].
  split.
  { induction (DB.posts d) as [|p r IH]; simpl; constructor; [|exact IH].
    pose proof (SET_NULL_group gid p) as H. cbv zeta in H. tauto. }
  split.
  { intros p' H. apply in_map_iff in H. destruct H as [p [<- _]].
    pose proof (SET_NULL_group gid p) as H. cbv zeta in H. tauto. }
  split; [|auto].
  intros g H. apply filter_In in H. destruct H as [_ H].
  now apply negb_true_iff, Z.eqb_neq in H.
Qed.

(** ** Following and unfollowing *)

Section FollowFacts.
Import Views.
Variable d : DB.t.
Variables u a : User.t.
Variable username : string.
Variable request : HttpRequest.
Hypothesis Hu : user request = Some u.
Hypothesis Ha : get_user username d = inr a.

(** The row [profile_follow] inserts. *)
Let edge : Follow.t :=
  Follow.mk (ORM.next_id (DB.follow_seq d) (map Follow.id (DB.follows d)))
    (User.id a) (User.id u).

Let added : DB.t :=
  DB.mk (DB.users d) (DB.groups d) (DB.posts d) (DB.comments d)
    (DB.follows d ++ [edge])
    (DB.post_seq d) (DB.comment_seq d) (Follow.id edge).

Lemma profile_follow_creates :
  ORM.Follow_filter u a d = [] -> User.id a <> User.id u ->
  profile_follow username request d
  = (respond (redirect (url_profile username)), added).
Proof.
  intros Hf Hne. unfold profile_follow, login_required.
  rewrite Hu, Ha, Hf. unfold User.eqb.
  apply Z.eqb_neq in Hne. rewrite Hne. simpl.
  unfold ORM.Follow_create. rewrite Hf. reflexivity.
Qed.

Lemma profile_follow_skips :
  ORM.Follow_filter u a d <> [] \/ User.id a = User.id u ->
  profile_follow username request d
  = (respond (redirect (url_profile username)), d).
Proof.
  intros H. unfold profile_follow, login_required. rewrite Hu, Ha.
  destruct H as [H|H].
  - destruct (ORM.Follow_filter u a d); [contradiction | reflexivity].
  - unfold User.eqb. apply Z.eqb_eq in H. rewrite H.
    now rewrite andb_false_r.
Qed.

Lemma Follow_filter_added :
  ORM.Follow_filter u a added = ORM.Follow_filter u a d ++ [edge].
Proof.
  unfold ORM.Follow_filter, added; simpl. rewrite filter_app; simpl.
  now rewrite !Z.eqb_refl.
Qed.

Lemma profile_unfollow_deletes :
  profile_unfollow username request d
  = (respond (redirect (url_profile username)), ORM.Follow_delete u a d).
Proof.
  unfold profile_unfollow, login_required. now rewrite Hu, Ha.
Qed.

End FollowFacts.

Lemma Follow_filter_deleted (u a : User.t) (d : DB.t) :
  ORM.Follow_filter u a (ORM.Follow_delete u a d) = [].
Proof.
  unfold ORM.Follow_filter, ORM.Follow_delete; simpl.
  induction (DB.follows d) as [|f r IH]; simpl; [reflexivity|].
  destruct ((Follow.user f =? User.id u) && (Follow.author f =? User.id a))
    eqn:E; simpl; [exact IH|].
  now rewrite E.
Qed.

Lemma Follow_delete_absent (u a : User.t) (d : DB.t) :
  ORM.Follow_filter u a d = [] -> ORM.Follow_delete u a d = d.
Proof.
  unfold ORM.Follow_filter, ORM.Follow_delete, DB.with_tables.
  destruct d as [us gs ps cs fs s1 s2 s3]; simpl. intros H. f_equal.
  induction fs as [|f r IH]; simpl in *; [reflexivity|].
  destruct ((Follow.user f =? User.id u) && (Follow.author f =? User.id a));
    simpl; [discriminate|].
  f_equal. now apply IH.
Qed.

Lemma unique_together_edges (u a : User.t) (d : DB.t) :
  Site.unique_together d -> (Site.edges u a d <= 1)%nat.
Proof.
  intros H. unfold Site.edges, ORM.Follow_filter.
  apply (unique_filter_length (fun f => (Follow.author f, Follow.user f)) _
           (User.id a, User.id u)); [exact H|].
  intros f _ E. apply andb_prop in E. destruct E as [E1 E2].
  apply Z.eqb_eq in E1, E2. now rewrite E1, E2.
Qed.

(** C4.  For a logged-in user [u] and a stored author [a] other than [u],
    in a store that satisfies [unique_together]: following twice answers
    with the redirect both times and leaves exactly one edge from [u] to
    [a], the second call changing nothing; unfollowing twice answers with
    the redirect both times and leaves no edge, the second call changing
    nothing; and unfollowing when there is no edge changes nothing. *)
Theorem follow_unfollow_idempotent (d : DB.t) (u a : User.t)
  (request : Views.HttpRequest) :
  Views.user request = Some u ->
  Views.get_user (User.username a) d = inr a ->
  User.id u <> User.id a ->
  Site.unique_together d ->
  let follow := Views.profile_follow (User.username a) request in
  let unfollow := Views.profile_unfollow (User.username a) request in
  let ok :=
    Views.respond (Views.redirect (Views.url_profile (User.username a))) in
  (fst (follow d) = ok
   /\ fst (follow (snd (follow d))) = ok
   /\ Site.edges u a (snd (follow (snd (follow d)))) = 1%nat)
  /\ (fst (unfollow d) = ok
      /\ fst (unfollow (snd (unfollow d))) = ok
      /\ Site.edges u a (snd (unfollow (snd (unfollow d)))) = 0%nat)
  /\ (Site.edges u a d = 0%nat -> unfollow d = (ok, d))
  /\ snd (follow (snd (follow d))) = snd (follow d)
  /\ snd (unfollow (snd (unfollow d))) = snd (unfollow d).
Proof.
  intros Hu Ha Hne Hut follow unfollow ok.
  assert (Hne' : User.id a <> User.id u) by congruence.
  cut ((fst (follow d) = ok
        /\ follow (snd (follow d)) = (ok, snd (follow d))
        /\ Site.edges u a (snd (follow d)) = 1%nat)
       /\ (fst (unfollow d) = ok
           /\ unfollow (snd (unfollow d)) = (ok, snd (unfollow d))
           /\ Site.edges u a (snd (unfollow d)) = 0%nat)
       /\ (Site.edges u a d = 0%nat -> unfollow d = (ok, d))).
  { intros [[F1 [F2 F3]] [[U1 [U2 U3]] U0]].
    rewrite F2, U2. cbn [fst snd]. tauto. }
  split; [|split].
  - destruct (ORM.Follow_filter u a d) as [|f r] eqn:Hf.
    + unfold follow.
      rewrite (profile_follow_creates d u a _ request Hu Ha Hf Hne').
      cbn [fst snd].
      match goal with
      | |- _ /\ Views.profile_follow _ _ ?d' = _ /\ _ =>
          assert (Hf' : ORM.Follow_filter u a d' = [Follow.mk
                     (ORM.next_id (DB.follow_seq d)
                        (map Follow.id (DB.follows d)))
                     (User.id a) (User.id u)])
            by (rewrite Follow_filter_added, Hf; reflexivity);
          assert (Ha' : Views.get_user (User.username a) d' = inr a)
            by exact Ha
      end.
      split; [reflexivity|]. split.
      * apply (profile_follow_skips _ u a); trivial.
        left. rewrite Hf'. discriminate.
      * unfold Site.edges. now rewrite Hf'.
    + assert (Hs : follow d = (ok, d)).
      { apply (profile_follow_skips d u a); trivial.
        left. rewrite Hf. discriminate. }
      rewrite Hs. cbn [fst snd]. split; [reflexivity|].
      split; [exact Hs|].
      pose proof (unique_together_edges u a d Hut) as Hle.
      unfold Site.edges in *. rewrite Hf in *. simpl in *. lia.
  - unfold unfollow.
    rewrite (profile_unfollow_deletes d u a _ request Hu Ha). cbn [fst snd].
    split; [reflexivity|].
    assert (Ha' : Views.get_user (User.username a) (ORM.Follow_delete u a d)
                  = inr a) by exact Ha.
    split.
    + rewrite (profile_unfollow_deletes _ u a _ request Hu Ha').
      f_equal. apply Follow_delete_absent, Follow_filter_deleted.
    + unfold Site.edges. now rewrite Follow_filter_deleted.
  - intros H0. unfold unfollow.
    rewrite (profile_unfollow_deletes d u a _ request Hu Ha).
    f_equal. apply Follow_delete_absent.
    unfold Site.edges in H0.
    now destruct (ORM.Follow_filter u a d).
Qed.

Lemma follow_unfollow_idempotent_witness :
  let request := Sample.get_request (Some Sample.carol) [] in
  let follow := Views.profile_follow "alice" request in
  let unfollow := Views.profile_unfollow "alice" request in
  Site.edges Sample.carol Sample.alice Sample.followed = 0%nat
  /\ Site.edges Sample.carol Sample.alice
       (snd (unfollow (snd (unfollow (snd (follow Sample.followed))))))
     = 0%nat
  /\ Site.edges Sample.carol Sample.alice
       (snd (follow (snd (follow Sample.followed)))) = 1%nat.
Proof.
  do 2 (split; [reflexivity|]).
  refine (proj2 (proj2 (proj1
            (follow_unfollow_idempotent Sample.followed Sample.carol
               Sample.alice (Sample.get_request (Some Sample.carol) [])
               _ _ _ _)))).
  - reflexivity.
  - reflexivity.
  - simpl. lia.
  - unfold Site.unique_together. simpl. repeat constructor. simpl. tauto.
Defined.

(** ** Every action is one write *)

Lemma get_object_or_404_raises {A : Type} (l : list A) (e : exception) :
  ORM.get_object_or_404 l = inl e ->
  e = Http404 \/ e = MultipleObjectsReturned.
Proof.
  unfold ORM.get_object_or_404, ORM.get.
  destruct l as [|x [|y r]]; intros [= <-]; auto.
Qed.

Lemma get_object_or_404_In {A : Type} (l : list A) (x : A) :
  ORM.get_object_or_404 l = inr x -> l = [x].
Proof.
  unfold ORM.get_object_or_404, ORM.get.
  destruct l as [|y [|z r]]; intros [= <-]; reflexivity.
Qed.

(** A key the database can bind is bound as it is. *)
Lemma bind_cases (k : Z) :
  (- 2 ^ 63 <= k < 2 ^ 63 /\ ORM.bind k = inr k)
  \/ ((k < - 2 ^ 63 \/ 2 ^ 63 <= k) /\ ORM.bind k = inl OverflowError).
Proof.
  unfold ORM.bind.
  destruct (- 2 ^ 63 <=? k) eqn:L; [apply Z.leb_le in L | apply Z.leb_gt in L];
    destruct (k <? 2 ^ 63) eqn:U;
    [apply Z.ltb_lt in U | apply Z.ltb_ge in U | | ]; simpl; auto.
Qed.

Lemma bind_inr (k k' : Z) :
  ORM.bind k = inr k' -> k' = k /\ - 2 ^ 63 <= k < 2 ^ 63.
Proof.
  destruct (bind_cases k) as [[R E]|[R E]]; rewrite E; intros [= <-]; auto.
Qed.

(** The lookup of a post, once its key is bound. *)
Lemma get_post_bound (username : string) (post_id : pk) (d : DB.t) :
  ORM.bind post_id = inr post_id ->
  Views.get_post username post_id d
  = ORM.get_object_or_404
      (filter (fun p => (Post.id p =? post_id)
                        && ORM.author_username d (Post.author p) username)
         (DB.posts d)).
Proof. intros E. unfold Views.get_post. now rewrite E. Qed.

Lemma get_post_inr (username : string) (post_id : pk) (d : DB.t)
  (post : Post.t) :
  Views.get_post username post_id d = inr post ->
  ORM.bind post_id = inr post_id
  /\ ORM.get_object_or_404
       (filter (fun p => (Post.id p =? post_id)
                         && ORM.author_username d (Post.author p) username)
          (DB.posts d)) = inr post.
Proof.
  unfold Views.get_post.
  destruct (ORM.bind post_id) as [e|k] eqn:B; [discriminate|].
  destruct (bind_inr _ _ B) as [-> _]. auto.
Qed.

Lemma get_post_In (username : string) (post_id : pk) (d : DB.t)
  (post : Post.t) :
  Views.get_post username post_id d = inr post ->
  In post (DB.posts d) /\ Post.id post = post_id
  /\ ORM.author_username d (Post.author post) username = true.
Proof.
  intros H. apply get_post_inr in H. destruct H as [_ H].
  apply get_object_or_404_In in H.
  assert (Hin : In post [post]) by now left.
  rewrite <- H in Hin. apply filter_In in Hin. destruct Hin as [Hin E].
  apply andb_prop in E. destruct E as [E1 E2]. apply Z.eqb_eq in E1. auto.
Qed.

Section ViewSteps.
Import Views Effects.
Variable now : datetime.
Variable request : HttpRequest.
Variable d : DB.t.

Lemma get_page_total (l : list Post.t) :
  exists page, get_page (Paginator.make l 10) request = inr page.
Proof.
  destruct (views_get_page_slice l request) as [n [E _]]. eauto.
Qed.

Lemma index_body_step : snd (index_body request d) = d.
Proof.
  unfold index_body. now destruct (get_page _ request).
Qed.

Lemma group_posts_step (slug : string) :
  snd (group_posts slug request d) = d.
Proof.
  unfold group_posts.
  destruct (ORM.get_object_or_404 _); [reflexivity|].
  now destruct (get_page _ request).
Qed.

Lemma profile_step (username : string) :
  snd (profile username request d) = d.
Proof.
  unfold profile. destruct (get_user username d); [reflexivity|].
  now destruct (get_page _ request).
Qed.

Lemma post_view_step (username : string) (post_id : pk) :
  snd (post_view username post_id request d) = d.
Proof.
  unfold post_view. destruct (get_user username d); [reflexivity|].
  destruct (get_post username post_id d); [reflexivity|].
  now destruct (negb _).
Qed.

Lemma follow_index_step : snd (follow_index request d) = d.
Proof.
  unfold follow_index, login_required.
  destruct (user request); [|reflexivity].
  now destruct (get_page _ request).
Qed.

Lemma new_post_step : db_step now d (snd (new_post now request d)).
Proof.
  unfold new_post, login_required.
  destruct (user request) as [u|]; [|constructor].
  destruct (Forms.PostForm.make _ None d) as [e|form]; [constructor|].
  destruct (negb _); [constructor|].
  match goal with
  | |- context [ORM.Post_insert ?n ?t ?a ?g ?i d] =>
      destruct (ORM.Post_insert n t a g i d) as [e|[p d']] eqn:E
  end; [constructor|].
  eapply step_post_insert; exact E.
Qed.

Lemma add_comment_step (username : string) (post_id : pk) :
  db_step now d (snd (add_comment now username post_id request d)).
Proof.
  unfold add_comment, login_required.
  destruct (user request) as [u|]; [|constructor].
  destruct (get_post username post_id d); [constructor|].
  destruct (Forms.CommentForm.is_valid _); constructor.
Qed.

Lemma post_edit_step (username : string) (post_id : pk) :
  db_step now d (snd (post_edit username post_id request d)).
Proof.
  unfold post_edit, login_required.
  destruct (user request) as [u|]; [|constructor].
  destruct (negb (String.eqb _ _)); [constructor|].
  destruct (get_post username post_id d) as [e|post] eqn:E; [constructor|].
  destruct (Forms.PostForm.make _ _ d) as [e|form]; [constructor|].
  destruct (negb _); [constructor|].
  apply get_post_In in E. destruct E as [Hin _].
  now apply step_post_update with (post := post).
Qed.

Lemma profile_follow_step (username : string) :
  db_step now d (snd (profile_follow username request d)).
Proof.
  unfold profile_follow, login_required.
  destruct (user request) as [u|]; [|constructor].
  destruct (get_user username d) as [e|a]; [constructor|].
  destruct (negb _ && negb (User.eqb a u)) eqn:C; [|constructor].
  apply andb_prop in C. destruct C as [_ C].
  apply negb_true_iff, Z.eqb_neq in C.
  destruct (ORM.Follow_create u a d) as [e|d'] eqn:E; [constructor|].
  now apply step_follow_create with (u := u) (a := a).
Qed.

Lemma profile_unfollow_step (username : string) :
  db_step now d (snd (profile_unfollow username request d)).
Proof.
  unfold profile_unfollow, login_required.
  destruct (user request) as [u|]; [|constructor].
  destruct (get_user username d) as [e|a]; constructor.
Qed.

End ViewSteps.

Lemma lift_db (v : Views.view) (request : Views.HttpRequest)
  (s : Site.State) :
  Site.db (snd (Site.lift v request s)) = snd (v request (Site.db s)).
Proof. unfold Site.lift. now destruct (v request (Site.db s)). Qed.

Lemma index_db (now : datetime) (request : Views.HttpRequest)
  (s : Site.State) :
  Site.db (snd (Site.index now request s)) = Site.db s.
Proof.
  unfold Site.index, Site.cache_page.
  destruct (Site.fetch_from_cache _ _ _ _); [reflexivity|].
  pose proof (index_body_step request (Site.db s)) as H.
  destruct (Views.index_body request (Site.db s)) as [o d'].
  simpl in H. subst d'.
  destruct o as [[r|]|e]; try reflexivity.
  now destruct (_ && _).
Qed.

(** Every action performs at most one of the writes of [db_step]. *)
Lemma exec_step (now : datetime) (a : Site.action) (s : Site.State) :
  Effects.db_step now (Site.db s) (Site.db (snd (Site.exec now a s))).
Proof.
  destruct a; cbn [Site.exec fst snd]; rewrite ?lift_db, ?index_db.
  - constructor.
  - rewrite group_posts_step. constructor.
  - apply new_post_step.
  - rewrite profile_step. constructor.
  - rewrite post_view_step. constructor.
  - apply add_comment_step.
  - apply post_edit_step.
  - rewrite follow_index_step. constructor.
  - apply profile_follow_step.
  - apply profile_unfollow_step.
  - constructor.
  - constructor.
  - constructor.
Qed.

(** ** No edge from a user to themself *)

Lemma db_step_follows (now : datetime) (d d' : DB.t) :
  Effects.db_step now d d' ->
  forall f, In f (DB.follows d') ->
            In f (DB.follows d) \/ Follow.author f <> Follow.user f.
Proof.
  intros H f. destruct H; simpl; auto.
  - unfold ORM.Post_insert in H. injection H as _ <-. simpl. auto.
  - unfold ORM.Follow_create in H0.
    destruct (ORM.Follow_filter u a d); [|discriminate].
    injection H0 as <-. simpl. rewrite in_app_iff. simpl.
    intros [Hf|[<-|[]]]; auto.
  - intros Hf. apply filter_In in Hf. tauto.
  - intros Hf. apply CASCADE_In in Hf. destruct Hf as [Hf _].
    apply CASCADE_In in Hf. tauto.
Qed.

Lemma run_no_self_follow (h : list (datetime * Site.action))
  (s : Site.State) :
  Site.no_self_follow (Site.db s) ->
  Site.no_self_follow (Site.db (Site.run h s)).
Proof.
  revert s. induction h as [|[now a] h IH]; intros s Hs; simpl; [exact Hs|].
  apply IH. intros f Hf.
  destruct (db_step_follows now _ _ (exec_step now a s) f Hf) as [H|H];
    [now apply Hs | exact H].
Qed.

Lemma profile_follow_outcome (username : string)
  (request : Views.HttpRequest) (d : DB.t) :
  fst (Views.profile_follow username request d)
  = Views.respond (Views.redirect (Views.url_profile username))
  \/ fst (Views.profile_follow username request d)
     = Views.respond
         (Views.redirect (Views.url_login (Views.get_full_path request)))
  \/ fst (Views.profile_follow username request d) = Views.Raise Http404
  \/ fst (Views.profile_follow username request d)
     = Views.Raise MultipleObjectsReturned.
Proof.
  unfold Views.profile_follow, Views.login_required.
  destruct (Views.user request) as [u|]; [|auto].
  destruct (Views.get_user username d) as [e|a] eqn:E.
  - apply get_object_or_404_raises in E. destruct E as [-> | ->]; auto.
  - destruct (ORM.Follow_filter u a d) as [|f r] eqn:Hf; simpl; [|auto].
    destruct (negb (User.eqb a u)); [|auto].
    unfold ORM.Follow_create. rewrite Hf. auto.
Qed.

(** C5.  When a stored user asks to follow themself, [profile_follow]
    answers with the redirect and leaves the store as it is.  Whatever the
    request, [profile_follow] ends with a redirect or with the not-found
    signal of [get_object_or_404] (never with a constraint violation), and
    every [Follow] row of the store it leaves was there before or joins two
    different users.  So a history of actions that starts without an edge
    from a user to themself never reaches a state with one. *)
Theorem self_follow_is_noop :
  (forall (d : DB.t) (u : User.t) (request : Views.HttpRequest),
      Views.user request = Some u ->
      Views.get_user (User.username u) d = inr u ->
      Views.profile_follow (User.username u) request d
      = (Views.respond
           (Views.redirect (Views.url_profile (User.username u))), d))
  /\ (forall (username : string) (request : Views.HttpRequest) (d : DB.t),
         fst (Views.profile_follow username request d)
         <> Views.Raise IntegrityError
         /\ fst (Views.profile_follow username request d)
            <> Views.Return None
         /\ forall f,
             In f (DB.follows
                     (snd (Views.profile_follow username request d))) ->
             In f (DB.follows d) \/ Follow.author f <> Follow.user f)
  /\ (forall (h : list (datetime * Site.action)) (s : Site.State),
         Site.no_self_follow (Site.db s) ->
         Site.no_self_follow (Site.db (Site.run h s))).
Proof.
  split; [|split].
  - intros d u request Hu Ha.
    apply (profile_follow_skips d u u); auto.
  - intros username request d.
    pose proof (profile_follow_outcome username request d) as H.
    split; [|split].
    + destruct H as [H|[H|[H|H]]]; rewrite H; discriminate.
    + destruct H as [H|[H|[H|H]]]; rewrite H; discriminate.
    + apply (db_step_follows 0 d). apply profile_follow_step.
  - exact run_no_self_follow.
Qed.

Lemma self_follow_is_noop_witness :
  Views.profile_follow "bob" (Sample.get_request (Some Sample.bob) [])
    Sample.followed
  = (Views.respond (Views.redirect (Views.url_profile "bob")),
     Sample.followed).
Proof.
  apply (proj1 self_follow_is_noop Sample.followed Sample.bob
           (Sample.get_request (Some Sample.bob) [])); reflexivity.
Defined.

(** ** Form cleaning *)

Lemma clean_text_cases (raw : option string) :
  let value := match raw with None => "" | Some s => Py.strip s end in
  (value = "" /\ Forms.clean_text raw = inl Forms.required)
  \/ (value <> "" /\ Py.contains Forms.NUL value = true
      /\ Forms.clean_text raw = inl Forms.null_characters_not_allowed)
  \/ (value <> "" /\ Py.contains Forms.NUL value = false
      /\ Forms.clean_text raw = inr value).
Proof.
  cbv zeta. unfold Forms.clean_text.
  set (value := match raw with None => "" | Some s => Py.strip s end).
  destruct (String.eqb value "") eqn:E.
  - apply String.eqb_eq in E. auto.
  - apply String.eqb_neq in E.
    destruct (Py.contains Forms.NUL value); auto.
Qed.

Lemma CommentForm_valid (data : QueryDict.t) :
  let form := Forms.CommentForm.make (QueryDict.or_None data) in
  match Forms.clean_text (QueryDict.get data "text") with
  | inl e =>
      Forms.CommentForm.is_valid form = false
      /\ (data <> [] -> Forms.CommentForm.errors form = [("text", e)])
  | inr t =>
      Forms.CommentForm.is_valid form = true
      /\ Forms.CommentForm.text form = Some t
  end.
Proof.
  cbv zeta. destruct data as [|kv r].
  - simpl. split; [reflexivity | congruence].
  - unfold QueryDict.or_None, Forms.CommentForm.make.
    destruct (Forms.clean_text (QueryDict.get (kv :: r) "text"));
      simpl; auto.
Qed.

(** The data a form is made of, as the fields read it. *)
Lemma or_None_get (data : QueryDict.t) (key : string) :
  QueryDict.get
    match QueryDict.or_None data with Some x => x | None => [] end key
  = QueryDict.get data key.
Proof. now destruct data. Qed.

(** The cleaning of [PostForm] ends with what the lookup of the group
    raises, and with a form otherwise. *)
Lemma PostForm_make (data : QueryDict.t) (files : option Forms.Files)
  (d : DB.t) :
  match Forms.clean_group d (QueryDict.get data "group") with
  | inl e =>
      Forms.PostForm.make (QueryDict.or_None data) files d = inl e
  | inr g =>
      exists form,
        Forms.PostForm.make (QueryDict.or_None data) files d = inr form
  end.
Proof.
  unfold Forms.PostForm.make.
  destruct data as [|kv r]; cbn [QueryDict.or_None].
  - destruct files as [fs|]; simpl; eauto.
  - destruct files as [fs|];
      destruct (Forms.clean_group d _) as [e|g]; eauto.
Qed.

Lemma PostForm_valid (data : QueryDict.t) (files : option Forms.Files)
  (d : DB.t) (form : Forms.PostForm.t) :
  Forms.PostForm.make (QueryDict.or_None data) files d = inr form ->
  match Forms.clean_text (QueryDict.get data "text") with
  | inl e =>
      Forms.PostForm.is_valid form = false
      /\ (Forms.PostForm.is_bound form = true ->
          In ("text", e) (Forms.PostForm.errors form))
  | inr t =>
      Forms.PostForm.is_valid form = true ->
      Forms.PostForm.text form = Some t
  end.
Proof.
  unfold Forms.PostForm.make.
  destruct data as [|kv r]; cbn [QueryDict.or_None].
  - destruct files as [fs|]; intros [= <-]; simpl.
    + split; [reflexivity | auto].
    + split; [reflexivity | discriminate].
  - destruct files as [fs|];
      (destruct (Forms.clean_group d _) as [e|g]; [discriminate|]);
      intros [= <-];
      destruct (Forms.clean_text _); simpl; auto.
Qed.

(** The lookup of the posted group raises exactly when the value reads as
    an integer the database cannot bind, and what it raises then is
    [OverflowError]. *)
Lemma clean_group_raises (d : DB.t) (request : Views.HttpRequest) :
  Site.group_out_of_range request ->
  Forms.clean_group d (QueryDict.get (Views.POST request) "group")
  = inl OverflowError.
Proof.
  intros [s [k [Hs [Hk Hr]]]]. rewrite Hs. unfold Forms.clean_group.
  destruct (String.eqb s "") eqn:E.
  - apply String.eqb_eq in E. subst s. discriminate Hk.
  - rewrite Hk.
    destruct (bind_cases k) as [[R B]|[R B]]; rewrite B; [lia | reflexivity].
Qed.

Lemma clean_group_returns (d : DB.t) (request : Views.HttpRequest) :
  ~ Site.group_out_of_range request ->
  exists g,
    Forms.clean_group d (QueryDict.get (Views.POST request) "group")
    = inr g.
Proof.
  intros Hno. unfold Forms.clean_group.
  destruct (QueryDict.get (Views.POST request) "group") as [s|] eqn:Hs;
    [|eauto].
  destruct (String.eqb s ""); [eauto|].
  destruct (Py.int_of_str s) as [k|] eqn:Hk; [|eauto].
  destruct (bind_cases k) as [[R B]|[R B]]; rewrite B.
  - destruct (ORM.mem k _); eauto.
  - elim Hno. exists s, k. auto.
Qed.

(** What the cleaning of [PostForm] can raise. *)
Lemma PostForm_raises (data : option QueryDict.t)
  (files : option Forms.Files) (d : DB.t) (e : exception) :
  Forms.PostForm.make data files d = inl e -> e = OverflowError.
Proof.
  unfold Forms.PostForm.make.
  assert (G : forall raw e', Forms.clean_group d raw = inl e' ->
                             e' = OverflowError).
  { intros raw e'. unfold Forms.clean_group.
    destruct raw as [s|]; [|discriminate].
    destruct (String.eqb s ""); [discriminate|].
    destruct (Py.int_of_str s) as [k|]; [|discriminate].
    destruct (bind_cases k) as [[_ B]|[_ B]]; rewrite B.
    - destruct (ORM.mem k _); discriminate.
    - now intros [= <-]. }
  destruct data as [q|], files as [fs|]; try discriminate;
    match goal with
    | |- context [Forms.clean_group d ?raw] =>
        destruct (Forms.clean_group d raw) as [e'|g] eqn:C;
          [intros [= <-]; exact (G _ _ C) | discriminate]
    end.
Qed.

(** A form that was made had a group the database could look up. *)
Lemma PostForm_made (data : QueryDict.t) (files : option Forms.Files)
  (d : DB.t) (form : Forms.PostForm.t) :
  Forms.PostForm.make (QueryDict.or_None data) files d = inr form ->
  exists g, Forms.clean_group d (QueryDict.get data "group") = inr g.
Proof.
  intros H. pose proof (PostForm_make data files d) as M.
  destruct (Forms.clean_group d (QueryDict.get data "group")) as [e|g];
    [congruence | eauto].
Qed.

(** ** Commenting *)

(** C9, as the code has it.  A request without a logged-in user is sent to
    the login page and stores nothing.  For a logged-in user and a post
    that is found, [add_comment] answers with the redirect to the post in
    every case; when the text is missing, empty or blank after stripping
    (or holds a null character) the form is invalid and the store is left
    as it is; otherwise exactly one comment is appended, with a fresh key,
    the stripped text, the user as author, the post as post and the clock
    reading as [created], and the other tables are untouched. *)
Theorem add_comment_effect :
  (forall now username post_id request d,
      Views.user request = None ->
      Views.add_comment now username post_id request d
      = (Views.respond
           (Views.redirect (Views.url_login (Views.get_full_path request))), d))
  /\ (forall now username post_id request d u post,
         Views.user request = Some u ->
         Views.get_post username post_id d = inr post ->
         let raw := QueryDict.get (Views.POST request) "text" in
         let r := Views.add_comment now username post_id request d in
         fst r
         = Views.respond (Views.redirect (Views.url_post username post_id))
         /\ (forall e, Forms.clean_text raw = inl e -> snd r = d)
         /\ (forall t, Forms.clean_text raw = inr t ->
               exists c,
                 DB.comments (snd r) = DB.comments d ++ [c]
                 /\ List.length (DB.comments (snd r))
                    = S (List.length (DB.comments d))
                 /\ Comment.author c = User.id u
                 /\ Comment.post c = post_id
                 /\ Comment.created c = now
                 /\ Comment.text c = t
                 /\ ~ In (Comment.id c) (map Comment.id (DB.comments d))
                 /\ DB.posts (snd r) = DB.posts d
                 /\ DB.follows (snd r) = DB.follows d
                 /\ DB.users (snd r) = DB.users d)).
Proof.
  split.
  - intros now username post_id request d Hu.
    unfold Views.add_comment, Views.login_required. now rewrite Hu.
  - intros now username post_id request d u post Hu Hp raw r.
    pose proof (CommentForm_valid (Views.POST request)) as Hf.
    cbv zeta in Hf. fold raw in Hf.
    destruct (get_post_In _ _ _ _ Hp) as [_ [Hid _]].
    unfold r, Views.add_comment, Views.login_required.
    rewrite Hu, Hp. cbn [fst snd].
    split; [reflexivity|].
    destruct (Forms.clean_text raw) as [e|t].
    + destruct Hf as [Hf _]. rewrite Hf.
      split; [reflexivity | discriminate].
    + destruct Hf as [Hf Ht]. rewrite Hf.
      unfold Forms.CommentForm.text_of. rewrite Ht.
      split; [discriminate|].
      intros t' [= <-]. eexists. simpl.
      split; [reflexivity|].
      split; [rewrite length_app; simpl; lia|].
      repeat split; trivial.
      apply next_id_fresh.
Qed.

Lemma add_comment_effect_witness :
  exists c,
    DB.comments
      (snd (Views.add_comment 9000 "alice" 1
              (Sample.post_request (Some Sample.carol) [("text", " hi ")])
              Sample.followed))
    = DB.comments Sample.followed ++ [c]
    /\ Comment.author c = 3 /\ Comment.post c = 1
    /\ Comment.created c = 9000 /\ Comment.text c = "hi".
Proof.
  destruct (proj2 (proj2 (proj2 add_comment_effect 9000 "alice" 1
              (Sample.post_request (Some Sample.carol) [("text", " hi ")])
              Sample.followed Sample.carol
              (Post.mk 1 "from alice" 1000 1 (Some 1) "")
              eq_refl eq_refl)) "hi" eq_refl)
    as [c [H1 [_ [H2 [H3 [H4 [H5 _]]]]]]].
  exists c. auto.
Defined.

(** C9, as the spec words it, fails twice.  With an empty text the call
    does not fail: it answers with the same redirect as a call that stores
    a comment.  And a text that is not empty but blank is refused: the
    comments stay as they were. *)
Lemma add_comment_swallows_errors :
  let empty := Sample.post_request (Some Sample.carol) [("text", "")] in
  let good := Sample.post_request (Some Sample.carol) [("text", "hi")] in
  let blank := Sample.post_request (Some Sample.carol) [("text", " ")] in
  Views.add_comment 9000 "alice" 1 empty Sample.followed
  = (Views.respond (Views.redirect (Views.url_post "alice" 1)),
     Sample.followed)
  /\ fst (Views.add_comment 9000 "alice" 1 good Sample.followed)
     = fst (Views.add_comment 9000 "alice" 1 empty Sample.followed)
  /\ List.length
       (DB.comments
          (snd (Views.add_comment 9000 "alice" 1 good Sample.followed)))
     = 2%nat
  /\ " " <> ""
  /\ List.length
       (DB.comments
          (snd (Views.add_comment 9000 "alice" 1 blank Sample.followed)))
     = List.length (DB.comments Sample.followed).
Proof. repeat split; try reflexivity. discriminate. Qed.

(** A text of white space that is not ASCII (a no-break space) is blank
    as well: the comment is refused and the redirect is the same. *)
Lemma no_break_space_is_blank :
  let blank :=
    Sample.post_request (Some Sample.carol) [("text", Py.encode [0xA0])] in
  Views.add_comment 9000 "alice" 1 blank Sample.followed
  = (Views.respond (Views.redirect (Views.url_post "alice" 1)),
     Sample.followed).
Proof. reflexivity. Qed.

(** ** Publishing *)

(** C3, as the code has it.  Nothing is stored when the text is empty or
    the author is absent, but only the first is a validation error, and it
    is the form that finds it.  A request without a logged-in user is sent
    to the login page.  For a logged-in user whose text is missing, empty
    or blank after stripping, the store is left as it is: [new_post]
    renders the form again, the form is invalid, and when data was posted
    it carries the error [required] for [text]; only when the posted
    group reads as an integer the database cannot bind does the lookup of
    the group end the request with [OverflowError] instead.  Saving a post
    without an author raises [IntegrityError]. *)
Theorem new_post_rejects :
  (forall now request d,
      Views.user request = None ->
      Views.new_post now request d
      = (Views.respond
           (Views.redirect (Views.url_login (Views.get_full_path request))),
         d))
  /\ (forall now request d u,
         Views.user request = Some u ->
         match QueryDict.get (Views.POST request) "text" with
         | None => True
         | Some s => Py.strip s = ""
         end ->
         snd (Views.new_post now request d) = d
         /\ (Site.group_out_of_range request ->
             Views.new_post now request d = (Views.Raise OverflowError, d))
         /\ (~ Site.group_out_of_range request ->
             exists form,
               Views.new_post now request d
               = (Views.respond
                    (Views.render "new_post.html"
                       (Views.ctx_new_post form None)), d)
               /\ Forms.PostForm.is_valid form = false
               /\ (Views.POST request <> [] ->
                   In ("text", Forms.required)
                     (Forms.PostForm.errors form))))
  /\ (forall now text group image d,
         ORM.Post_insert now text None group image d = inl IntegrityError).
Proof.
  split; [|split].
  - intros now request d Hu.
    unfold Views.new_post, Views.login_required. now rewrite Hu.
  - intros now request d u Hu Hempty.
    pose proof (clean_text_cases
                  (QueryDict.get (Views.POST request) "text")) as Hc.
    cbv zeta in Hc.
    assert (E : Forms.clean_text
                  (QueryDict.get (Views.POST request) "text")
                = inl Forms.required).
    { destruct (QueryDict.get (Views.POST request) "text") as [s|];
        destruct Hc as [[_ Hc]|[[Hc _]|[Hc _]]]; trivial; contradiction. }
    pose proof (PostForm_make (Views.POST request) None d) as M.
    assert (R : forall form,
               Forms.PostForm.make (QueryDict.or_None (Views.POST request))
                 None d = inr form ->
               Views.new_post now request d
               = (Views.respond
                    (Views.render "new_post.html"
                       (Views.ctx_new_post form None)), d)
               /\ Forms.PostForm.is_valid form = false
               /\ (Views.POST request <> [] ->
                   In ("text", Forms.required)
                     (Forms.PostForm.errors form))).
    { intros form F.
      pose proof (PostForm_valid (Views.POST request) None d form F) as Hf.
      rewrite E in Hf. destruct Hf as [Hv He].
      unfold Views.new_post, Views.login_required. rewrite Hu, F, Hv.
      split; [reflexivity|]. split; [reflexivity|].
      intros Hd. apply He. revert F. unfold Forms.PostForm.make.
      destruct (Views.POST request) as [|kv r]; [contradiction|].
      cbn [QueryDict.or_None].
      destruct (Forms.clean_group d _); [discriminate|].
      now intros [= <-]. }
    split; [|split].
    + destruct (Forms.clean_group d
                  (QueryDict.get (Views.POST request) "group")) as [e|g].
      * unfold Views.new_post, Views.login_required. now rewrite Hu, M.
      * destruct M as [form F]. destruct (R form F) as [R1 _].
        now rewrite R1.
    + intros Hg. rewrite (clean_group_raises d request Hg) in M.
      unfold Views.new_post, Views.login_required. now rewrite Hu, M.
    + intros Hg. destruct (clean_group_returns d request Hg) as [g G].
      rewrite G in M. destruct M as [form F]. exists form. now apply R.
  - reflexivity.
Qed.

Lemma new_post_rejects_witness :
  let request :=
    Sample.post_request (Some Sample.alice)
      [("text", Py.encode [0xA0; 32; 0x3000])] in
  Views.user request = Some Sample.alice
  /\ Py.strip (Py.encode [0xA0; 32; 0x3000]) = ""
  /\ exists form,
      Views.new_post 9000 request Sample.people
      = (Views.respond
           (Views.render "new_post.html" (Views.ctx_new_post form None)),
         Sample.people)
      /\ Forms.PostForm.is_valid form = false
      /\ (Views.POST request <> [] ->
          In ("text", Forms.required) (Forms.PostForm.errors form)).
Proof.
  split; [reflexivity|]. split; [reflexivity|].
  refine (proj2 (proj2 (proj1 (proj2 new_post_rejects) 9000
                          (Sample.post_request (Some Sample.alice)
                             [("text", Py.encode [0xA0; 32; 0x3000])])
                          Sample.people Sample.alice eq_refl eq_refl)) _).
  intros [s [k [H _]]]. discriminate H.
Defined.

(** C3, as the spec words it, fails.  With no author (nobody is logged in)
    and a good text the call does not fail with a validation error: it
    answers with the redirect to the login page.  And saving a post with an
    author and an empty text fails with nothing: the row is stored, since
    only the form validates the text. *)
Lemma absent_author_is_redirected :
  Views.new_post 9000 (Sample.post_request None [("text", "hello")])
    Sample.people
  = (Views.respond (Views.redirect (Views.url_login "/")), Sample.people)
  /\ (exists d',
         ORM.Post_insert 9000 "" (Some 1) None "" Sample.people
         = inr (Post.mk 1 "" 9000 1 None "", d')
         /\ DB.posts d' = [Post.mk 1 "" 9000 1 None ""]).
Proof. split; [reflexivity|]. eexists. split; reflexivity. Qed.

(** ** The creation timestamp *)

Section PubDate.
Variable k : pk.
Variable t : datetime.
Variable a : pk.

(** The post with key [k], if stored, was published at [t] by [a], and no
    later insert can be handed the key [k]. *)
Let settled (d : DB.t) : Prop :=
  k <= DB.post_seq d
  /\ forall q, In q (DB.posts d) -> Post.id q = k ->
               Post.pub_date q = t /\ Post.author q = a.

Lemma db_step_settled (now : datetime) (d d' : DB.t) :
  Effects.db_step now d d' -> settled d -> settled d'.
Proof.
  intros H [Hseq Hq]. unfold settled.
  destruct H as [ | text author group image p d' E | post post' Hin E1 E2 E3
                | text author post | u b d' Hne E | u b | uid | gid | dead ].
  - auto.
  - unfold ORM.Post_insert in E. injection E as <- <-. simpl.
    pose proof (next_id_above_seq (DB.post_seq d)
                  (map Post.id (DB.posts d))) as Hlt.
    unfold pk in *. split; [lia|].
    intros q Hi Hk. apply in_app_iff in Hi. destruct Hi as [Hi|[<-|[]]].
    + now apply Hq.
    + simpl in Hk. lia.
  - unfold ORM.Post_update; simpl. split; [exact Hseq|].
    intros q Hi Hk. apply in_map_iff in Hi. destruct Hi as [q0 [Hf Hi]].
    destruct (Post.id q0 =? Post.id post'); subst q.
    + rewrite E2, E3. apply Hq; [exact Hin | congruence].
    + now apply Hq.
  - simpl. auto.
  - unfold ORM.Follow_create in E.
    destruct (ORM.Follow_filter u b d); [|discriminate].
    injection E as <-. simpl. auto.
  - simpl. auto.
  - unfold ORM.User_delete, ORM.Post_delete; simpl. split; [exact Hseq|].
    intros q Hi. apply filter_In in Hi. now apply Hq.
  - unfold ORM.Group_delete, ORM.SET_NULL; simpl. split; [exact Hseq|].
    intros q Hi Hk. apply in_map_iff in Hi. destruct Hi as [q0 [<- Hi]].
    pose proof (SET_NULL_group gid q0) as G. cbv zeta in G.
    destruct G as [G1 [_ [G3 [G4 _]]]].
    rewrite G3, G4. apply Hq; [exact Hi | congruence].
  - unfold ORM.Post_delete; simpl. split; [exact Hseq|].
    intros q Hi. apply filter_In in Hi. now apply Hq.
Qed.

Lemma run_settled (h : list (datetime * Site.action)) (s : Site.State) :
  settled (Site.db s) -> settled (Site.db (Site.run h s)).
Proof.
  revert s. induction h as [|[now act] h IH]; intros s Hs; simpl;
    [exact Hs|].
  apply IH. eapply db_step_settled; [apply exec_step | exact Hs].
Qed.

End PubDate.

(** On a cache miss the main page is rendered from the stored posts. *)
Lemma index_miss (now : datetime) (request : Views.HttpRequest)
  (s : Site.State) :
  Site.fetch_from_cache now "index_page" request (Site.cache s) = None ->
  exists page,
    fst (Site.index now request s)
    = Views.respond
        (Views.render "index.html"
           (Views.ctx_index page
              (Paginator.make (ORM.Post_all (Site.db s)) 10)))
    /\ Views.get_page (Paginator.make (ORM.Post_all (Site.db s)) 10) request
       = inr page.
Proof.
  intros Hmiss. unfold Site.index, Site.cache_page. rewrite Hmiss.
  destruct (proj1 (feeds_render_get_page request (Site.db s)))
    as [page [E G]].
  rewrite E. exists page. split; [|exact G].
  unfold Views.respond. now destruct (_ && _).
Qed.

(** C2, as the code has it.  For a logged-in user and posted data of which
    the form is made and which it accepts, [new_post] answers with the
    redirect to the main page and
    appends one post with a fresh key, the cleaned text, the user as
    author and the clock reading as [pub_date].  Through every later
    history of actions, a stored post with that key keeps that [pub_date]
    and that author.  When the clock reading is later than the [pub_date]
    of every stored post, [Post.objects.all()] lists the new post first,
    and so does the main page whenever it is not answered from its cache:
    the paginator holds the new post at the front, and a request without a
    [page] parameter gets a page that starts with it. *)
Theorem new_post_creates (now : datetime) (d : DB.t) (u : User.t)
  (request : Views.HttpRequest) (form : Forms.PostForm.t) :
  Views.user request = Some u ->
  Forms.PostForm.make (QueryDict.or_None (Views.POST request)) None d
  = inr form ->
  Forms.PostForm.is_valid form = true ->
  exists p d',
    Views.new_post now request d
    = (Views.respond (Views.redirect Views.url_index), d')
    /\ DB.posts d' = DB.posts d ++ [p]
    /\ ~ In (Post.id p) (map Post.id (DB.posts d))
    /\ Post.author p = User.id u
    /\ Post.pub_date p = now
    /\ Forms.clean_text (QueryDict.get (Views.POST request) "text")
       = inr (Post.text p)
    /\ (forall h c q,
           In q (DB.posts (Site.db (Site.run h (Site.mkState d' c)))) ->
           Post.id q = Post.id p ->
           Post.pub_date q = now /\ Post.author q = User.id u)
    /\ ((forall q, In q (DB.posts d) -> Post.pub_date q < now) ->
        ORM.Post_all d' = p :: ORM.Post_all d
        /\ forall now' r c,
            Site.fetch_from_cache now' "index_page" r c = None ->
            exists page,
              fst (Site.index now' r (Site.mkState d' c))
              = Views.respond
                  (Views.render "index.html"
                     (Views.ctx_index page
                        (Paginator.make (p :: ORM.Post_all d) 10)))
              /\ Views.get_page
                   (Paginator.make (p :: ORM.Post_all d) 10) r = inr page
              /\ (QueryDict.get (Views.GET r) "page" = None ->
                  exists rest, Paginator.page_object_list page = p :: rest)).
Proof.
  intros Hu Hm Hv.
  pose proof (PostForm_valid (Views.POST request) None d form Hm) as Hf.
  set (p := Post.mk
              (ORM.next_id (DB.post_seq d) (map Post.id (DB.posts d)))
              (Forms.PostForm.text_of form "") now (User.id u)
              (Forms.PostForm.group_of form None)
              (Forms.PostForm.image_of form "")).
  exists p. eexists.
  split.
  { unfold Views.new_post, Views.login_required. rewrite Hu, Hm, Hv.
    simpl. reflexivity. }
  simpl. split; [reflexivity|].
  split; [apply next_id_fresh|].
  split; [reflexivity|]. split; [reflexivity|].
  split.
  { destruct (Forms.clean_text
                (QueryDict.get (Views.POST request) "text")) as [e|t].
    - destruct Hf as [Hf _]. congruence.
    - simpl. unfold Forms.PostForm.text_of. now rewrite (Hf Hv). }
  split.
  { intros h c q.
    apply (run_settled (Post.id p) now (User.id u) h (Site.mkState _ c)).
    simpl. split; [unfold pk; lia|].
    intros q0 Hi Hk. apply in_app_iff in Hi. destruct Hi as [Hi|[<-|[]]].
    - exfalso.
      apply (next_id_fresh (DB.post_seq d) (map Post.id (DB.posts d))).
      simpl in Hk. rewrite <- Hk. now apply in_map.
    - auto. }
  intros Hnew.
  assert (Hall : ORM.order_by_desc Post.pub_date (DB.posts d ++ [p])
                 = p :: ORM.Post_all d)
    by (apply order_by_desc_newest; exact Hnew).
  split; [exact Hall|].
  intros now' r c Hmiss.
  match goal with
  | |- context [Site.mkState ?d' c] => set (dd := d') in *
  end.
  assert (HA : ORM.Post_all dd = p :: ORM.Post_all d) by exact Hall.
  destruct (index_miss now' r (Site.mkState dd c) Hmiss) as [page [E G]].
  cbn [Site.db] in E, G. rewrite HA in E, G.
  exists page. split; [exact E|]. split; [exact G|].
  intros Hnone.
  destruct (views_get_page_slice (p :: ORM.Post_all d) r) as [n [G' H1]].
  rewrite G in G'. injection G' as ->.
  rewrite (H1 Hnone). cbn [Paginator.page_object_list].
  unfold Paginator.slice.
  change (Z.to_nat ((1 - 1) * 10)) with 0%nat. cbn [skipn].
  match goal with
  | |- context [firstn ?k _] => destruct k as [|m] eqn:En
  end.
  - lia.
  - cbn [firstn]. eauto.
Qed.

Lemma new_post_creates_witness :
  let request :=
    Sample.post_request (Some Sample.alice) [("text", "hello")] in
  Views.user request = Some Sample.alice
  /\ exists p,
      ORM.Post_all (snd (Views.new_post 9000 request Sample.followed))
      = p :: ORM.Post_all Sample.followed
      /\ Post.author p = 1 /\ Post.pub_date p = 9000
      /\ Post.text p = "hello".
Proof.
  split; [reflexivity|].
  destruct (new_post_creates 9000 Sample.followed Sample.alice
              (Sample.post_request (Some Sample.alice) [("text", "hello")])
              _ eq_refl eq_refl eq_refl)
    as [p [d' [E [_ [_ [Ha [Hd [Ht [_ Hfirst]]]]]]]]].
  exists p. rewrite E. cbn [snd].
  split; [|split; [exact Ha | split; [exact Hd |]]].
  2: { change (inr "hello" = inr (A := Forms.ValidationError) (Post.text p))
         in Ht.
       now injection Ht as <-. }
  apply Hfirst. simpl. intros q [<-|[<-|[]]]; simpl; lia.
Defined.

(** C2, as the spec words it, fails.  The main page is cached for twenty
    seconds: it is asked for at time 0, a post is published one second
    later, and the main page asked for at two seconds is the cached one,
    listing no post.  And the newest-first order goes by the clock reading
    alone: a post published at a reading that is not later than a stored
    post's comes after that post. *)
Lemma cached_index_misses_new_post :
  let home := Sample.get_request None [] in
  let publish :=
    Sample.post_request (Some Sample.alice) [("text", "hello")] in
  let s0 := Site.mkState Sample.people [] in
  let s1 := snd (Site.exec 0 (Site.Index home) s0) in
  let s2 := snd (Site.exec 1000000 (Site.NewPost publish) s1) in
  let nothing := Paginator.make (@nil Post.t) 10 in
  DB.posts (Site.db s2) = [Post.mk 1 "hello" 1000000 1 None ""]
  /\ fst (Site.index 2000000 home s2)
     = Views.respond
         (Views.render "index.html"
            (Views.ctx_index (Paginator.mkPage [] 1 nothing) nothing))
  /\ ORM.Post_all (snd (Views.new_post 1500 publish Sample.followed))
     = [Post.mk 2 "from carol" 2000 3 None "";
        Post.mk 3 "hello" 1500 1 None "";
        Post.mk 1 "from alice" 1000 1 (Some 1) ""].
Proof. repeat split; reflexivity. Qed.

(** A key beyond the 64-bit range of the database ends the lookup of a
    post, and the lookup of a posted group, with [OverflowError]. *)
Lemma keys_out_of_range_raise :
  Views.post_view "alice" (2 ^ 63) (Sample.get_request None [])
    Sample.followed
  = (Views.Raise OverflowError, Sample.followed)
  /\ Views.new_post 9000
       (Sample.post_request (Some Sample.alice)
          [("text", "hello"); ("group", "9223372036854775808")])
       Sample.followed
     = (Views.Raise OverflowError, Sample.followed)
  /\ (exists form,
         Views.new_post 9000
           (Sample.post_request (Some Sample.alice)
              [("text", "hello"); ("group", "9223372036854775807")])
           Sample.followed
         = (Views.respond
              (Views.render "new_post.html"
                 (Views.ctx_new_post form None)), Sample.followed)).
Proof. split; [reflexivity|]. split; [reflexivity|]. eexists. reflexivity. Qed.

(** ** Answers of the views *)

(** C10 fails on [post_view].  A request to view a stored post that carries
    a valid comment form (posted data with a text) reaches the end of the
    function body: the view returns [None], not a response. *)
Theorem post_view_returns_nothing :
  Views.post_view "alice" 1
    (Sample.post_request None [("text", "hi")]) Sample.followed
  = (Views.Return None, Sample.followed)
  /\ forall username post_id request d author post,
      Views.get_user username d = inr author ->
      Views.get_post username post_id d = inr post ->
      Forms.CommentForm.is_valid
        (Forms.CommentForm.make (QueryDict.or_None (Views.POST request)))
      = true ->
      Views.post_view username post_id request d = (Views.Return None, d).
Proof.
  split; [reflexivity|].
  intros username post_id request d author post Ha Hp Hv.
  unfold Views.post_view. now rewrite Ha, Hp, Hv.
Qed.

(** Under the unique columns of the tables a lookup finds at most one
    row, so it raises nothing but the not-found signal. *)
Lemma get_unique_404 {A K : Type} (g : A -> K) (f : A -> bool) (k : K)
  (l : list A) (e : exception) :
  NoDup (map g l) ->
  (forall x, In x l -> f x = true -> g x = k) ->
  ORM.get_object_or_404 (filter f l) = inl e -> e = Http404.
Proof.
  intros Hnd Hk. pose proof (unique_filter_length g f k l Hnd Hk) as Hle.
  unfold ORM.get_object_or_404, ORM.get.
  destruct (filter f l) as [|x [|y r]]; simpl in Hle; try lia;
    now intros [= <-].
Qed.

Section Answers.
Import Views.
Variable now : datetime.
Variable request : HttpRequest.
Variable d : DB.t.
Hypothesis Husers : Site.unique_usernames d.
Hypothesis Hslugs : Site.unique_slugs d.
Hypothesis Hkeys : Site.primary_keys d.

(** What a request ends with: a response, the not-found signal, or the
    [OverflowError] of a key the database cannot bind. *)
Let answers (o : outcome) : Prop :=
  (exists r, o = respond r) \/ o = Raise Http404
  \/ o = Raise OverflowError.

Let responded (r : HttpResponse) : answers (respond r).
Proof. left. now exists r. Qed.

Lemma get_user_404 (username : string) (e : exception) :
  get_user username d = inl e -> e = Http404.
Proof.
  apply (get_unique_404 User.username _ username); [exact Husers|].
  intros x _ E. now apply String.eqb_eq in E.
Qed.

Lemma get_post_404 (username : string) (post_id : pk) (e : exception) :
  get_post username post_id d = inl e ->
  e = Http404 \/ e = OverflowError.
Proof.
  unfold get_post.
  destruct (bind_cases post_id) as [[_ B]|[_ B]]; rewrite B;
    [|intros [= <-]; auto].
  intros H. left. revert H.
  apply (get_unique_404 Post.id _ post_id); [apply Hkeys|].
  intros x _ E. apply andb_prop in E. destruct E as [E _].
  now apply Z.eqb_eq in E.
Qed.

Let raised (e : exception) :
  e = Http404 \/ e = OverflowError -> answers (Raise e).
Proof. intros [-> | ->]; right; auto. Qed.

Lemma index_body_answers : answers (fst (index_body request d)).
Proof.
  destruct (proj1 (feeds_render_get_page request d)) as [page [E _]].
  rewrite E. apply responded.
Qed.

Lemma group_posts_answers (slug : string) :
  answers (fst (group_posts slug request d)).
Proof.
  destruct (ORM.get_object_or_404
              (filter (fun g => String.eqb (Group.slug g) slug)
                 (DB.groups d))) as [e|group] eqn:G.
  - unfold group_posts. rewrite G. right. left. simpl. f_equal.
    revert G. apply (get_unique_404 Group.slug _ slug); [exact Hslugs|].
    intros x _ E. now apply String.eqb_eq in E.
  - destruct (proj1 (proj2 (feeds_render_get_page request d))
                slug group G) as [page [E _]].
    rewrite E. apply responded.
Qed.

Lemma profile_answers (username : string) :
  answers (fst (profile username request d)).
Proof.
  destruct (get_user username d) as [e|author] eqn:G.
  - unfold profile. rewrite G. right. left. simpl. f_equal.
    exact (get_user_404 _ _ G).
  - destruct (proj1 (proj2 (proj2 (feeds_render_get_page request d)))
                username author G) as [page [following [E _]]].
    rewrite E. apply responded.
Qed.

Lemma follow_index_answers : answers (fst (follow_index request d)).
Proof.
  unfold follow_index, login_required.
  destruct (user request) as [u|]; [|apply responded].
  match goal with
  | |- context [get_page (Paginator.make ?l 10) request] =>
      destruct (get_page_total request l) as [page E]
  end.
  rewrite E. apply responded.
Qed.

Lemma new_post_answers : answers (fst (new_post now request d)).
Proof.
  unfold new_post, login_required.
  destruct (user request) as [u|]; [|apply responded].
  destruct (Forms.PostForm.make _ None d) as [e|form] eqn:F.
  - apply raised. right. exact (PostForm_raises _ _ _ _ F).
  - destruct (negb _); apply responded.
Qed.

Lemma add_comment_answers (username : string) (post_id : pk) :
  answers (fst (add_comment now username post_id request d)).
Proof.
  unfold add_comment, login_required.
  destruct (user request) as [u|]; [|apply responded].
  destruct (get_post username post_id d) as [e|post] eqn:G;
    [|apply responded].
  apply raised. exact (get_post_404 _ _ _ G).
Qed.

Lemma post_edit_answers (username : string) (post_id : pk) :
  answers (fst (post_edit username post_id request d)).
Proof.
  unfold post_edit, login_required.
  destruct (user request) as [u|]; [|apply responded].
  destruct (negb (String.eqb _ _)); [apply responded|].
  destruct (get_post username post_id d) as [e|post] eqn:G.
  - apply raised. exact (get_post_404 _ _ _ G).
  - destruct (Forms.PostForm.make _ _ d) as [e|form] eqn:F.
    + apply raised. right. exact (PostForm_raises _ _ _ _ F).
    + destruct (negb _); apply responded.
Qed.

Lemma profile_follow_answers (username : string) :
  answers (fst (profile_follow username request d)).
Proof.
  unfold profile_follow, login_required.
  destruct (user request) as [u|]; [|apply responded].
  destruct (get_user username d) as [e|a] eqn:G.
  - right. left. simpl. f_equal. exact (get_user_404 _ _ G).
  - destruct (ORM.Follow_filter u a d) as [|f r] eqn:Hf; simpl;
      [|apply responded].
    destruct (negb (User.eqb a u)); [|apply responded].
    unfold ORM.Follow_create. rewrite Hf. apply responded.
Qed.

Lemma profile_unfollow_answers (username : string) :
  answers (fst (profile_unfollow username request d)).
Proof.
  unfold profile_unfollow, login_required.
  destruct (user request) as [u|]; [|apply responded].
  destruct (get_user username d) as [e|a] eqn:G; [|apply responded].
  right. left. simpl. f_equal. exact (get_user_404 _ _ G).
Qed.

(** [post_view] answers unless the comment form it builds is valid. *)
Lemma post_view_answers (username : string) (post_id : pk) :
  answers (fst (post_view username post_id request d))
  \/ (fst (post_view username post_id request d) = Return None
      /\ Forms.CommentForm.is_valid
           (Forms.CommentForm.make (QueryDict.or_None (POST request)))
         = true).
Proof.
  unfold post_view.
  destruct (get_user username d) as [e|a] eqn:G.
  { left. right. left. simpl. f_equal. exact (get_user_404 _ _ G). }
  destruct (get_post username post_id d) as [e|post] eqn:G'.
  { left. apply raised. exact (get_post_404 _ _ _ G'). }
  destruct (Forms.CommentForm.is_valid _); simpl;
    [right; auto | left; apply responded].
Qed.

End Answers.

(** Every request to a view other than [post_view] ends, in a store that
    keeps its unique columns, with a response, with the not-found signal,
    or with the [OverflowError] of a key the database cannot bind. *)
Lemma other_views_answer (now : datetime) (a : Site.action)
  (s : Site.State) :
  Site.unique_usernames (Site.db s) ->
  Site.unique_slugs (Site.db s) ->
  Site.primary_keys (Site.db s) ->
  match a with
  | Site.PostView _ _ _ => True
  | Site.DeleteUser _ | Site.DeleteGroup _ | Site.DeletePost _ =>
      fst (Site.exec now a s) = None
  | _ =>
      exists o,
        fst (Site.exec now a s) = Some o
        /\ ((exists r, o = Views.respond r) \/ o = Views.Raise Http404
            \/ o = Views.Raise OverflowError)
  end.
Proof.
  intros Hu Hs Hk.
  assert (L : forall (v : Views.view) request,
             fst (Site.lift v request s) = fst (v request (Site.db s))).
  { intros v request. unfold Site.lift.
    now destruct (v request (Site.db s)). }
  destruct a; cbn [Site.exec fst snd]; trivial; eexists;
    (split; [reflexivity|]); rewrite ?L.
  - unfold Site.index, Site.cache_page.
    destruct (Site.fetch_from_cache _ _ _ _) as [hit|].
    { left. exists hit. reflexivity. }
    pose proof (index_body_answers request (Site.db s)) as H.
    destruct (Views.index_body request (Site.db s)) as [o d'].
    destruct o as [[resp|]|e]; try exact H.
    destruct (Site.should_update_cache request
              && (Views.status_code resp =? 200) && negb (20 =? 0));
      exact H.
  - now apply group_posts_answers.
  - apply new_post_answers.
  - now apply profile_answers.
  - now apply add_comment_answers.
  - now apply post_edit_answers.
  - apply follow_index_answers.
  - now apply profile_follow_answers.
  - now apply profile_unfollow_answers.
Qed.

(** * Further properties of the views *)

(** ** Pages cover the list *)

Lemma firstn_plus {A : Type} (a b : nat) (l : list A) :
  firstn (a + b) l = firstn a l ++ firstn b (skipn a l).
Proof.
  revert l. induction a as [|a IH]; intros l; [reflexivity|].
  destruct l as [|x r]; simpl.
  - now rewrite firstn_nil.
  - now rewrite IH.
Qed.

Lemma chunks_concat {A : Type} (l : list A) (n : nat) :
  List.concat (map (fun j => firstn 10 (skipn (10 * j) l)) (seq 0 n))
  = firstn (10 * n) l.
Proof.
  induction n as [|n IH]; [reflexivity|].
  rewrite seq_S, map_app, concat_app, IH. cbn [map List.concat plus].
  rewrite app_nil_r.
  replace (10 * S n)%nat with (10 * n + 10)%nat by lia.
  now rewrite firstn_plus.
Qed.

(** The posts of page [k], counted from 1, are the [k]-th run of ten. *)
Lemma page_objects {A : Type} (l : list A) (k : nat) :
  (1 <= k)%nat ->
  Z.of_nat k <= Paginator.num_pages (Paginator.make l 10) ->
  Paginator.page (Paginator.make l 10) (Py.PyInt (Z.of_nat k))
  = inr (Paginator.mkPage (firstn 10 (skipn (10 * (k - 1)) l))
           (Z.of_nat k) (Paginator.make l 10)).
Proof.
  intros H1 H2. rewrite page_in_range by lia. f_equal. f_equal.
  unfold Paginator.slice.
  replace (Z.to_nat ((Z.of_nat k - 1) * 10)) with (10 * (k - 1))%nat by lia.
  destruct (Z.le_ge_cases (Z.of_nat k * 10) (Z.of_nat (List.length l)))
    as [Hle|Hge].
  - f_equal. lia.
  - rewrite !firstn_all2; trivial; rewrite length_skipn; lia.
Qed.

(** X1.  The pages of a feed cut the list of posts into consecutive runs:
    every page from 1 to the number of pages exists, and the pages put
    one after the other give back the list, each post once and in
    order. *)
Theorem pages_partition_feed (post_list : list Post.t) :
  let paginator := Paginator.make post_list 10 in
  let objects (k : nat) :=
    match Paginator.page paginator (Py.PyInt (Z.of_nat k)) with
    | inr pg => Paginator.page_object_list pg
    | inl _ => []
    end in
  let last := Z.to_nat (Paginator.num_pages paginator) in
  (forall k, (1 <= k <= last)%nat ->
             exists pg,
               Paginator.page paginator (Py.PyInt (Z.of_nat k)) = inr pg
               /\ Paginator.number pg = Z.of_nat k)
  /\ List.concat (map objects (seq 1 last)) = post_list.
Proof.
  intros paginator objects last.
  pose proof (num_pages_pos post_list) as Hpos.
  pose proof (num_pages_covers post_list) as Hcov.
  fold paginator in Hpos, Hcov.
  split.
  - intros k [H1 H2]. unfold paginator.
    rewrite page_objects by (trivial; fold paginator; lia).
    eexists. split; reflexivity.
  - assert (E : map objects (seq 1 last)
                = map (fun j => firstn 10 (skipn (10 * j) post_list))
                    (seq 0 last)).
    { rewrite <- seq_shift, map_map. apply map_ext_in.
      intros j Hj. apply in_seq in Hj. unfold objects, paginator.
      rewrite page_objects by (fold paginator; lia).
      cbn [Paginator.page_object_list]. do 2 f_equal. lia. }
    rewrite E, chunks_concat. apply firstn_all2. lia.
Qed.

(** ** The constraints of the tables through every history *)

Lemma NoDup_snoc {A : Type} (l : list A) (x : A) :
  NoDup l -> ~ In x l -> NoDup (l ++ [x]).
Proof.
  intros Hl Hx. induction Hl as [|y r Hy Hr IH]; simpl.
  - repeat constructor. intros [].
  - constructor.
    + rewrite in_app_iff. simpl. intros [H|[H|[]]]; [contradiction|].
      apply Hx. now left.
    + apply IH. intros H. apply Hx. now right.
Qed.

Lemma NoDup_map_filter {A K : Type} (g : A -> K) (f : A -> bool)
  (l : list A) :
  NoDup (map g l) -> NoDup (map g (filter f l)).
Proof.
  induction l as [|x r IH]; simpl; intros H; [constructor|].
  inversion H as [|? ? Hx Hr]; subst.
  destruct (f x); simpl; [|now apply IH].
  constructor; [|now apply IH].
  intros Hin. apply Hx. apply in_map_iff in Hin.
  destruct Hin as [y [E Hy]]. apply filter_In in Hy.
  rewrite <- E. apply in_map. tauto.
Qed.

Lemma Post_update_ids (p : Post.t) (l : list Post.t) :
  map Post.id (map (fun q => if Post.id q =? Post.id p then p else q) l)
  = map Post.id l.
Proof.
  rewrite map_map. apply map_ext. intros q.
  destruct (Post.id q =? Post.id p) eqn:E; [|reflexivity].
  apply Z.eqb_eq in E. now symmetry.
Qed.

Lemma SET_NULL_ids (gid : pk) (l : list Post.t) :
  map Post.id
    (ORM.SET_NULL (fun p => match Post.group p with
                            | Some k => k =? gid
                            | None => false
                            end)
       (Post.set_group None) l)
  = map Post.id l.
Proof.
  unfold ORM.SET_NULL. rewrite map_map. apply map_ext. intros q.
  now destruct (match Post.group q with Some k => k =? gid | None => false
                end).
Qed.

Lemma db_step_constraints (now : datetime) (d d' : DB.t) :
  Effects.db_step now d d' ->
  Site.primary_keys d /\ Site.unique_usernames d /\ Site.unique_slugs d
  /\ Site.unique_together d /\ NoDup (map Comment.id (DB.comments d)) ->
  Site.primary_keys d' /\ Site.unique_usernames d' /\ Site.unique_slugs d'
  /\ Site.unique_together d' /\ NoDup (map Comment.id (DB.comments d')).
Proof.
  unfold Site.primary_keys, Site.unique_usernames, Site.unique_slugs,
    Site.unique_together.
  intros H [[Hu [Hp Hf]] [Hn [Hs [Ht Hc]]]].
  destruct H as [ | text author group image p d' E | post post' Hin E1 E2 E3
                | text author post | u b d' Hne E | u b | uid | gid | dead ].
  - auto.
  - unfold ORM.Post_insert in E. injection E as <- <-. simpl.
    repeat split; trivial.
    rewrite map_app. apply NoDup_snoc; [exact Hp | apply next_id_fresh].
  - unfold ORM.Post_update; simpl. rewrite Post_update_ids. auto.
  - simpl. repeat split; trivial.
    rewrite map_app. apply NoDup_snoc; [exact Hc | apply next_id_fresh].
  - unfold ORM.Follow_create in E.
    destruct (ORM.Follow_filter u b d) eqn:Hff; [|discriminate].
    injection E as <-. simpl. repeat split; trivial.
    + rewrite map_app. apply NoDup_snoc; [exact Hf | apply next_id_fresh].
    + rewrite map_app. apply NoDup_snoc; [exact Ht|]. simpl.
      intros Hin. apply in_map_iff in Hin. destruct Hin as [f [Ef Hin]].
      injection Ef as Ea Eu.
      assert (Hm : In f (ORM.Follow_filter u b d)).
      { apply filter_In. split; [exact Hin|].
        rewrite Ea, Eu, !Z.eqb_refl. reflexivity. }
      rewrite Hff in Hm. contradiction.
  - simpl. repeat split; trivial; now apply NoDup_map_filter.
  - unfold ORM.User_delete, ORM.Post_delete, ORM.CASCADE; simpl.
    repeat split; repeat apply NoDup_map_filter; trivial.
  - unfold ORM.Group_delete; simpl. rewrite SET_NULL_ids.
    repeat split; trivial; now apply NoDup_map_filter.
  - unfold ORM.Post_delete, ORM.CASCADE; simpl.
    repeat split; trivial; now apply NoDup_map_filter.
Qed.

(** X2.  No history of view calls and deletions breaks a constraint of
    the tables: when the keys of users, posts, follows and comments, the
    usernames, the slugs and the pairs (author, user) of [Follow] are
    unique at the start, they are unique in every state the history
    reaches.  So [Follow.objects.create] in [profile_follow] never meets a
    stored pair, and a new row never takes a key in use. *)
Theorem constraints_kept (h : list (datetime * Site.action))
  (s : Site.State) :
  Site.primary_keys (Site.db s) ->
  Site.unique_usernames (Site.db s) ->
  Site.unique_slugs (Site.db s) ->
  Site.unique_together (Site.db s) ->
  NoDup (map Comment.id (DB.comments (Site.db s))) ->
  let d' := Site.db (Site.run h s) in
  Site.primary_keys d' /\ Site.unique_usernames d' /\ Site.unique_slugs d'
  /\ Site.unique_together d' /\ NoDup (map Comment.id (DB.comments d')).
Proof.
  intros H1 H2 H3 H4 H5. cbv zeta.
  assert (H : Site.primary_keys (Site.db s)
              /\ Site.unique_usernames (Site.db s)
              /\ Site.unique_slugs (Site.db s)
              /\ Site.unique_together (Site.db s)
              /\ NoDup (map Comment.id (DB.comments (Site.db s))))
    by tauto.
  clear H1 H2 H3 H4 H5. revert s H.
  induction h as [|[now a] h IH]; intros s H; simpl; [exact H|].
  apply IH. eapply db_step_constraints; [apply exec_step | exact H].
Qed.

Lemma constraints_kept_witness :
  let h :=
    [(5000, Site.ProfileFollow "alice"
              (Sample.get_request (Some Sample.carol) []));
     (6000, Site.NewPost
              (Sample.post_request (Some Sample.bob) [("text", "hi")]));
     (7000, Site.DeleteUser 1)] in
  let d' := Site.db (Site.run h (Site.mkState Sample.followed [])) in
  List.length (DB.posts d') = 2%nat
  /\ Site.primary_keys d' /\ Site.unique_usernames d'
  /\ Site.unique_slugs d' /\ Site.unique_together d'
  /\ NoDup (map Comment.id (DB.comments d')).
Proof.
  split; [reflexivity|].
  apply (constraints_kept _ (Site.mkState Sample.followed []));
    unfold Site.primary_keys, Site.unique_usernames, Site.unique_slugs,
      Site.unique_together; simpl;
    repeat split; repeat constructor; simpl; intuition discriminate.
Defined.

(** ** The cache of the main page *)

Lemma method_eqb_eq (a b : Views.Method) :
  Site.method_eqb a b = true <-> a = b.
Proof. destruct a, b; simpl; split; congruence. Qed.

Lemma key_eqb_eq (a b : Site.Cache.key) :
  Site.Cache.key_eqb a b = true <-> a = b.
Proof.
  unfold Site.Cache.key_eqb.
  rewrite !andb_true_iff, !String.eqb_eq, method_eqb_eq.
  destruct a, b; simpl. split.
  - intros [[-> ->] ->]. reflexivity.
  - intros [= -> -> ->]. auto.
Qed.

Lemma key_eqb_refl (k : Site.Cache.key) : Site.Cache.key_eqb k k = true.
Proof. now apply key_eqb_eq. Qed.

Section CachedIndex.
Import Views Site.
Variable t0 : datetime.
Variable request : HttpRequest.
Hypothesis Hget : method request = mGET.

Let k : Cache.key := cache_key "index_page" mGET request.

(** The cache holds, under the key of [request], the response [r] until
    twenty seconds after [t0]. *)
Let holds (r : HttpResponse) (c : Cache.t) : Prop :=
  exists e, find (fun e => Cache.key_eqb (Cache.entry_key e) k) c = Some e
            /\ Cache.value e = r /\ Cache.expires e = t0 + 20 * 1000000.

Lemma holds_hit (r : HttpResponse) (c : Cache.t) (t : datetime) :
  holds r c -> t < t0 + 20 * 1000000 ->
  fetch_from_cache t "index_page" request c = Some r.
Proof.
  intros [e [Hf [Hv He]]] Ht. unfold fetch_from_cache. rewrite Hget.
  fold k. unfold Cache.get. rewrite Hf, He.
  apply Z.ltb_lt in Ht. now rewrite Ht, Hv.
Qed.

Lemma index_miss_stores (s : State) :
  fetch_from_cache t0 "index_page" request (cache s) = None ->
  exists r,
    fst (index t0 request s) = respond r
    /\ fst (index_body request (db s)) = respond r
    /\ cache (snd (index t0 request s))
       = Cache.set t0 k r 20 (cache s).
Proof.
  intros Hmiss. unfold index, cache_page. rewrite Hmiss.
  destruct (proj1 (feeds_render_get_page request (db s))) as [page [E _]].
  rewrite E. unfold respond, should_update_cache. rewrite Hget.
  cbn [status_code fst snd]. eexists. repeat split.
Qed.

Lemma set_holds (r : HttpResponse) (c : Cache.t) :
  holds r (Cache.set t0 k r 20 c).
Proof.
  unfold holds, Cache.set. eexists. cbn [find Cache.entry_key].
  rewrite key_eqb_refl. repeat split.
Qed.

End CachedIndex.

(** Only the main page stores into the cache. *)
Lemma exec_cache (t : datetime) (a : Site.action) (s : Site.State) :
  (forall r, a <> Site.Index r) ->
  Site.cache (snd (Site.exec t a s)) = Site.cache s.
Proof.
  intros Hno.
  assert (L : forall (v : Views.view) rq,
             Site.cache (snd (Site.lift v rq s)) = Site.cache s).
  { intros v rq. unfold Site.lift. now destruct (v rq (Site.db s)). }
  destruct a as [rq| | | | | | | | | | | | ];
    cbn [Site.exec fst snd Site.cache]; rewrite ?L; trivial.
  now elim (Hno rq).
Qed.

Lemma run_cache (h : list (datetime * Site.action)) (s : Site.State) :
  (forall t a, In (t, a) h -> forall r, a <> Site.Index r) ->
  Site.cache (Site.run h s) = Site.cache s.
Proof.
  revert s. induction h as [|[t a] h IH]; intros s Hh; simpl;
    [reflexivity|].
  rewrite IH by (intros t' a' Hin; apply (Hh t' a'); now right).
  apply exec_cache. apply (Hh t a). now left.
Qed.

(** X3.  Once the main page has been rendered for a [GET] request at time
    [t0], the same request gets that very response again at every time
    before [t0] plus twenty seconds, whatever was published, edited,
    commented, followed or deleted in between through the other views,
    and answering it changes nothing. *)
Theorem index_cached_twenty_seconds (t0 t : datetime)
  (request : Views.HttpRequest) (s : Site.State)
  (h : list (datetime * Site.action)) :
  Views.method request = Views.mGET ->
  Site.fetch_from_cache t0 "index_page" request (Site.cache s) = None ->
  (forall t' a, In (t', a) h -> forall r, a <> Site.Index r) ->
  t < t0 + 20 * 1000000 ->
  let later := Site.run h (snd (Site.index t0 request s)) in
  Site.index t request later = (fst (Site.index t0 request s), later).
Proof.
  intros Hget Hmiss Hh Ht later.
  destruct (index_miss_stores t0 request Hget s Hmiss) as [r [E [_ C]]].
  assert (Hold : Site.fetch_from_cache t "index_page" request
                   (Site.cache later) = Some r).
  { apply (holds_hit t0 request Hget r); [|exact Ht].
    unfold later. rewrite (run_cache _ _ Hh), C. apply set_holds. }
  unfold Site.index, Site.cache_page at 1. rewrite Hold.
  fold Site.index. now rewrite E.
Qed.

Lemma index_cached_twenty_seconds_witness :
  let home := Sample.get_request None [] in
  let s := Site.mkState Sample.people [] in
  let h :=
    [(1000000, Site.NewPost
                 (Sample.post_request (Some Sample.alice)
                    [("text", "hello")]));
     (3000000, Site.PostView "alice" 1 (Sample.get_request None []))] in
  let later := Site.run h (snd (Site.index 0 home s)) in
  List.length (DB.posts (Site.db later)) = 1%nat
  /\ Site.index 19999999 home later = (fst (Site.index 0 home s), later).
Proof.
  split; [reflexivity|].
  apply (index_cached_twenty_seconds 0 19999999
           (Sample.get_request None []) (Site.mkState Sample.people [])
           _ eq_refl eq_refl).
  - simpl. intros t' a [[= <- <-]|[[= <- <-]|[]]]; discriminate.
  - lia.
Defined.

(** X4.  Twenty seconds after the main page was rendered and cached, the
    cached response is no longer served: the same [GET] request is
    answered from the posts stored then.  A request that is neither [GET]
    nor [HEAD] is never answered from the cache and leaves it as it
    is. *)
Theorem index_cache_expires :
  (forall (t0 t : datetime) (request : Views.HttpRequest) (s : Site.State)
          (d' : DB.t),
      Views.method request = Views.mGET ->
      Site.fetch_from_cache t0 "index_page" request (Site.cache s) = None ->
      t0 + 20 * 1000000 <= t ->
      fst (Site.index t request
             (Site.mkState d' (Site.cache (snd (Site.index t0 request s)))))
      = fst (Views.index_body request d'))
  /\ (forall (t : datetime) (request : Views.HttpRequest) (s : Site.State),
         Views.method request = Views.mPOST
         \/ Views.method request = Views.mOTHER ->
         fst (Site.index t request s)
         = fst (Views.index_body request (Site.db s))
         /\ Site.cache (snd (Site.index t request s)) = Site.cache s).
Proof.
  split.
  - intros t0 t request s d' Hget Hmiss Ht.
    destruct (index_miss_stores t0 request Hget s Hmiss) as [r [_ [_ C]]].
    rewrite C. unfold Site.index, Site.cache_page.
    assert (F : Site.fetch_from_cache t "index_page" request
                  (Site.Cache.set t0
                     (Site.cache_key "index_page" Views.mGET request)
                     r 20 (Site.cache s)) = None).
    { unfold Site.fetch_from_cache. rewrite Hget.
      unfold Site.Cache.get, Site.Cache.set.
      cbn [find Site.Cache.entry_key Site.Cache.expires].
      rewrite key_eqb_refl.
      simpl Site.Cache.expires.
      destruct (t <? _) eqn:Lt; [apply Z.ltb_lt in Lt; lia | reflexivity]. }
    cbn [Site.cache Site.db]. rewrite F.
    destruct (Views.index_body request d') as [o d2].
    destruct o as [[resp|]|e]; try reflexivity.
    now destruct (_ && _).
  - intros t request s Hm. unfold Site.index, Site.cache_page.
    assert (F : Site.fetch_from_cache t "index_page" request (Site.cache s)
                = None)
      by (unfold Site.fetch_from_cache; destruct Hm as [-> | ->];
          reflexivity).
    assert (U : Site.should_update_cache request = false)
      by (unfold Site.should_update_cache; destruct Hm as [-> | ->];
          reflexivity).
    rewrite F, U.
    destruct (Views.index_body request (Site.db s)) as [o d2].
    destruct o as [[resp|]|e]; split; reflexivity.
Qed.

Lemma index_cache_expires_witness :
  let home := Sample.get_request None [] in
  let s := Site.mkState Sample.people [] in
  fst (Site.index 20000000 home
         (Site.mkState Sample.followed
            (Site.cache (snd (Site.index 0 home s)))))
  = fst (Views.index_body home Sample.followed).
Proof.
  apply (proj1 index_cache_expires); [reflexivity | reflexivity | lia].
Defined.

(** ** Editing a post *)

Lemma insert_desc_map {A : Type} (key : A -> Z) (f : A -> A) (x : A)
  (l : list A) :
  key (f x) = key x ->
  (forall y, In y l -> key (f y) = key y) ->
  ORM.insert_desc key (f x) (map f l) = map f (ORM.insert_desc key x l).
Proof.
  intros Hx. induction l as [|y r IH]; intros Hl; simpl; [reflexivity|].
  rewrite Hx, (Hl y (or_introl eq_refl)).
  destruct (key x <? key y); simpl; [|reflexivity].
  f_equal. apply IH. intros z Hz. apply Hl. now right.
Qed.

(** Rewriting rows without touching the sort key does not reorder them. *)
Lemma order_by_desc_map {A : Type} (key : A -> Z) (f : A -> A)
  (l : list A) :
  (forall y, In y l -> key (f y) = key y) ->
  ORM.order_by_desc key (map f l) = map f (ORM.order_by_desc key l).
Proof.
  induction l as [|x r IH]; intros Hl; simpl; [reflexivity|].
  rewrite IH by (intros y Hy; apply Hl; now right).
  apply insert_desc_map; [apply Hl; now left|].
  intros y Hy. apply Hl. right. now apply (order_by_desc_In key r y).
Qed.

(** X5.  [post_edit] writes for nobody but the author named in the
    address.  A request without a logged-in user is sent to the login
    page, a logged-in user with another username is sent to the post, and
    for the author a form whose cleaning raises ends the request with
    what it raised and an invalid form is rendered again, all of them
    leaving the store as it is; and when the store does change, the
    logged-in user's username is the one in the address, the post was
    found under it, and the post's author carries that username. *)
Theorem post_edit_only_author :
  (forall username post_id request d,
      Views.user request = None ->
      Views.post_edit username post_id request d
      = (Views.respond
           (Views.redirect (Views.url_login (Views.get_full_path request))), d))
  /\ (forall username post_id request d u,
         Views.user request = Some u ->
         User.username u <> username ->
         Views.post_edit username post_id request d
         = (Views.respond (Views.redirect (Views.url_post username post_id)),
            d))
  /\ (forall username post_id request d u post,
         Views.user request = Some u ->
         User.username u = username ->
         Views.get_post username post_id d = inr post ->
         match Forms.PostForm.make (QueryDict.or_None (Views.POST request))
                 (Forms.files_or_None (Views.FILES request)) d with
         | inl e =>
             Views.post_edit username post_id request d = (Views.Raise e, d)
         | inr form =>
             Forms.PostForm.is_valid form = false ->
             Views.post_edit username post_id request d
             = (Views.respond
                  (Views.render "new_post.html"
                     (Views.ctx_new_post form
                        (Some (Forms.PostForm.construct_instance form
                                 post)))),
                d)
         end)
  /\ (forall username post_id request d,
         snd (Views.post_edit username post_id request d) <> d ->
         exists u post,
           Views.user request = Some u
           /\ User.username u = username
           /\ Views.get_post username post_id d = inr post
           /\ In post (DB.posts d)
           /\ ORM.author_username d (Post.author post) (User.username u)
              = true).
Proof.
  repeat split.
  - intros username post_id request d Hu.
    unfold Views.post_edit, Views.login_required. now rewrite Hu.
  - intros username post_id request d u Hu Hne.
    unfold Views.post_edit, Views.login_required. rewrite Hu.
    apply String.eqb_neq in Hne. now rewrite Hne.
  - intros username post_id request d u post Hu He Hp.
    unfold Views.post_edit, Views.login_required. rewrite Hu.
    apply String.eqb_eq in He. rewrite He, Hp. cbn [negb].
    destruct (Forms.PostForm.make _ _ d) as [e|form]; [reflexivity|].
    intros Hv. now rewrite Hv.
  - intros username post_id request d.
    unfold Views.post_edit, Views.login_required.
    destruct (Views.user request) as [u|]; [|intros H; now elim H].
    destruct (String.eqb (User.username u) username) eqn:E;
      [|intros H; now elim H].
    apply String.eqb_eq in E. cbn [negb].
    destruct (Views.get_post username post_id d) as [e|post] eqn:G;
      [intros H; now elim H|].
    intros _. exists u, post.
    destruct (get_post_In _ _ _ _ G) as [Hin [_ Ha]].
    rewrite E. auto.
Qed.

Lemma post_edit_only_author_witness :
  Views.post_edit "alice" 1
    (Sample.post_request (Some Sample.bob) [("text", "mine now")])
    Sample.followed
  = (Views.respond (Views.redirect (Views.url_post "alice" 1)),
     Sample.followed).
Proof.
  apply (proj1 (proj2 post_edit_only_author) "alice" 1
           (Sample.post_request (Some Sample.bob) [("text", "mine now")])
           Sample.followed Sample.bob eq_refl).
  discriminate.
Defined.

(** X6.  When the author edits a post with data of which the form is
    made and which it accepts, in a store with unique post keys, [post_edit] answers with the redirect to
    the post and rewrites that post alone: it keeps its key, its
    [pub_date] and its author and takes the cleaned text and group; every
    other post, and every comment, follow, user and group, stays as it
    is; and the main list of posts keeps its order, the edited post in
    the place it had. *)
Theorem post_edit_rewrites_one (username : string) (post_id : pk)
  (request : Views.HttpRequest) (d : DB.t) (u : User.t) (post : Post.t) :
  Views.user request = Some u ->
  User.username u = username ->
  Views.get_post username post_id d = inr post ->
  NoDup (map Post.id (DB.posts d)) ->
  forall form,
  Forms.PostForm.make (QueryDict.or_None (Views.POST request))
    (Forms.files_or_None (Views.FILES request)) d = inr form ->
  Forms.PostForm.is_valid form = true ->
  let post' := Forms.PostForm.construct_instance form post in
  let swap := fun q => if Post.id q =? post_id then post' else q in
  let d' := snd (Views.post_edit username post_id request d) in
  fst (Views.post_edit username post_id request d)
  = Views.respond (Views.redirect (Views.url_post username post_id))
  /\ DB.posts d' = map swap (DB.posts d)
  /\ (Post.id post' = post_id /\ Post.pub_date post' = Post.pub_date post
      /\ Post.author post' = Post.author post
      /\ Forms.clean_text (QueryDict.get (Views.POST request) "text")
         = inr (Post.text post')
      /\ Forms.PostForm.group form = Some (Post.group post'))
  /\ (forall q, In q (DB.posts d) -> q <> post -> swap q = q)
  /\ swap post = post'
  /\ ORM.Post_all d' = map swap (ORM.Post_all d)
  /\ DB.comments d' = DB.comments d /\ DB.follows d' = DB.follows d
  /\ DB.users d' = DB.users d /\ DB.groups d' = DB.groups d.
Proof.
  intros Hu He Hp Hnd form Hm Hv post' swap d'.
  destruct (get_post_In _ _ _ _ Hp) as [Hin [Hid _]].
  assert (E : Views.post_edit username post_id request d
              = (Views.respond
                   (Views.redirect (Views.url_post username post_id)),
                 ORM.Post_update post' d)).
  { unfold Views.post_edit, Views.login_required. rewrite Hu.
    apply String.eqb_eq in He. rewrite He, Hp. cbn [negb].
    now rewrite Hm, Hv. }
  assert (Hid' : Post.id post' = post_id) by exact Hid.
  assert (Hswap : forall q, In q (DB.posts d) -> q <> post -> swap q = q).
  { intros q Hq Hne. unfold swap.
    destruct (Post.id q =? post_id) eqn:Eq; [|reflexivity].
    apply Z.eqb_eq in Eq. elim Hne.
    apply (NoDup_map_eq Post.id (DB.posts d)); trivial. congruence. }
  assert (Hpost : swap post = post')
    by (unfold swap; rewrite Hid, Z.eqb_refl; reflexivity).
  unfold d'. rewrite E. cbn [fst snd].
  split; [reflexivity|].
  assert (Hposts : DB.posts (ORM.Post_update post' d)
                   = map swap (DB.posts d)).
  { unfold ORM.Post_update, DB.with_posts, DB.with_tables.
    cbn [DB.posts]. apply map_ext. intros q.
    unfold swap. rewrite <- Hid'. reflexivity. }
  split; [exact Hposts|].
  split.
  { split; [exact Hid'|]. split; [reflexivity|]. split; [reflexivity|].
    pose proof (PostForm_valid (Views.POST request) _ d form Hm) as Hf.
    unfold post', Forms.PostForm.construct_instance,
      Forms.PostForm.text_of, Forms.PostForm.group_of.
    cbn [Post.text Post.group].
    destruct (Forms.clean_text (QueryDict.get (Views.POST request) "text"))
      as [e|t].
    { destruct Hf as [Hf _]. congruence. }
    rewrite (Hf Hv). split; [reflexivity|].
    revert Hm Hv. unfold Forms.PostForm.make, Forms.PostForm.is_valid.
    destruct (QueryDict.or_None (Views.POST request)) as [data|],
      (Forms.files_or_None (Views.FILES request)) as [fs|];
      try (intros [= <-]; discriminate);
      (destruct (Forms.clean_group d _) as [e|[e|g]]; [discriminate| |]);
      intros [= <-]; cbn [Forms.PostForm.is_bound Forms.PostForm.errors
                          Forms.PostForm.group Forms.cleaned andb];
      try reflexivity;
      destruct (Forms.field_errors "text" _); discriminate. }
  split; [exact Hswap|]. split; [exact Hpost|].
  split; [|auto].
  unfold ORM.Post_all. rewrite Hposts.
  apply order_by_desc_map. intros q Hq. unfold swap.
  destruct (Post.id q =? post_id) eqn:Eq; [|reflexivity].
  apply Z.eqb_eq in Eq.
  assert (q = post)
    by (apply (NoDup_map_eq Post.id (DB.posts d)); trivial; congruence).
  now subst q.
Qed.

Lemma post_edit_rewrites_one_witness :
  let request :=
    Sample.post_request (Some Sample.alice) [("text", " edited ")] in
  DB.posts (snd (Views.post_edit "alice" 1 request Sample.followed))
  = [Post.mk 1 "edited" 1000 1 None "";
     Post.mk 2 "from carol" 2000 3 None ""]
  /\ ORM.Post_all (snd (Views.post_edit "alice" 1 request Sample.followed))
     = map (fun q =>
              if Post.id q =? 1 then Post.mk 1 "edited" 1000 1 None ""
              else q)
         (ORM.Post_all Sample.followed).
Proof.
  split; [reflexivity|].
  refine (proj1 (proj2 (proj2 (proj2 (proj2 (proj2
            (post_edit_rewrites_one "alice" 1
               (Sample.post_request (Some Sample.alice)
                  [("text", " edited ")])
               Sample.followed Sample.alice
               (Post.mk 1 "from alice" 1000 1 (Some 1) "")
               eq_refl eq_refl eq_refl _ _ eq_refl eq_refl))))))).
  simpl. repeat constructor; simpl; intuition discriminate.
Defined.

(** ** The group page, the profile and the post page *)

Lemma get_object_or_404_empty {A : Type} (l : list A) :
  l = [] -> ORM.get_object_or_404 l = inl Http404.
Proof. now intros ->. Qed.

Lemma filter_none {A : Type} (f : A -> bool) (l : list A) :
  (forall x, In x l -> f x = false) -> filter f l = [].
Proof.
  induction l as [|x r IH]; intros H; simpl; [reflexivity|].
  rewrite (H x (or_introl eq_refl)). apply IH.
  intros y Hy. apply H. now right.
Qed.

(** X7.  [group_posts] answers with the not-found signal when no group has
    the slug, and otherwise renders the group found under the slug with
    the list of exactly the stored posts that refer to it, newest first;
    it never changes the store. *)
Theorem group_posts_exact (slug : string) (request : Views.HttpRequest)
  (d : DB.t) :
  ((forall g, In g (DB.groups d) -> Group.slug g <> slug) ->
   Views.group_posts slug request d = (Views.Raise Http404, d))
  /\ (forall group,
         ORM.get_object_or_404
           (filter (fun g => String.eqb (Group.slug g) slug) (DB.groups d))
         = inr group ->
         let post_list := ORM.Group_posts group d in
         In group (DB.groups d) /\ Group.slug group = slug
         /\ (exists page,
                Views.group_posts slug request d
                = (Views.respond
                     (Views.render "group.html"
                        (Views.ctx_group group page
                           (Paginator.make post_list 10))), d))
         /\ (forall p, In p post_list <->
                       In p (DB.posts d)
                       /\ Post.group p = Some (Group.id group))
         /\ Site.newest_first post_list)
  /\ snd (Views.group_posts slug request d) = d.
Proof.
  split; [|split].
  - intros Hnone. unfold Views.group_posts.
    rewrite get_object_or_404_empty; [reflexivity|].
    apply filter_none. intros g Hg. apply String.eqb_neq. now apply Hnone.
  - intros group Hg post_list.
    pose proof (get_object_or_404_In _ _ Hg) as Hl.
    assert (Hin : In group
                    (filter (fun g => String.eqb (Group.slug g) slug)
                       (DB.groups d))) by (rewrite Hl; now left).
    apply filter_In in Hin. destruct Hin as [Hin Hs].
    apply String.eqb_eq in Hs.
    split; [exact Hin|]. split; [exact Hs|].
    split.
    { destruct (proj1 (proj2 (feeds_render_get_page request d))
                  slug group Hg) as [page [E _]].
      exists page. exact E. }
    split; [|apply (order_by_desc_sorted Post.pub_date)].
    intros p. unfold post_list, ORM.Group_posts, ORM.Post_filter.
    rewrite order_by_desc_In, filter_In.
    destruct (Post.group p) as [k|]; split; intros [Hp H];
      split; trivial; try discriminate.
    + apply Z.eqb_eq in H. now subst.
    + injection H as ->. apply Z.eqb_refl.
  - apply group_posts_step.
Qed.

Lemma group_posts_exact_witness :
  Views.group_posts "dogs" (Sample.get_request None []) Sample.followed
  = (Views.Raise Http404, Sample.followed).
Proof.
  apply (proj1 (group_posts_exact "dogs" (Sample.get_request None [])
                  Sample.followed)).
  simpl. intros g [<-|[]]. discriminate.
Defined.

(** The one user found under a username is the only user with it. *)
Lemma author_username_found (username : string) (d : DB.t)
  (author : User.t) (a : pk) :
  Views.get_user username d = inr author ->
  ORM.author_username d a username = true <-> a = User.id author.
Proof.
  intros H. apply get_object_or_404_In in H.
  assert (Hall : forall u, In u (DB.users d) ->
                           User.username u = username -> u = author).
  { intros u Hu En.
    assert (Hin : In u (filter (fun u => String.eqb (User.username u)
                                           username) (DB.users d)))
      by (apply filter_In; split; [exact Hu | now apply String.eqb_eq]).
    rewrite H in Hin. destruct Hin as [<-|[]]. reflexivity. }
  assert (Ha : In author (DB.users d) /\ User.username author = username).
  { assert (Hin : In author [author]) by now left.
    rewrite <- H in Hin. apply filter_In in Hin.
    destruct Hin as [Hin E]. now apply String.eqb_eq in E. }
  unfold ORM.author_username. rewrite existsb_exists. split.
  - intros [u [Hu E]]. apply andb_prop in E. destruct E as [E1 E2].
    apply Z.eqb_eq in E1. apply String.eqb_eq in E2.
    now rewrite <- (Hall u Hu E2).
  - intros ->. exists author. split; [tauto|].
    destruct Ha as [_ Ha]. apply String.eqb_eq in Ha.
    now rewrite Z.eqb_refl, Ha.
Qed.

(** X8.  [profile] answers with the not-found signal when no user has the
    username, and otherwise renders the user found with the list of
    exactly the stored posts of that user, newest first; [following] is
    true exactly when somebody is logged in and a [Follow] row leads from
    them to the user, and false for a visitor who is not logged in. *)
Theorem profile_exact (username : string) (request : Views.HttpRequest)
  (d : DB.t) :
  ((forall u, In u (DB.users d) -> User.username u <> username) ->
   Views.profile username request d = (Views.Raise Http404, d))
  /\ (forall author,
         Views.get_user username d = inr author ->
         exists page post_list following,
           Views.profile username request d
           = (Views.respond
                (Views.render "profile.html"
                   (Views.ctx_profile author page
                      (Paginator.make post_list 10) following)), d)
           /\ (forall p, In p post_list <->
                         In p (DB.posts d)
                         /\ Post.author p = User.id author)
           /\ Site.newest_first post_list
           /\ (following = true <->
               exists u, Views.user request = Some u
                         /\ Site.follows d (User.id u) (User.id author))).
Proof.
  split.
  - intros Hnone. unfold Views.profile, Views.get_user.
    rewrite get_object_or_404_empty; [reflexivity|].
    apply filter_none. intros u Hu. apply String.eqb_neq. now apply Hnone.
  - intros author Ha. unfold Views.profile. rewrite Ha.
    match goal with
    | |- context [Views.get_page (Paginator.make ?l 10) request] =>
        destruct (views_get_page_slice l request) as [n [E _]];
        set (post_list := l) in *
    end.
    rewrite E. eexists. exists post_list. eexists.
    split; [reflexivity|].
    split.
    { intros p. unfold post_list, ORM.Post_filter.
      rewrite order_by_desc_In, filter_In.
      now rewrite (author_username_found username d author _ Ha). }
    split; [apply (order_by_desc_sorted Post.pub_date)|].
    destruct (Views.user request) as [u|].
    + split.
      * intros Hf. exists u. split; [reflexivity|].
        destruct (ORM.Follow_filter u author d) as [|f r] eqn:F;
          [discriminate|].
        assert (Hin : In f (ORM.Follow_filter u author d))
          by (rewrite F; now left).
        apply filter_In in Hin. destruct Hin as [Hin C].
        apply andb_prop in C. destruct C as [C1 C2].
        apply Z.eqb_eq in C1, C2. exists f. auto.
      * intros [u' [[= <-] [f [Hin [Hu Hau]]]]].
        assert (Hf : In f (ORM.Follow_filter u author d)).
        { apply filter_In. split; [exact Hin|].
          now rewrite Hu, Hau, !Z.eqb_refl. }
        now destruct (ORM.Follow_filter u author d).
    + split; [discriminate | intros [u [[=] _]]].
Qed.

Lemma profile_exact_witness :
  Views.profile "dave" (Sample.get_request None []) Sample.followed
  = (Views.Raise Http404, Sample.followed).
Proof.
  apply (proj1 (profile_exact "dave" (Sample.get_request None [])
                  Sample.followed)).
  simpl. intros u [<-|[<-|[<-|[]]]]; discriminate.
Defined.

(** X9.  For a request that carries no valid comment form (a plain visit
    posts nothing), [post_view] renders the post found under the username
    and the key, with its author and with exactly the stored comments on
    that post, newest first; the post has the key asked for and the user
    found as its author.  Without such a user, or without such a post
    under that username, the answer is the not-found signal; but for a
    user that is found and a key the database cannot bind, the lookup of
    the post raises [OverflowError]. *)
Theorem post_view_shows (username : string) (post_id : pk)
  (request : Views.HttpRequest) (d : DB.t) :
  ((forall u, In u (DB.users d) -> User.username u <> username) ->
   Views.post_view username post_id request d = (Views.Raise Http404, d))
  /\ (forall author,
         Views.get_user username d = inr author ->
         - 2 ^ 63 <= post_id < 2 ^ 63 ->
         (forall p, In p (DB.posts d) -> Post.id p = post_id ->
                    Post.author p <> User.id author) ->
         Views.post_view username post_id request d
         = (Views.Raise Http404, d))
  /\ (forall author,
         Views.get_user username d = inr author ->
         post_id < - 2 ^ 63 \/ 2 ^ 63 <= post_id ->
         Views.post_view username post_id request d
         = (Views.Raise OverflowError, d))
  /\ (forall author post,
         Views.get_user username d = inr author ->
         Views.get_post username post_id d = inr post ->
         let form :=
           Forms.CommentForm.make (QueryDict.or_None (Views.POST request)) in
         Forms.CommentForm.is_valid form = false ->
         let comments := ORM.Post_comments post d in
         Views.post_view username post_id request d
         = (Views.respond
              (Views.render "post.html"
                 (Views.ctx_post post author comments form)), d)
         /\ In post (DB.posts d) /\ Post.id post = post_id
         /\ Post.author post = User.id author
         /\ (forall c, In c comments <->
                       In c (DB.comments d) /\ Comment.post c = post_id)
         /\ StronglySorted
              (fun c c' => Comment.created c' <= Comment.created c)
              comments).
Proof.
  split; [|split; [|split]].
  - intros Hnone. unfold Views.post_view, Views.get_user.
    rewrite get_object_or_404_empty; [reflexivity|].
    apply filter_none. intros u Hu. apply String.eqb_neq. now apply Hnone.
  - intros author Ha Hk Hnone. unfold Views.post_view. rewrite Ha.
    rewrite get_post_bound
      by (destruct (bind_cases post_id) as [[_ B]|[R _]]; [exact B | lia]).
    rewrite get_object_or_404_empty; [reflexivity|].
    apply filter_none. intros p Hp.
    destruct (Post.id p =? post_id) eqn:E; [|reflexivity].
    apply Z.eqb_eq in E. cbn [andb].
    destruct (ORM.author_username d (Post.author p) username) eqn:U;
      [|reflexivity].
    apply (author_username_found username d author _ Ha) in U.
    now elim (Hnone p Hp E).
  - intros author Ha Hk. unfold Views.post_view, Views.get_post.
    rewrite Ha.
    destruct (bind_cases post_id) as [[R _]|[_ B]]; [lia|].
    now rewrite B.
  - intros author post Ha Hp form Hv comments.
    destruct (get_post_In _ _ _ _ Hp) as [Hin [Hid Hau]].
    apply (author_username_found username d author _ Ha) in Hau.
    split.
    { unfold Views.post_view. rewrite Ha, Hp. fold form. now rewrite Hv. }
    split; [exact Hin|]. split; [exact Hid|]. split; [exact Hau|].
    split; [|apply (order_by_desc_sorted Comment.created)].
    intros c. unfold comments, ORM.Post_comments.
    rewrite order_by_desc_In, filter_In, Z.eqb_eq, Hid. reflexivity.
Qed.

Lemma post_view_shows_witness :
  exists form,
    Views.post_view "alice" 1 (Sample.get_request None []) Sample.followed
    = (Views.respond
         (Views.render "post.html"
            (Views.ctx_post (Post.mk 1 "from alice" 1000 1 (Some 1) "")
               Sample.alice [Comment.mk 1 1 2 "nice" 1500] form)),
       Sample.followed).
Proof.
  eexists.
  exact (proj1 (proj2 (proj2 (proj2 (post_view_shows "alice" 1
                                       (Sample.get_request None [])
                                       Sample.followed)))
                 Sample.alice (Post.mk 1 "from alice" 1000 1 (Some 1) "")
                 eq_refl eq_refl eq_refl)).
Defined.

(** ** What following and unfollowing change *)

Lemma filter_keeps_all {A : Type} (f : A -> bool) (l : list A) :
  filter f l = [] -> filter (fun x => negb (f x)) l = l.
Proof.
  induction l as [|x r IH]; simpl; [reflexivity|].
  destruct (f x); [discriminate|]. intros H. simpl. f_equal. now apply IH.
Qed.

Section FollowRelation.
Import Views.
Variable d : DB.t.
Variables u a : User.t.
Variable username : string.
Variable request : HttpRequest.
Hypothesis Hu : user request = Some u.
Hypothesis Ha : get_user username d = inr a.

Lemma profile_follow_tables :
  let d' := snd (profile_follow username request d) in
  DB.posts d' = DB.posts d /\ DB.comments d' = DB.comments d
  /\ DB.users d' = DB.users d /\ DB.groups d' = DB.groups d.
Proof.
  cbv zeta.
  destruct (ORM.Follow_filter u a d) as [|f r] eqn:F.
  - destruct (Z.eq_dec (User.id a) (User.id u)) as [E|E].
    + rewrite (profile_follow_skips d u a username request Hu Ha
                 (or_intror E)). auto.
    + rewrite (profile_follow_creates d u a username request Hu Ha F E).
      auto.
  - rewrite (profile_follow_skips d u a username request Hu Ha);
      [auto | left; rewrite F; discriminate].
Qed.

Lemma follows_after_follow (x y : pk) :
  User.id a <> User.id u ->
  Site.follows (snd (profile_follow username request d)) x y <->
  Site.follows d x y \/ (x = User.id u /\ y = User.id a).
Proof.
  intros Hne. unfold Site.follows.
  destruct (ORM.Follow_filter u a d) as [|g r] eqn:F.
  - rewrite (profile_follow_creates d u a username request Hu Ha F Hne).
    cbn [snd DB.follows]. split.
    + intros [f [Hin [Hx Hy]]]. apply in_app_iff in Hin.
      destruct Hin as [Hin|[<-|[]]]; [left; eauto|].
      right. simpl in Hx, Hy. auto.
    + intros [[f [Hin H]]|[-> ->]].
      * exists f. rewrite in_app_iff. auto.
      * eexists. rewrite in_app_iff. split; [right; now left|].
        split; reflexivity.
  - rewrite (profile_follow_skips d u a username request Hu Ha);
      [|left; rewrite F; discriminate].
    cbn [snd]. split; [auto|].
    intros [H|[-> ->]]; [exact H|].
    assert (Hin : In g (ORM.Follow_filter u a d)) by (rewrite F; now left).
    apply filter_In in Hin. destruct Hin as [Hin C].
    apply andb_prop in C. destruct C as [C1 C2].
    apply Z.eqb_eq in C1, C2. exists g. auto.
Qed.

Lemma follows_after_unfollow (x y : pk) :
  Site.follows (snd (profile_unfollow username request d)) x y <->
  Site.follows d x y /\ ~ (x = User.id u /\ y = User.id a).
Proof.
  rewrite (profile_unfollow_deletes d u a username request Hu Ha).
  unfold Site.follows, ORM.Follow_delete. cbn [snd DB.follows
    DB.with_tables]. split.
  - intros [f [Hin [Hx Hy]]]. apply filter_In in Hin.
    destruct Hin as [Hin C]. split; [exists f; auto|].
    intros [Ex Ey]. apply negb_true_iff in C.
    rewrite Hx, Hy, Ex, Ey, !Z.eqb_refl in C. discriminate.
  - intros [[f [Hin [Hx Hy]]] Hn]. exists f. split; [|auto].
    apply filter_In. split; [exact Hin|]. apply negb_true_iff.
    destruct ((Follow.user f =? User.id u)
              && (Follow.author f =? User.id a)) eqn:C; [|reflexivity].
    apply andb_prop in C. destruct C as [C1 C2].
    apply Z.eqb_eq in C1, C2. elim Hn. split; congruence.
Qed.

Lemma follow_keeps_keys :
  NoDup (map Follow.id (DB.follows d)) ->
  NoDup (map Follow.id
           (DB.follows (snd (profile_follow username request d)))).
Proof.
  intros Hnd.
  destruct (ORM.Follow_filter u a d) as [|f r] eqn:F.
  - destruct (Z.eq_dec (User.id a) (User.id u)) as [E|E].
    + now rewrite (profile_follow_skips d u a username request Hu Ha
                     (or_intror E)).
    + rewrite (profile_follow_creates d u a username request Hu Ha F E).
      cbn [snd DB.follows]. rewrite map_app.
      apply NoDup_snoc; [exact Hnd | apply next_id_fresh].
  - rewrite (profile_follow_skips d u a username request Hu Ha);
      [exact Hnd | left; rewrite F; discriminate].
Qed.

Lemma unfollow_keeps_keys :
  NoDup (map Follow.id (DB.follows d)) ->
  NoDup (map Follow.id
           (DB.follows (snd (profile_unfollow username request d)))).
Proof.
  intros Hnd.
  rewrite (profile_unfollow_deletes d u a username request Hu Ha).
  unfold ORM.Follow_delete. cbn [snd DB.follows DB.with_tables].
  now apply NoDup_map_filter.
Qed.

End FollowRelation.

(** X10.  For a logged-in user [u] and a stored author [a] other than [u]:
    after [profile_follow] the pairs (user, author) joined by a [Follow]
    row are the pairs joined before and the pair ([u], [a]); after
    [profile_unfollow] they are the pairs joined before except the pair
    ([u], [a]); neither call touches a post, a comment, a user or a group,
    or the follows between other pairs. *)
Theorem follow_changes_one_pair (d : DB.t) (u a : User.t)
  (request : Views.HttpRequest) :
  Views.user request = Some u ->
  Views.get_user (User.username a) d = inr a ->
  User.id u <> User.id a ->
  let followed := snd (Views.profile_follow (User.username a) request d) in
  let unfollowed :=
    snd (Views.profile_unfollow (User.username a) request d) in
  (forall x y,
      Site.follows followed x y <->
      Site.follows d x y \/ (x = User.id u /\ y = User.id a))
  /\ (forall x y,
         Site.follows unfollowed x y <->
         Site.follows d x y /\ ~ (x = User.id u /\ y = User.id a))
  /\ (DB.posts followed = DB.posts d /\ DB.comments followed = DB.comments d
      /\ DB.users followed = DB.users d /\ DB.groups followed = DB.groups d)
  /\ (DB.posts unfollowed = DB.posts d
      /\ DB.comments unfollowed = DB.comments d
      /\ DB.users unfollowed = DB.users d
      /\ DB.groups unfollowed = DB.groups d).
Proof.
  intros Hu Ha Hne followed unfollowed.
  split; [|split; [|split]].
  - intros x y. apply (follows_after_follow d u a); trivial. congruence.
  - intros x y. now apply (follows_after_unfollow d u a).
  - exact (profile_follow_tables d u a _ request Hu Ha).
  - unfold unfollowed.
    rewrite (profile_unfollow_deletes d u a _ request Hu Ha). auto.
Qed.

Lemma follow_changes_one_pair_witness :
  let request := Sample.get_request (Some Sample.carol) [] in
  let followed :=
    snd (Views.profile_follow "alice" request Sample.followed) in
  Site.edges Sample.carol Sample.alice Sample.followed = 0%nat
  /\ (Site.follows followed 3 1 <->
      Site.follows Sample.followed 3 1 \/ (3 = 3 /\ 1 = 1))
  /\ (Site.follows followed 2 1 <->
      Site.follows Sample.followed 2 1 \/ (2 = 3 /\ 1 = 1)).
Proof.
  split; [reflexivity|].
  split;
    apply (proj1 (follow_changes_one_pair Sample.followed Sample.carol
                    Sample.alice
                    (Sample.get_request (Some Sample.carol) [])
                    eq_refl eq_refl ltac:(discriminate))).
Defined.

(** X11.  Following and then unfollowing an author one did not follow
    gives back the table of follows as it was, row for row. *)
Theorem follow_then_unfollow_restores (d : DB.t) (u a : User.t)
  (request : Views.HttpRequest) :
  Views.user request = Some u ->
  Views.get_user (User.username a) d = inr a ->
  User.id u <> User.id a ->
  Site.edges u a d = 0%nat ->
  let followed := snd (Views.profile_follow (User.username a) request d) in
  let back :=
    snd (Views.profile_unfollow (User.username a) request followed) in
  Site.edges u a followed = 1%nat
  /\ DB.follows back = DB.follows d
  /\ DB.posts back = DB.posts d /\ DB.comments back = DB.comments d
  /\ DB.users back = DB.users d /\ DB.groups back = DB.groups d.
Proof.
  intros Hu Ha Hne H0 followed back.
  assert (F : ORM.Follow_filter u a d = [])
    by (unfold Site.edges in H0; now destruct (ORM.Follow_filter u a d)).
  assert (Hne' : User.id a <> User.id u) by congruence.
  unfold back, followed.
  rewrite (profile_follow_creates d u a _ request Hu Ha F Hne').
  cbn [snd].
  match goal with
  | |- context [Views.profile_unfollow _ request ?d'] =>
      assert (Ha' : Views.get_user (User.username a) d' = inr a)
        by exact Ha;
      rewrite (profile_unfollow_deletes d' u a _ request Hu Ha')
  end.
  cbn [snd]. split.
  { unfold Site.edges. rewrite Follow_filter_added, F. reflexivity. }
  split; [|auto].
  unfold ORM.Follow_delete. cbn [DB.follows DB.with_tables].
  rewrite filter_app. cbn [filter Follow.user Follow.author].
  rewrite !Z.eqb_refl. cbn [andb negb]. rewrite app_nil_r.
  apply (filter_keeps_all
           (fun f => (Follow.user f =? User.id u)
                     && (Follow.author f =? User.id a))).
  exact F.
Qed.

Lemma follow_then_unfollow_restores_witness :
  let request := Sample.get_request (Some Sample.carol) [] in
  DB.follows
    (snd (Views.profile_unfollow "alice" request
            (snd (Views.profile_follow "alice" request Sample.followed))))
  = DB.follows Sample.followed.
Proof.
  exact (proj1 (proj2 (follow_then_unfollow_restores Sample.followed
                         Sample.carol Sample.alice
                         (Sample.get_request (Some Sample.carol) [])
                         eq_refl eq_refl ltac:(discriminate) eq_refl))).
Defined.

(** X12.  The following feed goes with the edge.  For a logged-in user [u]
    and a stored author [a] other than [u], in a store with unique
    [Follow] keys: after [profile_follow] every stored post of [a] is in
    the feed of [u]; after [profile_unfollow] no post of [a] is; and the
    posts of every other author are in the feed exactly when they were
    before. *)
Theorem feed_goes_with_the_edge (d : DB.t) (u a : User.t)
  (request : Views.HttpRequest) :
  Views.user request = Some u ->
  Views.get_user (User.username a) d = inr a ->
  User.id u <> User.id a ->
  NoDup (map Follow.id (DB.follows d)) ->
  let feed := fun s =>
    ORM.Post_author_following_in (ORM.Follow_by_user u s) s in
  let followed := snd (Views.profile_follow (User.username a) request d) in
  let unfollowed :=
    snd (Views.profile_unfollow (User.username a) request d) in
  (forall p, In p (DB.posts d) -> Post.author p = User.id a ->
             In p (feed followed))
  /\ (forall p, In p (feed unfollowed) -> Post.author p <> User.id a)
  /\ (forall p, Post.author p <> User.id a ->
                (In p (feed followed) <-> In p (feed d))
                /\ (In p (feed unfollowed) <-> In p (feed d))).
Proof.
  intros Hu Ha Hne Hnd feed followed unfollowed.
  pose proof (follow_keeps_keys d u a _ request Hu Ha Hnd) as Kf.
  pose proof (unfollow_keeps_keys d u a _ request Hu Ha Hnd) as Ku.
  fold followed in Kf. fold unfollowed in Ku.
  assert (Hne' : User.id a <> User.id u) by congruence.
  pose proof (profile_follow_tables d u a _ request Hu Ha) as [Pf _].
  fold followed in Pf.
  assert (Pu : DB.posts unfollowed = DB.posts d)
    by (unfold unfollowed;
        rewrite (profile_unfollow_deletes d u a _ request Hu Ha);
        reflexivity).
  assert (If : forall p, In p (feed followed) <->
                         In p (DB.posts d)
                         /\ (Site.follows d (User.id u) (Post.author p)
                             \/ Post.author p = User.id a)).
  { intros p. unfold feed. rewrite (feed_In followed u p Kf), Pf.
    unfold followed.
    rewrite (follows_after_follow d u a _ request Hu Ha _ _ Hne').
    tauto. }
  assert (Iu : forall p, In p (feed unfollowed) <->
                         In p (DB.posts d)
                         /\ Site.follows d (User.id u) (Post.author p)
                         /\ Post.author p <> User.id a).
  { intros p. unfold feed. rewrite (feed_In unfollowed u p Ku), Pu.
    unfold unfollowed.
    rewrite (follows_after_unfollow d u a _ request Hu Ha). tauto. }
  split; [|split].
  - intros p Hp Hap. apply If. auto.
  - intros p Hp. apply Iu in Hp. tauto.
  - intros p Hp. unfold feed at 2 4.
    rewrite If, Iu, (feed_In d u p Hnd). tauto.
Qed.

Lemma feed_goes_with_the_edge_witness :
  let request := Sample.get_request (Some Sample.carol) [] in
  let followed :=
    snd (Views.profile_follow "alice" request Sample.followed) in
  In (Post.mk 1 "from alice" 1000 1 (Some 1) "")
    (ORM.Post_author_following_in
       (ORM.Follow_by_user Sample.carol followed) followed).
Proof.
  apply (proj1 (feed_goes_with_the_edge Sample.followed Sample.carol
                  Sample.alice (Sample.get_request (Some Sample.carol) [])
                  eq_refl eq_refl ltac:(discriminate)
                  ltac:(simpl; repeat constructor; simpl; tauto))).
  - simpl. tauto.
  - reflexivity.
Defined.

(** ** Who can write *)

(** X13.  The store is written only for a logged-in user and only by the
    writing views: an action whose request carries no logged-in user
    leaves every table as it is, whichever view it is routed to, and so
    does every call of the main page, a group page, a profile, a post page
    or the following feed, logged in or not. *)
Theorem visitors_never_write (now : datetime) (a : Site.action)
  (s : Site.State) :
  (forall request, Site.request_of a = Some request ->
                   Views.user request = None ->
                   Site.db (snd (Site.exec now a s)) = Site.db s)
  /\ (Site.shows a = true ->
      Site.db (snd (Site.exec now a s)) = Site.db s).
Proof.
  split.
  - intros request Hr Hu.
    destruct a; try discriminate; injection Hr as ->;
      cbn [Site.exec fst snd];
      rewrite ?lift_db, ?index_db; trivial;
      try apply group_posts_step; try apply profile_step;
      try apply post_view_step; try apply follow_index_step;
      unfold Views.new_post, Views.add_comment, Views.post_edit,
        Views.profile_follow, Views.profile_unfollow,
        Views.login_required; now rewrite Hu.
  - intros Hs.
    destruct a; try discriminate; cbn [Site.exec fst snd];
      rewrite ?lift_db, ?index_db; trivial;
      try apply group_posts_step; try apply profile_step;
      try apply post_view_step; apply follow_index_step.
Qed.

Lemma visitors_never_write_witness :
  Site.db
    (snd (Site.exec 9000
            (Site.NewPost (Sample.post_request None [("text", "spam")]))
            (Site.mkState Sample.followed [])))
  = Sample.followed.
Proof.
  exact (proj1 (visitors_never_write 9000
                  (Site.NewPost
                     (Sample.post_request None [("text", "spam")]))
                  (Site.mkState Sample.followed []))
           _ eq_refl eq_refl).
Defined.

(** ** Deleting a post *)

(** X14.  [post.delete()] takes the post's comments with it and nothing
    else: afterwards no post with a deleted key and no comment on one is
    stored, every other post and comment is kept, and users, groups and
    follows are untouched. *)
Theorem post_delete_cascades (dead : list pk) (d : DB.t) :
  let d' := ORM.Post_delete dead d in
  (forall p, In p (DB.posts d') <->
             In p (DB.posts d) /\ ~ In (Post.id p) dead)
  /\ (forall c, In c (DB.comments d') <->
                In c (DB.comments d) /\ ~ In (Comment.post c) dead)
  /\ DB.users d' = DB.users d /\ DB.groups d' = DB.groups d
  /\ DB.follows d' = DB.follows d.
Proof.
  cbv zeta. unfold ORM.Post_delete; simpl.
  split; [|split; [|auto]].
  - intros p. rewrite filter_In, negb_true_iff, <- not_true_iff_false,
      mem_In. reflexivity.
  - intros c. rewrite CASCADE_In, <- not_true_iff_false, mem_In.
    reflexivity.
Qed.

(** ** What a new post holds *)

Lemma PostForm_new_image (data : option QueryDict.t) (d : DB.t)
  (form : Forms.PostForm.t) :
  Forms.PostForm.make data None d = inr form ->
  Forms.PostForm.image_of form "" = "".
Proof.
  unfold Forms.PostForm.image_of, Forms.PostForm.make.
  destruct data as [q|]; [|now intros [= <-]].
  destruct (Forms.clean_group d _) as [e|g]; [discriminate|].
  intros [= <-].
  cbn [Forms.PostForm.image]. unfold Forms.clean_image.
  cbn [Forms.files_get]. now destruct (Forms.checkbox q "image-clear").
Qed.

(** X15.  [new_post] never stores an image: the view does not hand
    [request.FILES] to the form, so whatever file the request uploads,
    every post in the store after the call was there before or has an
    empty image reference. *)
Theorem new_post_drops_image (now : datetime)
  (request : Views.HttpRequest) (d : DB.t) :
  forall p, In p (DB.posts (snd (Views.new_post now request d))) ->
            In p (DB.posts d) \/ Post.image p = "".
Proof.
  intros p. unfold Views.new_post, Views.login_required.
  destruct (Views.user request) as [u|]; [|auto].
  destruct (Forms.PostForm.make _ None d) as [e|form] eqn:F; [auto|].
  destruct (negb _); [auto|].
  unfold ORM.Post_insert. cbn [snd DB.posts].
  rewrite in_app_iff. intros [H|[<-|[]]]; [auto|].
  right. exact (PostForm_new_image _ _ _ F).
Qed.

Lemma new_post_drops_image_witness :
  let request :=
    Views.mkRequest Views.mPOST "http://testserver" "/" ""
      (Some Sample.alice) [] [("text", "with a picture")]
      [("image", Forms.mkFile "cat.png" true "posts/cat.png")] in
  let p := Post.mk 3 "with a picture" 9000 1 None "" in
  DB.posts (snd (Views.new_post 9000 request Sample.followed))
  = DB.posts Sample.followed ++ [p]
  /\ (In p (DB.posts Sample.followed) \/ Post.image p = "").
Proof.
  split; [reflexivity|].
  apply (new_post_drops_image 9000
           (Views.mkRequest Views.mPOST "http://testserver" "/" ""
              (Some Sample.alice) [] [("text", "with a picture")]
              [("image", Forms.mkFile "cat.png" true "posts/cat.png")])
           Sample.followed).
  simpl. tauto.
Defined.

(** X16.  The group of a new post is checked against the stored groups.
    For a logged-in user: a [group] parameter that is not empty and does
    not read as an integer, or reads as one the database can bind that is
    not the key of a stored group, makes the form invalid with the error
    [invalid_choice], and nothing is stored; one that reads as an integer
    the database cannot bind ends the request with [OverflowError], and
    nothing is stored; and a post that [new_post] does store has no group
    or the key of a stored group. *)
Theorem new_post_checks_group (now : datetime)
  (request : Views.HttpRequest) (d : DB.t) (u : User.t) :
  Views.user request = Some u ->
  (forall s,
      QueryDict.get (Views.POST request) "group" = Some s ->
      s <> "" ->
      (forall k, Py.int_of_str s = Some k ->
                 - 2 ^ 63 <= k < 2 ^ 63
                 /\ ~ In k (map Group.id (DB.groups d))) ->
      exists form,
        Views.new_post now request d
        = (Views.respond
             (Views.render "new_post.html" (Views.ctx_new_post form None)),
           d)
        /\ In ("group", Forms.invalid_choice) (Forms.PostForm.errors form))
  /\ (Site.group_out_of_range request ->
      Views.new_post now request d = (Views.Raise OverflowError, d))
  /\ (forall p, In p (DB.posts (snd (Views.new_post now request d))) ->
                In p (DB.posts d)
                \/ Post.group p = None
                \/ exists k, Post.group p = Some k
                             /\ In k (map Group.id (DB.groups d))).
Proof.
  intros Hu. split; [|split].
  - intros s Hs Hne Hk.
    assert (Hg : Forms.clean_group d (Some s)
                 = inr (inl Forms.invalid_choice)).
    { unfold Forms.clean_group. apply String.eqb_neq in Hne. rewrite Hne.
      destruct (Py.int_of_str s) as [k|]; [|reflexivity].
      destruct (Hk k eq_refl) as [R Hno].
      destruct (bind_cases k) as [[_ B]|[R' _]]; [rewrite B | lia].
      destruct (ORM.mem k (map Group.id (DB.groups d))) eqn:M;
        [|reflexivity].
      apply mem_In in M. contradiction. }
    assert (Hd : Views.POST request <> [])
      by (intros E; rewrite E in Hs; discriminate).
    unfold Views.new_post, Views.login_required. rewrite Hu.
    destruct (Views.POST request) as [|kv r] eqn:P; [contradiction|].
    unfold QueryDict.or_None, Forms.PostForm.make,
      Forms.PostForm.is_valid.
    rewrite Hs, Hg.
    cbn [Forms.PostForm.is_bound Forms.PostForm.errors].
    destruct (Forms.field_errors "text" _); simpl;
      (eexists; split; [reflexivity|]); simpl; auto.
    right. apply in_app_iff. right. now left.
  - intros Hg. pose proof (PostForm_make (Views.POST request) None d) as M.
    rewrite (clean_group_raises d request Hg) in M.
    unfold Views.new_post, Views.login_required. now rewrite Hu, M.
  - intros p. unfold Views.new_post, Views.login_required. rewrite Hu.
    destruct (Forms.PostForm.make _ None d) as [e|form] eqn:F; [auto|].
    destruct (negb _); [auto|].
    unfold ORM.Post_insert. cbn [snd DB.posts].
    rewrite in_app_iff. intros [H|[<-|[]]]; [auto|].
    right. cbn [Post.group]. revert F.
    unfold Forms.PostForm.group_of, Forms.PostForm.make.
    destruct (QueryDict.or_None (Views.POST request)) as [q|];
      [|intros [= <-]; auto].
    unfold Forms.clean_group.
    destruct (QueryDict.get q "group") as [s|]; [|intros [= <-]; auto].
    destruct (String.eqb s ""); [intros [= <-]; auto|].
    destruct (Py.int_of_str s) as [k|]; [|intros [= <-]; auto].
    destruct (ORM.bind k) as [e|k'] eqn:B; [discriminate|].
    destruct (ORM.mem k' (map Group.id (DB.groups d))) eqn:M;
      intros [= <-]; [|auto].
    apply mem_In in M. right. exists k'. split; [reflexivity | exact M].
Qed.

Lemma new_post_checks_group_witness :
  exists form,
    Views.new_post 9000
      (Sample.post_request (Some Sample.alice)
         [("text", "hello"); ("group", "7")])
      Sample.followed
    = (Views.respond
         (Views.render "new_post.html" (Views.ctx_new_post form None)),
       Sample.followed)
    /\ In ("group", Forms.invalid_choice) (Forms.PostForm.errors form).
Proof.
  apply (proj1 (new_post_checks_group 9000
                  (Sample.post_request (Some Sample.alice)
                     [("text", "hello"); ("group", "7")])
                  Sample.followed Sample.alice eq_refl) "7" eq_refl).
  - discriminate.
  - intros k [= <-]. split; [lia|]. simpl. intros [H|[]]. discriminate.
Defined.

(** ** Written, then read *)

(** X17.  A post just published is found.  When a stored user publishes
    with data of which the form is made and which it accepts, and the
    keys of the table are not used up (the next one is one the database
    can bind), the new post is found by the lookup of [post_view],
    [add_comment] and [post_edit] under the user's username and the
    post's new key, and no post is found under that key with another
    username of the store. *)
Theorem new_post_then_found (now : datetime) (d : DB.t) (u : User.t)
  (request : Views.HttpRequest) (form : Forms.PostForm.t) :
  Views.user request = Some u ->
  In u (DB.users d) ->
  Forms.PostForm.make (QueryDict.or_None (Views.POST request)) None d
  = inr form ->
  Forms.PostForm.is_valid form = true ->
  - 2 ^ 63 <= ORM.next_id (DB.post_seq d) (map Post.id (DB.posts d))
    < 2 ^ 63 ->
  let d' := snd (Views.new_post now request d) in
  exists p,
    DB.posts d' = DB.posts d ++ [p]
    /\ Views.get_post (User.username u) (Post.id p) d' = inr p
    /\ forall username,
        (forall v, In v (DB.users d) -> User.id v = User.id u ->
                   User.username v <> username) ->
        Views.get_post username (Post.id p) d' = inl Http404.
Proof.
  intros Hu Hin Hm Hv Hk d'.
  unfold d', Views.new_post, Views.login_required. rewrite Hu, Hm, Hv.
  cbn [negb ORM.Post_insert snd].
  set (p := Post.mk _ _ now (User.id u) _ _).
  exists p. cbn [DB.posts]. split; [reflexivity|].
  assert (Hb : ORM.bind (Post.id p) = inr (Post.id p))
    by (destruct (bind_cases (Post.id p)) as [[_ B]|[R _]];
        [exact B | cbn [Post.id p] in R; lia]).
  assert (Hold : forall q, In q (DB.posts d) ->
                           (Post.id q =? Post.id p) = false).
  { intros q Hq. apply Z.eqb_neq. intros E.
    apply (next_id_fresh (DB.post_seq d) (map Post.id (DB.posts d))).
    change (In (Post.id p) (map Post.id (DB.posts d))).
    rewrite <- E. now apply in_map. }
  assert (Hnone : forall f,
             filter (fun q => (Post.id q =? Post.id p) && f q) (DB.posts d)
             = []).
  { intros f. apply filter_none. intros q Hq. now rewrite (Hold q Hq). }
  split.
  - rewrite (get_post_bound _ _ _ Hb).
    cbn [DB.posts]. rewrite filter_app, Hnone.
    cbn [filter app]. rewrite Z.eqb_refl. cbn [andb].
    assert (Hau : ORM.author_username
                    (DB.mk (DB.users d) (DB.groups d) (DB.posts d ++ [p])
                       (DB.comments d) (DB.follows d) (Post.id p)
                       (DB.comment_seq d) (DB.follow_seq d))
                    (Post.author p) (User.username u) = true).
    { unfold ORM.author_username. cbn [DB.users]. apply existsb_exists.
      exists u. split; [exact Hin|].
      now rewrite Z.eqb_refl, String.eqb_refl. }
    now rewrite Hau.
  - intros username Hother. rewrite (get_post_bound _ _ _ Hb).
    cbn [DB.posts].
    rewrite filter_app, Hnone. cbn [filter app].
    rewrite Z.eqb_refl. cbn [andb].
    match goal with
    | |- context [ORM.author_username ?x ?y ?z] =>
        destruct (ORM.author_username x y z) eqn:A
    end; [|reflexivity].
    unfold ORM.author_username in A. cbn [DB.users] in A.
    apply existsb_exists in A. destruct A as [v [Hv' C]].
    apply andb_prop in C. destruct C as [C1 C2].
    apply Z.eqb_eq in C1. apply String.eqb_eq in C2.
    now elim (Hother v Hv' C1).
Qed.

Lemma new_post_then_found_witness :
  let request :=
    Sample.post_request (Some Sample.alice) [("text", "hello")] in
  let d' := snd (Views.new_post 9000 request Sample.followed) in
  exists p,
    DB.posts d' = DB.posts Sample.followed ++ [p]
    /\ Views.get_post "alice" (Post.id p) d' = inr p.
Proof.
  destruct (new_post_then_found 9000 Sample.followed Sample.alice
              (Sample.post_request (Some Sample.alice) [("text", "hello")])
              _ eq_refl (or_introl eq_refl) eq_refl eq_refl
              ltac:(vm_compute; split; [discriminate | reflexivity]))
    as [p [H1 [H2 _]]].
  exists p. split; [exact H1 | exact H2].
Defined.

(** X18.  A comment just written is shown.  After [add_comment] stored a
    comment, the post is still found under the same address and its list
    of comments on the post page holds the new comment and every comment
    it held before, one more in all; when the clock reading is later than
    the [created] of every stored comment, the new comment is the first
    of the list. *)
Theorem add_comment_then_shown (now : datetime) (username : string)
  (post_id : pk) (request : Views.HttpRequest) (d : DB.t) (u : User.t)
  (post : Post.t) (t : string) :
  Views.user request = Some u ->
  Views.get_post username post_id d = inr post ->
  Forms.clean_text (QueryDict.get (Views.POST request) "text") = inr t ->
  let d' := snd (Views.add_comment now username post_id request d) in
  Views.get_post username post_id d' = inr post
  /\ exists c,
      Comment.text c = t /\ Comment.author c = User.id u
      /\ Comment.created c = now
      /\ (forall c0, In c0 (ORM.Post_comments post d') <->
                     c0 = c \/ In c0 (ORM.Post_comments post d))
      /\ List.length (ORM.Post_comments post d')
         = S (List.length (ORM.Post_comments post d))
      /\ ((forall c0, In c0 (DB.comments d) -> Comment.created c0 < now) ->
          ORM.Post_comments post d' = c :: ORM.Post_comments post d).
Proof.
  intros Hu Hp Ht d'.
  pose proof (CommentForm_valid (Views.POST request)) as Hf.
  cbv zeta in Hf. rewrite Ht in Hf. destruct Hf as [Hv Htext].
  unfold d', Views.add_comment, Views.login_required.
  rewrite Hu, Hp, Hv. cbn [snd].
  unfold Forms.CommentForm.text_of. rewrite Htext.
  unfold ORM.Comment_insert. cbn [snd].
  set (c := Comment.mk _ (Post.id post) (User.id u) t now).
  split; [exact Hp|].
  exists c. split; [reflexivity|]. split; [reflexivity|].
  split; [reflexivity|].
  assert (Hfil : filter (fun x => Comment.post x =? Post.id post)
                   (DB.comments d ++ [c])
                 = filter (fun x => Comment.post x =? Post.id post)
                     (DB.comments d) ++ [c]).
  { rewrite filter_app. cbn [filter]. unfold c at 1.
    cbn [Comment.post]. now rewrite Z.eqb_refl. }
  unfold ORM.Post_comments. cbn [DB.comments]. rewrite Hfil.
  split.
  { intros c0. rewrite !order_by_desc_In, in_app_iff. simpl.
    intuition congruence. }
  split.
  { rewrite !order_by_desc_length, length_app. simpl. lia. }
  intros Hnew. apply order_by_desc_newest.
  intros c0 Hc0. apply filter_In in Hc0. now apply Hnew.
Qed.

Lemma add_comment_then_shown_witness :
  let request := Sample.post_request (Some Sample.carol) [("text", "me too")] in
  let d' := snd (Views.add_comment 9000 "alice" 1 request Sample.followed) in
  List.length
    (ORM.Post_comments (Post.mk 1 "from alice" 1000 1 (Some 1) "") d')
  = 2%nat.
Proof.
  destruct (proj2 (add_comment_then_shown 9000 "alice" 1
                     (Sample.post_request (Some Sample.carol)
                        [("text", "me too")])
                     Sample.followed Sample.carol
                     (Post.mk 1 "from alice" 1000 1 (Some 1) "") "me too"
                     eq_refl eq_refl eq_refl))
    as [c [_ [_ [_ [_ [H _]]]]]].
  exact H.
Defined.

(** ** Texts in the store *)

Lemma clean_text_nonempty (raw : option string) (t : string) :
  Forms.clean_text raw = inr t ->
  t <> "" /\ Py.contains Forms.NUL t = false.
Proof.
  intros H. pose proof (clean_text_cases raw) as C. cbv zeta in C.
  destruct C as [[_ C]|[[_ [_ C]]|[Hne [Hnul C]]]]; rewrite C in H;
    try discriminate.
  injection H as <-. auto.
Qed.

(** An accepted form holds an accepted text. *)
Lemma PostForm_valid_text (data : option QueryDict.t)
  (files : option Forms.Files) (d : DB.t) (old : string)
  (form : Forms.PostForm.t) :
  Forms.PostForm.make data files d = inr form ->
  Forms.PostForm.is_valid form = true ->
  let t := Forms.PostForm.text_of form old in
  t <> "" /\ Py.contains Forms.NUL t = false.
Proof.
  unfold Forms.PostForm.is_valid, Forms.PostForm.text_of,
    Forms.PostForm.make.
  destruct data as [q|], files as [fs|];
    try (intros [= <-]; discriminate);
    (destruct (Forms.clean_group d _) as [e|g]; [discriminate|]);
    intros [= <-];
    cbn [Forms.PostForm.is_bound Forms.PostForm.errors Forms.PostForm.text
         andb];
    match goal with
    | |- context [Forms.clean_text ?x] =>
        destruct (Forms.clean_text x) as [e|t] eqn:E;
          [discriminate | intros _; exact (clean_text_nonempty _ _ E)]
    end.
Qed.

Lemma CommentForm_valid_text (data : option QueryDict.t) (old : string) :
  Forms.CommentForm.is_valid (Forms.CommentForm.make data) = true ->
  let t := Forms.CommentForm.text_of (Forms.CommentForm.make data) old in
  t <> "" /\ Py.contains Forms.NUL t = false.
Proof.
  unfold Forms.CommentForm.is_valid, Forms.CommentForm.text_of,
    Forms.CommentForm.make.
  destruct data as [q|]; try discriminate.
  cbn [Forms.CommentForm.is_bound Forms.CommentForm.errors
       Forms.CommentForm.text andb].
  destruct (Forms.clean_text (QueryDict.get q "text")) as [e|t] eqn:E;
    [discriminate | intros _; exact (clean_text_nonempty _ _ E)].
Qed.

Section Texts.
Import Views.

(** Every stored post and comment has a text that is not empty and holds
    no null character. *)
Let clean (d : DB.t) : Prop :=
  (forall p, In p (DB.posts d) ->
             Post.text p <> "" /\ Py.contains Forms.NUL (Post.text p) = false)
  /\ (forall c, In c (DB.comments d) ->
                Comment.text c <> ""
                /\ Py.contains Forms.NUL (Comment.text c) = false).

Lemma new_post_clean (now : datetime) (request : HttpRequest) (d : DB.t) :
  clean d -> clean (snd (new_post now request d)).
Proof.
  intros [Hp Hc]. unfold new_post, login_required.
  destruct (user request) as [u|]; [|split; assumption].
  destruct (Forms.PostForm.make _ None d) as [e|form] eqn:F;
    [split; assumption|].
  destruct (Forms.PostForm.is_valid _) eqn:V; [|split; assumption].
  cbn [negb ORM.Post_insert snd]. split; [|exact Hc].
  cbn [DB.posts]. intros p Hin. apply in_app_iff in Hin.
  destruct Hin as [Hin|[<-|[]]]; [now apply Hp|].
  cbn [Post.text]. exact (PostForm_valid_text _ _ _ "" _ F V).
Qed.

Lemma post_edit_clean (username : string) (post_id : pk)
  (request : HttpRequest) (d : DB.t) :
  clean d -> clean (snd (post_edit username post_id request d)).
Proof.
  intros [Hp Hc]. unfold post_edit, login_required.
  destruct (user request) as [u|]; [|split; assumption].
  destruct (negb (String.eqb _ _)); [split; assumption|].
  destruct (get_post username post_id d) as [e|post];
    [split; assumption|].
  destruct (Forms.PostForm.make _ _ d) as [e|form] eqn:F;
    [split; assumption|].
  destruct (Forms.PostForm.is_valid _) eqn:V; [|split; assumption].
  cbn [negb snd]. split; [|exact Hc].
  unfold ORM.Post_update. cbn [DB.posts DB.with_posts DB.with_tables].
  intros p Hin. apply in_map_iff in Hin. destruct Hin as [q [E Hq]].
  destruct (Post.id q =? _); subst p; [|now apply Hp].
  cbn [Forms.PostForm.construct_instance Post.text].
  exact (PostForm_valid_text _ _ _ (Post.text post) _ F V).
Qed.

Lemma add_comment_clean (now : datetime) (username : string)
  (post_id : pk) (request : HttpRequest) (d : DB.t) :
  clean d -> clean (snd (add_comment now username post_id request d)).
Proof.
  intros [Hp Hc]. unfold add_comment, login_required.
  destruct (user request) as [u|]; [|split; assumption].
  destruct (get_post username post_id d) as [e|post];
    [split; assumption|].
  cbn [snd].
  destruct (Forms.CommentForm.is_valid _) eqn:V; [|split; assumption].
  unfold ORM.Comment_insert. cbn [snd]. split; [exact Hp|].
  cbn [DB.comments]. intros c Hin. apply in_app_iff in Hin.
  destruct Hin as [Hin|[<-|[]]]; [now apply Hc|].
  cbn [Comment.text]. exact (CommentForm_valid_text _ "" V).
Qed.

Lemma follow_clean (username : string) (request : HttpRequest)
  (d : DB.t) :
  clean d ->
  clean (snd (profile_follow username request d))
  /\ clean (snd (profile_unfollow username request d)).
Proof.
  intros H. unfold profile_follow, profile_unfollow, login_required.
  destruct (user request) as [u|]; [|split; exact H].
  destruct (get_user username d) as [e|a]; [split; exact H|].
  split; [|exact H].
  destruct (negb _ && negb _); [|exact H].
  unfold ORM.Follow_create.
  destruct (ORM.Follow_filter u a d); exact H.
Qed.

Lemma exec_clean (now : datetime) (a : Site.action) (s : Site.State) :
  clean (Site.db s) -> clean (Site.db (snd (Site.exec now a s))).
Proof.
  intros H.
  destruct a; cbn [Site.exec fst snd]; rewrite ?lift_db, ?index_db;
    rewrite ?group_posts_step, ?profile_step, ?post_view_step,
      ?follow_index_step; trivial.
  - now apply new_post_clean.
  - now apply add_comment_clean.
  - now apply post_edit_clean.
  - now apply follow_clean.
  - now apply follow_clean.
  - destruct H as [Hp Hc]. unfold ORM.User_delete, ORM.Post_delete.
    cbn [Site.db DB.posts DB.comments DB.with_tables]. split.
    + intros p Hin. apply filter_In in Hin. now apply Hp.
    + intros c Hin. apply CASCADE_In in Hin. destruct Hin as [Hin _].
      apply CASCADE_In in Hin. now apply Hc.
  - destruct H as [Hp Hc]. unfold ORM.Group_delete, ORM.SET_NULL.
    cbn [Site.db DB.posts DB.comments DB.with_tables]. split; [|exact Hc].
    intros p Hin. apply in_map_iff in Hin. destruct Hin as [q [<- Hq]].
    pose proof (SET_NULL_group gid q) as G. cbv zeta in G.
    destruct G as [_ [G _]]. rewrite G. now apply Hp.
  - destruct H as [Hp Hc]. unfold ORM.Post_delete.
    cbn [Site.db DB.posts DB.comments DB.with_tables]. split.
    + intros p Hin. apply filter_In in Hin. now apply Hp.
    + intros c Hin. apply CASCADE_In in Hin. now apply Hc.
Qed.

Lemma run_clean (h : list (datetime * Site.action)) (s : Site.State) :
  clean (Site.db s) -> clean (Site.db (Site.run h s)).
Proof.
  revert s. induction h as [|[now a] h IH]; intros s H; simpl; [exact H|].
  apply IH. now apply exec_clean.
Qed.

End Texts.

(** X19.  The views never store an empty text.  When every stored post
    and comment has a text that is not empty and holds no null character,
    the same is true after every history of view calls and deletions: the
    forms of [new_post], [post_edit] and [add_comment] let no other text
    through. *)
Theorem texts_stay_nonempty (h : list (datetime * Site.action))
  (s : Site.State) :
  (forall p, In p (DB.posts (Site.db s)) ->
             Post.text p <> ""
             /\ Py.contains Forms.NUL (Post.text p) = false) ->
  (forall c, In c (DB.comments (Site.db s)) ->
             Comment.text c <> ""
             /\ Py.contains Forms.NUL (Comment.text c) = false) ->
  let d' := Site.db (Site.run h s) in
  (forall p, In p (DB.posts d') ->
             Post.text p <> ""
             /\ Py.contains Forms.NUL (Post.text p) = false)
  /\ (forall c, In c (DB.comments d') ->
                Comment.text c <> ""
                /\ Py.contains Forms.NUL (Comment.text c) = false).
Proof.
  intros Hp Hc. cbv zeta. apply (run_clean h s). split; assumption.
Qed.

Lemma texts_stay_nonempty_witness :
  let h :=
    [(6000, Site.NewPost
              (Sample.post_request (Some Sample.bob) [("text", " ")]));
     (7000, Site.AddComment "alice" 1
              (Sample.post_request (Some Sample.bob) [("text", "ok")]))] in
  let d' := Site.db (Site.run h (Site.mkState Sample.followed [])) in
  (List.length (DB.posts d') = 2%nat
   /\ List.length (DB.comments d') = 2%nat)
  /\ forall p, In p (DB.posts d') ->
               Post.text p <> ""
               /\ Py.contains Forms.NUL (Post.text p) = false.
Proof.
  split; [split; reflexivity|].
  apply (proj1 (texts_stay_nonempty _ (Site.mkState Sample.followed [])
                  ltac:(simpl; intros p [<-|[<-|[]]];
                        (split; [discriminate | reflexivity]))
                  ltac:(simpl; intros c [<-|[]];
                        (split; [discriminate | reflexivity])))).
Defined.

(** ** The login wall *)

(** X20.  Each of the six views under [login_required] answers a request
    without a logged-in user with the redirect to the login page, carrying
    the full path asked for (the path and the query string), and runs
    none of its body: the store is returned as it was. *)
Theorem login_wall (now : datetime) (request : Views.HttpRequest)
  (d : DB.t) (username : string) (post_id : pk) :
  Views.user request = None ->
  let login :=
    (Views.respond
       (Views.redirect (Views.url_login (Views.get_full_path request))), d) in
  Views.new_post now request d = login
  /\ Views.add_comment now username post_id request d = login
  /\ Views.post_edit username post_id request d = login
  /\ Views.follow_index request d = login
  /\ Views.profile_follow username request d = login
  /\ Views.profile_unfollow username request d = login.
Proof.
  intros Hu. cbv zeta.
  unfold Views.new_post, Views.add_comment, Views.post_edit,
    Views.follow_index, Views.profile_follow, Views.profile_unfollow,
    Views.login_required.
  rewrite Hu. repeat split.
Qed.

Lemma login_wall_witness :
  let request :=
    Views.mkRequest Views.mGET "http://testserver" "/follow/" "page=2"
      None [("page", "2")] [] [] in
  Views.follow_index request Sample.followed
  = (Views.respond (Views.redirect (Views.url_login "/follow/?page=2")),
     Sample.followed).
Proof.
  exact (proj1 (proj2 (proj2 (proj2
           (login_wall 0
              (Views.mkRequest Views.mGET "http://testserver" "/follow/"
                 "page=2" None [("page", "2")] [] [])
              Sample.followed "alice" 1 eq_refl))))).
Defined.

(** ** A deleted user is gone from every page *)

(** X21.  After the user found under a username is deleted, the profile
    under that username answers with the not-found signal, and no post of
    that user is in the main list of posts or in anybody's following
    feed. *)
Theorem deleted_user_is_gone (username : string) (d : DB.t)
  (author : User.t) (request : Views.HttpRequest) :
  Views.get_user username d = inr author ->
  let d' := ORM.User_delete (User.id author) d in
  Views.profile username request d' = (Views.Raise Http404, d')
  /\ (forall p, In p (ORM.Post_all d') ->
                Post.author p <> User.id author)
  /\ (forall u p,
         In p (ORM.Post_author_following_in (ORM.Follow_by_user u d') d') ->
         Post.author p <> User.id author).
Proof.
  intros Ha d'.
  assert (Hposts : forall p, In p (DB.posts d') ->
                             Post.author p <> User.id author).
  { intros p Hin. unfold d', ORM.User_delete, ORM.Post_delete in Hin.
    cbn [DB.posts DB.with_tables] in Hin.
    apply filter_In in Hin. destruct Hin as [Hin M].
    intros E. apply negb_true_iff in M.
    assert (T : ORM.mem (Post.id p)
                  (map Post.id
                     (filter (fun q => Post.author q =? User.id author)
                        (DB.posts d))) = true).
    { apply mem_In, in_map, filter_In. split; [exact Hin|].
      now apply Z.eqb_eq. }
    congruence. }
  split; [|split].
  - unfold Views.profile, Views.get_user.
    rewrite get_object_or_404_empty; [reflexivity|].
    apply filter_none. intros v Hv.
    unfold d', ORM.User_delete in Hv. cbn [DB.users DB.with_tables] in Hv.
    apply filter_In in Hv. destruct Hv as [Hv Hid].
    apply negb_true_iff, Z.eqb_neq in Hid.
    destruct (String.eqb (User.username v) username) eqn:E;
      [|reflexivity].
    apply String.eqb_eq in E. exfalso. apply Hid.
    apply (author_username_found username d author (User.id v) Ha).
    unfold ORM.author_username. apply existsb_exists. exists v.
    split; [exact Hv|]. apply String.eqb_eq in E.
    now rewrite Z.eqb_refl, E.
  - intros p Hin. apply Hposts.
    exact (proj1 (order_by_desc_In Post.pub_date (DB.posts d') p) Hin).
  - intros u p Hin. apply Hposts.
    unfold ORM.Post_author_following_in in Hin.
    apply (proj1 (order_by_desc_In Post.pub_date _ p)) in Hin.
    apply in_flat_map in Hin. destruct Hin as [q [Hq Hm]].
    apply in_map_iff in Hm. destruct Hm as [f [<- _]]. exact Hq.
Qed.

Lemma deleted_user_is_gone_witness :
  Views.profile "alice" (Sample.get_request None [])
    (ORM.User_delete 1 Sample.followed)
  = (Views.Raise Http404, ORM.User_delete 1 Sample.followed).
Proof.
  exact (proj1 (deleted_user_is_gone "alice" Sample.followed Sample.alice
                  (Sample.get_request None []) eq_refl)).
Defined.
